(** * Funlish: attendance ledger, session tokens and team allocator

    A shallow embedding of the business rules of the Funlish event
    application (Next.js client over a Supabase/PostgreSQL store):

    - [JS]         the JavaScript value semantics the code relies on
                   (binary64 numbers, truthiness, [x || null], [Math.round],
                   the JSON text of a number);
    - [Store]      the relational store of [supabase/schema-v3.sql] with the
                   constraints the schema declares (SERIAL keys, UNIQUE,
                   foreign keys, column defaults, the scale of the DECIMAL
                   columns, the updated_at trigger);
    - [Attendance] [AttendanceContext]: [fetchMembers], [markAttendance],
                   [stats], and the report page's [attendanceRate];
    - [Auth]       [AuthContext]: [generateSessionToken], [login],
                   [validateSession];
    - [Teams]      the teams page: [handleAddParticipant];
    - [JSText]     strings and array slices ([split], [join], [slice],
                   [Math.ceil]);
    - [TeamStore]  the DELETE and UPDATE statements of the teams page;
    - [Session]    permissions by role, the session poll and the reload;
                   [LoginPage] the submission of the login form;
    - [AttendanceProvider], [AttendanceList]
                   the selected date, the refreshes, the filters and the
                   detected address of the attendance page;
    - [TeamsPage]  [fetchTeamsAndParticipants] as the page holds it,
                   [handleDeleteParticipant], [handleDeleteTeam],
                   [confirmMove], [handleAddTeam];
    - [Report]     the pages of the printed report.

    Every request to the store is one call of a [Store] operation; whether
    the request reaches the store, the store's clock, the browser's clock,
    the random numbers and the photo upload are inputs of the operation. *)

From Stdlib Require Import ZArith QArith Qround Ascii String Floats.SpecFloat.
From stdpp Require Import gmap strings list pretty sorting.

Local Open Scope Z_scope.

(* ===================================================================== *)
(** ** JavaScript values *)
(* ===================================================================== *)

Module JS.

(** A JavaScript [number] is an IEEE-754 binary64 value. *)
Definition number : Type := spec_float.

Definition prec : Z := 53.
Definition emax : Z := 1024.

#[global] Instance number_eq_dec : EqDecision number.
Proof. solve_decision. Defined.

(** The number denoted by an integer literal or an integer count. *)
Definition of_Z (z : Z) : number := binary_normalize prec emax z 0 false.
Definition of_nat (n : nat) : number := of_Z (Z.of_nat n).

(** [x / y] and [x * y] on numbers: round to nearest, ties to even. *)
Definition div (x y : number) : number := SFdiv prec emax x y.
Definition mul (x y : number) : number := SFmul prec emax x y.

(** [Math.round(x)]: the integral number closest to [x], ties towards
    +infinity, that is floor(x + 1/2) computed exactly; NaN, the zeros
    and the infinities are returned unchanged, and a result of zero keeps
    the sign of [x]. *)
Definition Math_round (x : number) : number :=
  match x with
  | S754_finite s m e =>
      if 0 <=? e then x
      else
        let n := (2 * cond_Zopp s (Z.pos m) + 2 ^ (- e)) / 2 ^ (1 - e) in
        if n =? 0 then S754_zero s else of_Z n
  | _ => x
  end.

(** Truthiness: [0], [-0], [NaN] and the empty string are falsy. *)
Class Truthy (A : Type) := truthy : A -> bool.

#[global] Instance truthy_number : Truthy number := fun x =>
  match x with
  | S754_zero _ | S754_nan => false
  | _ => true
  end.

(** Row identifiers are integral numbers; only [0] is falsy. *)
#[global] Instance truthy_Z : Truthy Z := fun z => negb (z =? 0).

#[global] Instance truthy_string : Truthy string := fun s =>
  match s with
  | EmptyString => false
  | _ => true
  end.

(** [x || null] where [x] may be [undefined] or [null] (both [None]). *)
Definition or_null {A} `{Truthy A} (x : option A) : option A :=
  match x with
  | Some v => if truthy v then Some v else None
  | None => None
  end.

#[global] Arguments or_null : simpl never.

(** *** Numbers as JSON text *)

(** The number nearest to [n / d], for [0 < d], ties to even: the value
    of the decimal literal that denotes [n / d]. [SFdiv] rounds the exact
    quotient of the two integers. *)
Definition nearest (n d : Z) : number :=
  match n with
  | Z0 => S754_zero false
  | Zpos p => div (S754_finite false p 0) (S754_finite false (Z.to_pos d) 0)
  | Zneg p => div (S754_finite true p 0) (S754_finite false (Z.to_pos d) 0)
  end.

(** The number the literal [s]e[p] denotes: nearest to [s * 10^p]. *)
Definition decimal (s p : Z) : number :=
  if 0 <=? p then nearest (s * 10 ^ p) 1 else nearest s (10 ^ (- p)).

(** The integral part of [(n / d) / 10^p], for [0 <= n] and [0 < d]. *)
Definition scaled (n d p : Z) : Z :=
  if 0 <=? p then n / (d * 10 ^ p) else (n * 10 ^ (- p)) / d.

(** The least [k], from [k0] on, with [n / d < 10^k]. *)
Fixpoint magnitude_from (fuel : nat) (n d k0 : Z) : Z :=
  match fuel with
  | O => k0
  | S fuel' =>
      if scaled n d k0 =? 0 then k0 else magnitude_from fuel' n d (k0 + 1)
  end.

(** The number of digits before the point of [n / d], for [0 < n] and
    [0 < d]: the least [k] with [n / d < 10^k]. With [b] the difference of
    the numbers of bits, [2^(b-1) < n / d < 2^(b+1)], and 0.30102 is just
    below the logarithm of 2: the search starts below [k] and reaches it
    within five steps. *)
Definition magnitude (n d : Z) : Z :=
  let b := Z.log2 n - Z.log2 d in
  magnitude_from 5 n d ((b - 1) * 30102 / 100000 - 1).

(** [Number::toString] for a positive number [x], which is [n / d] and
    has [mag] digits before the point: the digits [s] and the exponent [p]
    of the shortest decimal [s * 10^p] that denotes [x]; of two decimals
    of that length the one closer to [x], the even one when they are as
    close. [k] is the number of digits tried; seventeen always suffice. *)
Fixpoint shortest (fuel : nat) (x : number) (n d mag k : Z) : Z * Z :=
  let p := mag - k in
  let lo := scaled n d p in
  let hi := lo + 1 in
  match fuel with
  | O => (lo, p)
  | S fuel' =>
      let side :=
        if 0 <=? p then Z.compare (2 * n) ((2 * lo + 1) * 10 ^ p * d)
        else Z.compare (2 * n * 10 ^ (- p)) ((2 * lo + 1) * d) in
      let lower :=
        match side with
        | Lt => true
        | Eq => Z.even lo
        | Gt => false
        end in
      match bool_decide (decimal lo p = x), bool_decide (decimal hi p = x) with
      | true, true => if lower then (lo, p) else (hi, p)
      | true, false => (lo, p)
      | false, true => (hi, p)
      | false, false => shortest fuel' x n d mag (k + 1)
      end
  end.

(** The number [JSON.stringify] writes for [x], as digits [s] and exponent
    [p] (the text denotes [s * 10^p]); NaN and the infinities are written
    as null. *)
Definition JSON_number (x : number) : option (Z * Z) :=
  match x with
  | S754_zero _ => Some (0, 0)
  | S754_finite sign m e =>
      match binary_normalize prec emax (Z.pos m) e false with
      | S754_finite _ m' e' =>
          let n := if 0 <=? e' then Z.pos m' * 2 ^ e' else Z.pos m' in
          let d := if 0 <=? e' then 1 else 2 ^ (- e') in
          let '(s, p) :=
            shortest 17 (S754_finite false m' e') n d (magnitude n d) 1 in
          Some (cond_Zopp sign s, p)
      | S754_zero _ => Some (0, 0)
      | _ => None
      end
  | _ => None
  end.

#[global] Arguments JSON_number : simpl never.

(** [str.startsWith(prefix)] *)
Definition startsWith (str pre : string) : bool := String.prefix pre str.

End JS.

Import JS.

(* ===================================================================== *)
(** ** The relational store (supabase/schema-v3.sql and its migrations) *)
(* ===================================================================== *)

Module Store.

Inductive Department :=
  | administrator | pr_communication | protocol_ceremonial | fnb
  | sponsorship_finance | logistics_operations | technical_it_support
  | evaluation_research_documentation | health_safety_welfare
  | executive | program_activities.

Inductive UserRole :=
  | admin | chairperson | protocol | registration_coordinator | committee.

Inductive UserStatus := active | inactive.

Inductive AttendanceStatus := attend | absent.

#[global] Instance Department_eq_dec : EqDecision Department.
Proof. solve_decision. Defined.
#[global] Instance UserRole_eq_dec : EqDecision UserRole.
Proof. solve_decision. Defined.
#[global] Instance UserStatus_eq_dec : EqDecision UserStatus.
Proof. solve_decision. Defined.
#[global] Instance AttendanceStatus_eq_dec : EqDecision AttendanceStatus.
Proof. solve_decision. Defined.

(** Timestamps and dates travel as ISO-8601 strings. *)
Definition timestamp : Type := string.

(** Table [users], with the session columns of
    migration-session-token.sql. *)
Record UserRow := mkUserRow {
  u_id : Z;
  u_username : string;
  u_password : string;
  u_name : string;
  u_department : Department;
  u_role : UserRole;
  u_status : UserStatus;
  u_session_token : option string;
  u_session_updated_at : option timestamp;
  u_created_at : timestamp;
  u_updated_at : timestamp
}.

(** Table [groups]. *)
Record Group := mkGroup {
  g_id : Z;
  g_name : string;
  g_created_at : timestamp
}.

(** Table [participants], with the [registered_by] column of the
    marked_by/registered_by migration. *)
Record ParticipantRow := mkParticipantRow {
  p_id : Z;
  p_name : string;
  p_group_id : option Z;
  p_registered_at : timestamp;
  p_created_at : timestamp;
  p_registered_by : option Z
}.

(** Table [committee_members]. *)
Record CommitteeMember := mkCommitteeMember {
  cm_id : Z;
  cm_name : string;
  cm_department : Department;
  cm_created_at : timestamp
}.

(** Table [attendance], with the [marked_by] column of the
    marked_by/registered_by migration. *)
Record AttendanceRecord := mkAttendanceRecord {
  ar_id : Z;
  ar_committee_member_id : Z;
  ar_attendance_date : string;
  ar_status : AttendanceStatus;
  ar_photo_url : option string;
  ar_latitude : option number;
  ar_longitude : option number;
  ar_accuracy : option number;
  ar_address : option string;
  ar_check_in_time : option timestamp;
  ar_created_at : timestamp;
  ar_updated_at : timestamp;
  ar_marked_by : option Z
}.

(** The tables, each SERIAL key with the next value of its sequence. *)
Record DB := mkDB {
  users : list UserRow;
  groups : list Group;
  groups_seq : Z;
  participants : list ParticipantRow;
  participants_seq : Z;
  committee_members : list CommitteeMember;
  attendance : list AttendanceRecord;
  attendance_seq : Z
}.

Definition set_users (db : DB) (us : list UserRow) : DB :=
  mkDB us (groups db) (groups_seq db) (participants db) (participants_seq db)
       (committee_members db) (attendance db) (attendance_seq db).

Definition set_groups (db : DB) (gs : list Group) (seq : Z) : DB :=
  mkDB (users db) gs seq (participants db) (participants_seq db)
       (committee_members db) (attendance db) (attendance_seq db).

Definition set_participants (db : DB) (ps : list ParticipantRow) (seq : Z) : DB :=
  mkDB (users db) (groups db) (groups_seq db) ps seq
       (committee_members db) (attendance db) (attendance_seq db).

Definition set_attendance (db : DB) (rs : list AttendanceRecord) (seq : Z) : DB :=
  mkDB (users db) (groups db) (groups_seq db) (participants db)
       (participants_seq db) (committee_members db) rs seq.

(** What a request can come back with instead of data. *)
Inductive Error :=
  | Unavailable            (* the request did not reach the store *)
  | NotSingleRow           (* [.single()] on zero or several rows *)
  | PrimaryKeyViolation
  | UniqueViolation
  | ForeignKeyViolation
  | ClientError (msg : string).  (* an exception thrown by the client code *)

Inductive result (A : Type) :=
  | Ok (a : A)
  | Err (e : Error).
Arguments Ok {A} a.
Arguments Err {A} e.

Definition is_ok {A} (r : result A) : bool :=
  match r with Ok _ => true | Err _ => false end.

(** One request: whether it reaches the store, and the store's [NOW()]
    while it is served. *)
Record Req := mkReq {
  delivered : bool;
  NOW : timestamp
}.

(** [.single()]: exactly one row, or an error. *)
Definition single {A} (rows : list A) : result A :=
  match rows with
  | [r] => Ok r
  | _ => Err NotSingleRow
  end.

(** *** users *)

(** [from("users").select(..).eq("username", u).eq("status", "active").single()] *)
Definition select_active_user (rq : Req) (db : DB) (username : string)
  : result UserRow :=
  if delivered rq then
    single (filter (fun u => u_username u = username /\ u_status u = active)
                   (users db))
  else Err Unavailable.

(** [from("users").select("session_token, status").eq("id", id).single()] *)
Definition select_user_session (rq : Req) (db : DB) (id : Z)
  : result (option string * UserStatus) :=
  if delivered rq then
    match single (filter (fun u => u_id u = id) (users db)) with
    | Ok u => Ok (u_session_token u, u_status u)
    | Err e => Err e
    end
  else Err Unavailable.

(** [from("users").update({session_token, session_updated_at}).eq("id", id)];
    the [update_users_updated_at] trigger stamps the row. *)
Definition update_user_session (rq : Req) (db : DB) (id : Z)
    (token : option string) (updated_at : option timestamp)
  : result unit * DB :=
  if delivered rq then
    (Ok (),
     set_users db
       (map (fun u =>
               if decide (u_id u = id) then
                 mkUserRow (u_id u) (u_username u) (u_password u) (u_name u)
                   (u_department u) (u_role u) (u_status u)
                   token updated_at (u_created_at u) (NOW rq)
               else u)
            (users db)))
  else (Err Unavailable, db).

(** *** committee_members and attendance *)

(** The order of [.order("id", {ascending: true})]. *)
Definition cm_le (a b : CommitteeMember) : Prop := cm_id a <= cm_id b.

#[global] Instance cm_le_dec : RelDecision cm_le.
Proof. intros a b. unfold cm_le. apply _. Defined.

(** [from("committee_members").select("*").order("id", {ascending: true})] *)
Definition select_committee_members (rq : Req) (db : DB)
  : result (list CommitteeMember) :=
  if delivered rq then
    Ok (merge_sort cm_le (committee_members db))
  else Err Unavailable.

(** [from("attendance").select("*").eq("attendance_date", date)] *)
Definition select_attendance (rq : Req) (db : DB) (date : string)
  : result (list AttendanceRecord) :=
  if delivered rq then
    Ok (filter (fun r => ar_attendance_date r = date) (attendance db))
  else Err Unavailable.

(** The columns a write of [markAttendance] carries: the object literal
    [attendanceData]. *)
Record AttendanceData := mkAttendanceData {
  ad_committee_member_id : Z;
  ad_attendance_date : string;
  ad_status : AttendanceStatus;
  ad_photo_url : option string;
  ad_latitude : option number;
  ad_longitude : option number;
  ad_accuracy : option number;
  ad_address : option string;
  ad_check_in_time : option timestamp
}.

Definition member_exists (db : DB) (id : Z) : bool :=
  bool_decide (id ∈ map cm_id (committee_members db)).

Definition user_exists (db : DB) (id : option Z) : bool :=
  match id with
  | Some i => bool_decide (i ∈ map u_id (users db))
  | None => true
  end.

Definition group_exists (db : DB) (id : option Z) : bool :=
  match id with
  | Some i => bool_decide (i ∈ map g_id (groups db))
  | None => true
  end.

(** The key of UNIQUE(committee_member_id, attendance_date). *)
Definition ar_key (r : AttendanceRecord) : Z * string :=
  (ar_committee_member_id r, ar_attendance_date r).

Definition ad_key (d : AttendanceData) : Z * string :=
  (ad_committee_member_id d, ad_attendance_date d).

(** What a [DECIMAL(_, scale)] column keeps of a number written to it, as
    a read gives it back. The number arrives as the JSON text of the
    request (null for an infinity); the column keeps the decimal rounded
    to [scale] digits after the point, half away from zero; a read parses
    the decimal kept. The precision of the column bounds the digits
    before the point (two for [latitude], three for [longitude], eight for
    [accuracy]); positions on Earth and their accuracies in metres are
    within it. *)
Definition numeric_round (scale : Z) (x : number) : option number :=
  match JSON_number x with
  | None => None
  | Some (s, p) =>
      let q := p + scale in
      let n := if 0 <=? q then Z.abs s * 10 ^ q else Z.abs s in
      let d := if 0 <=? q then 1 else 10 ^ (- q) in
      Some (nearest (Z.sgn s * ((2 * n + d) / (2 * d))) (10 ^ scale))
  end.

#[global] Arguments numeric_round : simpl never.

(** The columns [latitude DECIMAL(10, 8)], [longitude DECIMAL(11, 8)] and
    [accuracy DECIMAL(10, 2)]. *)
Definition latitude_column (x : option number) : option number :=
  x ≫= numeric_round 8.
Definition longitude_column (x : option number) : option number :=
  x ≫= numeric_round 8.
Definition accuracy_column (x : option number) : option number :=
  x ≫= numeric_round 2.

(** The row an INSERT of [data] creates: the columns the object does not
    name take their defaults ([id]: the sequence; [created_at],
    [updated_at]: NOW(); [marked_by]: NULL). *)
Definition new_attendance_row (id : Z) (now : timestamp) (d : AttendanceData)
  : AttendanceRecord :=
  mkAttendanceRecord id (ad_committee_member_id d) (ad_attendance_date d)
    (ad_status d) (ad_photo_url d)
    (latitude_column (ad_latitude d)) (longitude_column (ad_longitude d))
    (accuracy_column (ad_accuracy d)) (ad_address d) (ad_check_in_time d)
    now now None.

(** [from("attendance").insert(data).select().single()]: the key comes from
    the sequence, which advances whether or not the row is accepted. *)
Definition insert_attendance (rq : Req) (db : DB) (d : AttendanceData)
  : result AttendanceRecord * DB :=
  if delivered rq then
    let id := attendance_seq db in
    let row := new_attendance_row id (NOW rq) d in
    let rejected e := (Err e, set_attendance db (attendance db) (id + 1)) in
    if bool_decide (id ∈ map ar_id (attendance db)) then
      rejected PrimaryKeyViolation
    else if negb (member_exists db (ad_committee_member_id d)) then
      rejected ForeignKeyViolation
    else if bool_decide (ad_key d ∈ map ar_key (attendance db)) then
      rejected UniqueViolation
    else (Ok row, set_attendance db (attendance db ++ [row]) (id + 1))
  else (Err Unavailable, db).

(** The row an UPDATE with [data] turns [r] into; the
    [update_attendance_updated_at] trigger stamps it. *)
Definition apply_attendance_data (now : timestamp) (d : AttendanceData)
    (r : AttendanceRecord) : AttendanceRecord :=
  mkAttendanceRecord (ar_id r) (ad_committee_member_id d)
    (ad_attendance_date d) (ad_status d) (ad_photo_url d)
    (latitude_column (ad_latitude d)) (longitude_column (ad_longitude d))
    (accuracy_column (ad_accuracy d)) (ad_address d) (ad_check_in_time d)
    (ar_created_at r) now (ar_marked_by r).

(** [from("attendance").update(data).eq("id", id)]: rows with that key are
    rewritten; no matching row is not an error. *)
Definition update_attendance (rq : Req) (db : DB) (id : Z) (d : AttendanceData)
  : result unit * DB :=
  if delivered rq then
    let targets := filter (fun r => ar_id r = id) (attendance db) in
    let others := filter (fun r => ar_id r <> id) (attendance db) in
    match targets with
    | [] => (Ok (), db)
    | _ :: rest =>
        if negb (member_exists db (ad_committee_member_id d)) then
          (Err ForeignKeyViolation, db)
        else if bool_decide (ad_key d ∈ map ar_key others)
                || negb (bool_decide (rest = [])) then
          (Err UniqueViolation, db)
        else
          (Ok (),
           set_attendance db
             (map (fun r => if decide (ar_id r = id)
                            then apply_attendance_data (NOW rq) d r else r)
                  (attendance db))
             (attendance_seq db))
    end
  else (Err Unavailable, db).

(** *** groups and participants *)

Definition g_le (a b : Group) : Prop := g_id a <= g_id b.

#[global] Instance g_le_dec : RelDecision g_le.
Proof. intros a b. unfold g_le. apply _. Defined.

(** The order of [.order("registered_at", {ascending: true})]: timestamps
    of one format compare as their strings do. *)
Definition p_le (a b : ParticipantRow) : Prop :=
  String.leb (p_registered_at a) (p_registered_at b) = true.

#[global] Instance p_le_dec : RelDecision p_le.
Proof. intros a b. unfold p_le. apply _. Defined.

(** [from("groups").select("*").order("id", {ascending: true})] *)
Definition select_groups (rq : Req) (db : DB) : result (list Group) :=
  if delivered rq then
    Ok (merge_sort g_le (groups db))
  else Err Unavailable.

(** [from("participants").select("*").order("registered_at", {ascending: true})] *)
Definition select_participants (rq : Req) (db : DB)
  : result (list ParticipantRow) :=
  if delivered rq then
    Ok (merge_sort p_le (participants db))
  else Err Unavailable.

(** [from("groups").insert({name}).select().single()] *)
Definition insert_group (rq : Req) (db : DB) (name : string)
  : result Group * DB :=
  if delivered rq then
    let id := groups_seq db in
    let row := mkGroup id name (NOW rq) in
    if bool_decide (id ∈ map g_id (groups db)) then
      (Err PrimaryKeyViolation, set_groups db (groups db) (id + 1))
    else (Ok row, set_groups db (groups db ++ [row]) (id + 1))
  else (Err Unavailable, db).

(** [from("participants").insert({name, group_id, registered_by}).select().single()] *)
Definition insert_participant (rq : Req) (db : DB) (name : string)
    (group_id registered_by : option Z) : result ParticipantRow * DB :=
  if delivered rq then
    let id := participants_seq db in
    let row := mkParticipantRow id name group_id (NOW rq) (NOW rq) registered_by in
    let rejected e := (Err e, set_participants db (participants db) (id + 1)) in
    if bool_decide (id ∈ map p_id (participants db)) then
      rejected PrimaryKeyViolation
    else if negb (group_exists db group_id && user_exists db registered_by) then
      rejected ForeignKeyViolation
    else (Ok row, set_participants db (participants db ++ [row]) (id + 1))
  else (Err Unavailable, db).

End Store.

Import Store.

(* ===================================================================== *)
(** ** AttendanceContext: the attendance ledger seen from the client *)
(* ===================================================================== *)

Module Attendance.

Record LocationData := mkLocationData {
  loc_latitude : number;
  loc_longitude : number;
  loc_accuracy : number;
  loc_address : option string;
  loc_timestamp : option string
}.

(** Combined view for the UI: a member with the attendance of the
    selected date. *)
Record MemberAttendance := mkMemberAttendance {
  ma_member_id : Z;
  ma_name : string;
  ma_department : Department;
  ma_attendance_id : option Z;
  ma_attendance_date : string;
  ma_status : AttendanceStatus;
  ma_photo_url : option string;
  ma_latitude : option number;
  ma_longitude : option number;
  ma_accuracy : option number;
  ma_address : option string;
  ma_check_in_time : option timestamp
}.

(** The state held by [AttendanceProvider]. *)
Record State := mkState {
  members : list MemberAttendance;
  selectedDate : string;
  isLoading : bool;
  error : option string
}.

(** [attendanceMap]: every record of the date is [set] under its member,
    a later record replacing an earlier one. *)
Definition attendanceMap (records : list AttendanceRecord)
  : gmap Z AttendanceRecord :=
  foldl (fun m r => <[ar_committee_member_id r := r]> m) ∅ records.

(** The body of [(committeeMembers || []).map(...)]. *)
Definition combine (targetDate : string) (amap : gmap Z AttendanceRecord)
    (member : CommitteeMember) : MemberAttendance :=
  let attendance := amap !! cm_id member in
  mkMemberAttendance
    (cm_id member) (cm_name member) (cm_department member)
    (or_null (ar_id <$> attendance))
    targetDate
    (match attendance with Some a => ar_status a | None => absent end)
    (or_null (attendance ≫= ar_photo_url))
    (or_null (attendance ≫= ar_latitude))
    (or_null (attendance ≫= ar_longitude))
    (or_null (attendance ≫= ar_accuracy))
    (or_null (attendance ≫= ar_address))
    (or_null (attendance ≫= ar_check_in_time)).

Definition combined (targetDate : string)
    (committeeMembers : list CommitteeMember)
    (attendanceRecords : list AttendanceRecord) : list MemberAttendance :=
  map (combine targetDate (attendanceMap attendanceRecords)) committeeMembers.

(** [fetchMembers(date, showLoading)]: two reads, then [setMembers]; a read
    that fails leaves [members] as they were. *)
Definition fetchMembers (st : State) (db : DB) (date : option string)
    (showLoading : bool) (rq_members rq_attendance : Req) : State :=
  let targetDate := default (selectedDate st) (or_null date) in
  let loading := if showLoading then true else isLoading st in
  let err := if showLoading then None else error st in
  let failed :=
    if showLoading
    then mkState (members st) (selectedDate st) false
                 (Some "Failed to load members"%string)
    else mkState (members st) (selectedDate st) loading err in
  match select_committee_members rq_members db with
  | Err _ => failed
  | Ok committeeMembers =>
      match select_attendance rq_attendance db targetDate with
      | Err _ => failed
      | Ok attendanceRecords =>
          mkState (combined targetDate committeeMembers attendanceRecords)
                  (selectedDate st)
                  (if showLoading then false else loading) err
      end
  end.

(** [isBase64Image] of lib/storage.ts. *)
Definition isBase64Image (str : string) : bool := startsWith str "data:image/".

(** What one call of [markAttendance] reads from outside: the value
    [uploadAttendancePhoto] resolves to (the public URL, or null when the
    upload fails), the two readings of [new Date().toISOString()] (for the
    written row and for the local state), and the request to the store. *)
Record MarkEnv := mkMarkEnv {
  uploaded : option string;
  now_data : timestamp;
  now_state : timestamp;
  mark_rq : Req
}.

Definition finalPhotoUrl (env : MarkEnv) (photoUrl : option string)
  : option string :=
  match or_null photoUrl with
  | Some p => if isBase64Image p then uploaded env else Some p
  | None => None
  end.

(** The object literal [attendanceData]. *)
Definition attendanceData (st : State) (env : MarkEnv) (memberId : Z)
    (status : AttendanceStatus) (photoUrl : option string)
    (location : option LocationData) : AttendanceData :=
  mkAttendanceData memberId (selectedDate st) status
    (finalPhotoUrl env photoUrl)
    (or_null (loc_latitude <$> location))
    (or_null (loc_longitude <$> location))
    (or_null (loc_accuracy <$> location))
    (or_null (location ≫= loc_address))
    (match status with attend => Some (now_data env) | absent => None end).

(** The function given to [setMembers] after a write; [newId] is the key of
    the inserted record, absent on the update path. *)
Definition mark_local (env : MarkEnv) (memberId : Z) (newId : option Z)
    (status : AttendanceStatus) (photoUrl : option string)
    (location : option LocationData) (m : MemberAttendance)
  : MemberAttendance :=
  if decide (ma_member_id m = memberId) then
    mkMemberAttendance
      (ma_member_id m) (ma_name m) (ma_department m)
      (match newId with Some i => Some i | None => ma_attendance_id m end)
      (ma_attendance_date m)
      status
      (finalPhotoUrl env photoUrl)
      (or_null (loc_latitude <$> location))
      (or_null (loc_longitude <$> location))
      (or_null (loc_accuracy <$> location))
      (or_null (location ≫= loc_address))
      (match status with attend => Some (now_state env) | absent => None end)
  else m.

Definition set_members (st : State) (ms : list MemberAttendance) : State :=
  mkState ms (selectedDate st) (isLoading st) (error st).

(** [markAttendance(memberId, status, photoUrl?, location?)]: INSERT or
    UPDATE, decided on the [attendance_id] the local roster holds. An error
    is rethrown to the caller: [Err]. *)
Definition markAttendance (st : State) (db : DB) (env : MarkEnv)
    (memberId : Z) (status : AttendanceStatus) (photoUrl : option string)
    (location : option LocationData) : result unit * DB * State :=
  match find (fun m => bool_decide (ma_member_id m = memberId)) (members st) with
  | None => (Err (ClientError "Member not found"), db, st)
  | Some member =>
      let data := attendanceData st env memberId status photoUrl location in
      match or_null (ma_attendance_id member) with
      | Some attendance_id =>
          match update_attendance (mark_rq env) db attendance_id data with
          | (Ok _, db') =>
              (Ok (), db',
               set_members st
                 (map (mark_local env memberId None status photoUrl location)
                      (members st)))
          | (Err e, db') => (Err e, db', st)
          end
      | None =>
          match insert_attendance (mark_rq env) db data with
          | (Ok newRecord, db') =>
              (Ok (), db',
               set_members st
                 (map (mark_local env memberId (Some (ar_id newRecord))
                                  status photoUrl location)
                      (members st)))
          | (Err e, db') => (Err e, db', st)
          end
      end
  end.

(** [stats] *)
Record Stats := mkStats {
  stats_total : nat;
  stats_attend : nat;
  stats_absent : nat
}.

Definition stats (ms : list MemberAttendance) : Stats :=
  mkStats (length ms)
          (length (filter (fun m => ma_status m = attend) ms))
          (length (filter (fun m => ma_status m = absent) ms)).

(** [attendanceRate] of the report page:
    [stats.total > 0 ? Math.round((stats.attend / stats.total) * 100) : 0] *)
Definition attendanceRate (s : Stats) : number :=
  if bool_decide (0 < stats_total s)%nat then
    Math_round (mul (div (of_nat (stats_attend s)) (of_nat (stats_total s)))
                    (of_Z 100))
  else of_Z 0.

(** The rate as the specification words it: attend/total × 100 rounded to
    the nearest integer (halves up), 0 when total = 0. *)
Definition spec_rate (attend total : nat) : Z :=
  if bool_decide (total = 0%nat) then 0
  else Qfloor (Qplus (Qmult (Qdiv (inject_Z (Z.of_nat attend))
                                       (inject_Z (Z.of_nat total)))
                                 (inject_Z 100))
                          (Qmake 1 2)).

(** *** The ledger over time *)

(** The record the table holds for a member and a date. *)
Definition record_for (db : DB) (memberId : Z) (date : string)
  : option AttendanceRecord :=
  find (fun r => bool_decide (ar_key r = (memberId, date))) (attendance db).

(** What the schema guarantees of the attendance table: the UNIQUE
    constraint, the primary key, and keys drawn from a sequence that starts
    at 1. *)
Definition att_ok (db : DB) : Prop :=
  NoDup (map ar_key (attendance db)) /\
  NoDup (map ar_id (attendance db)) /\
  0 < attendance_seq db /\
  Forall (fun r => 0 < ar_id r < attendance_seq db) (attendance db).

(** The local roster knows, for the selected date, which members have a
    record: the state after a fetch or after a write of its own. *)
Definition coherent (db : DB) (st : State) : Prop :=
  Forall (fun e => or_null (ma_attendance_id e)
                   = ar_id <$> record_for db (ma_member_id e) (selectedDate st))
         (members st).

#[global] Instance att_ok_dec db : Decision (att_ok db).
Proof. unfold att_ok. apply _. Defined.

#[global] Instance coherent_dec db st : Decision (coherent db st).
Proof. unfold coherent. apply _. Defined.

(** A row carries what a call supplied: every detail field holds the
    supplied value, and null where none was supplied. *)
Definition carries_supplied (photoUrl : option string)
    (location : option LocationData) (row : AttendanceRecord) : Prop :=
  ar_photo_url row = photoUrl /\
  ar_latitude row = loc_latitude <$> location /\
  ar_longitude row = loc_longitude <$> location /\
  ar_accuracy row = loc_accuracy <$> location /\
  ar_address row = location ≫= loc_address.

(** A roster entry is paired with a record: it shows the record's key,
    status and detail fields. *)
Definition paired_with (e : MemberAttendance) (r : AttendanceRecord) : Prop :=
  ma_attendance_id e = Some (ar_id r) /\
  ma_status e = ar_status r /\
  ma_photo_url e = ar_photo_url r /\
  ma_latitude e = ar_latitude r /\
  ma_longitude e = ar_longitude r /\
  ma_accuracy e = ar_accuracy r /\
  ma_address e = ar_address r /\
  ma_check_in_time e = ar_check_in_time r.

(** A record none of whose optional fields holds a falsy value (0, NaN or
    the empty text), and whose key is not 0. *)
Definition no_falsy_field (r : AttendanceRecord) : Prop :=
  or_null (Some (ar_id r)) = Some (ar_id r) /\
  or_null (ar_photo_url r) = ar_photo_url r /\
  or_null (ar_latitude r) = ar_latitude r /\
  or_null (ar_longitude r) = ar_longitude r /\
  or_null (ar_accuracy r) = ar_accuracy r /\
  or_null (ar_address r) = ar_address r /\
  or_null (ar_check_in_time r) = ar_check_in_time r.

(** A roster entry synthesized for a member without a record. *)
Definition synthesized_absent (e : MemberAttendance) : Prop :=
  ma_attendance_id e = None /\
  ma_status e = absent /\
  ma_photo_url e = None /\
  ma_latitude e = None /\
  ma_longitude e = None /\
  ma_accuracy e = None /\
  ma_address e = None /\
  ma_check_in_time e = None.

(** The rows of every table, the sequences left aside. *)
Definition rows_eq (db db' : DB) : Prop :=
  users db = users db' /\ groups db = groups db' /\
  participants db = participants db' /\
  committee_members db = committee_members db' /\
  attendance db = attendance db'.

(** What the provider does between two renderings: a mark for some member,
    or a refresh of the roster ([fetchMembers(selectedDate, ..)], every two
    seconds and on demand). *)
Inductive Op :=
  | Mark (env : MarkEnv) (memberId : Z) (status : AttendanceStatus)
         (photoUrl : option string) (location : option LocationData)
  | Refresh (showLoading : bool) (rq_members rq_attendance : Req).

Definition step (s : DB * State) (op : Op) : DB * State :=
  match op with
  | Mark env memberId status photoUrl location =>
      let '(_, db', st') :=
        markAttendance (snd s) (fst s) env memberId status photoUrl location in
      (db', st')
  | Refresh showLoading rq_members rq_attendance =>
      (fst s,
       fetchMembers (snd s) (fst s) (Some (selectedDate (snd s))) showLoading
                    rq_members rq_attendance)
  end.

Definition run (s : DB * State) (ops : list Op) : DB * State :=
  foldl step s ops.

End Attendance.

(* ===================================================================== *)
(** ** AuthContext: login, session token, session validation *)
(* ===================================================================== *)

Module Auth.

(** The user object kept by the client (the row without its password, with
    the session token of this login). *)
Record User := mkUser {
  id : Z;
  username : string;
  name : string;
  department : Department;
  role : UserRole;
  sessionToken : option string
}.

(** The state held by [AuthProvider]: the logged-in user, the
    [funlish_user] entry of localStorage, the arguments of the running
    validation interval, and the "session ended" flag. *)
Record State := mkState {
  user : option User;
  stored : option User;
  sessionCheck : option (Z * string);
  sessionInvalidated : bool
}.

(** The digit of [d] in radix 36: [0-9a-z]. *)
Definition digit36 (d : N) : ascii :=
  if (d <? 10)%N then ascii_of_N (48 + d) else ascii_of_N (87 + d).

(** The radix-36 digits of [n], least significant first. *)
Fixpoint digits36 (fuel : nat) (n : N) : list N :=
  match fuel with
  | O => []
  | S fuel' =>
      if (n <? 36)%N then [n]
      else (n mod 36)%N :: digits36 fuel' (n / 36)%N
  end.

(** [n.toString(36)] for a non-negative integer [n]. *)
Definition toString36 (n : N) : string :=
  string_of_list_ascii
    (map digit36 (rev (digits36 (S (N.to_nat (N.size n))) n))).

(** [generateSessionToken()]: [now] is [Date.now()], [random1] and
    [random2] are the two values of [Math.random().toString(36)]. *)
Definition generateSessionToken (now : N) (random1 random2 : string) : string :=
  let timestamp := toString36 now in
  let randomPart := substring 2 13 random1 in
  let randomPart2 := substring 2 13 random2 in
  timestamp +:+ "-" +:+ randomPart +:+ "-" +:+ randomPart2.

(** The value of a radix-36 digit, and [parseInt(s, 36)] on a string of
    such digits. *)
Definition digit36_value (c : ascii) : N :=
  let n := N_of_ascii c in
  if (n <? 58)%N then (n - 48)%N else (n - 87)%N.

Definition parseInt36 (s : string) : N :=
  fold_left (fun acc c => (36 * acc + digit36_value c)%N)
            (list_ascii_of_string s) 0%N.

(** [token.split("-")[0]]: the timestamp part of a session token. *)
Fixpoint token_timestamp (token : string) : string :=
  match token with
  | EmptyString => EmptyString
  | String c rest =>
      if decide (c = "-"%char) then EmptyString
      else String c (token_timestamp rest)
  end.

(** [validateSession(userId, sessionToken)] *)
Definition validateSession (rq : Req) (db : DB) (userId : Z)
    (sessionToken : string) : bool :=
  match select_user_session rq db userId with
  | Err _ => false
  | Ok (session_token, status) =>
      if bool_decide (status <> active)
         || bool_decide (session_token <> Some sessionToken)
      then false
      else true
  end.

(** What one call of [login] reads from outside. *)
Record LoginEnv := mkLoginEnv {
  rq_select : Req;
  rq_update : Req;
  bcrypt_compare : string -> string -> bool;
  Date_now : N;
  Math_random1 : string;
  Math_random2 : string;
  toISOString : timestamp
}.

(** [login(username, password)] *)
Definition login (st : State) (db : DB) (env : LoginEnv)
    (username password : string) : bool * DB * State :=
  let st0 := mkState (user st) (stored st) (sessionCheck st) false in
  match select_active_user (rq_select env) db username with
  | Err _ => (false, db, st0)
  | Ok data =>
      if negb (bcrypt_compare env password (u_password data)) then
        (false, db, st0)
      else
        let newSessionToken :=
          generateSessionToken (Date_now env) (Math_random1 env)
                               (Math_random2 env) in
        match update_user_session (rq_update env) db (u_id data)
                (Some newSessionToken) (Some (toISOString env)) with
        | (Err _, db') => (false, db', st0)
        | (Ok _, db') =>
            let loggedInUser :=
              mkUser (u_id data) (u_username data) (u_name data)
                     (u_department data) (u_role data)
                     (Some newSessionToken) in
            (true, db',
             mkState (Some loggedInUser) (Some loggedInUser)
                     (Some (u_id data, newSessionToken)) false)
        end
  end.

(** [logout()]: the token is cleared in the store (an error there is only
    logged), then the local session is dropped. *)
Definition logout (st : State) (db : DB) (rq : Req) : DB * State :=
  let db' :=
    match or_null (id <$> user st) with
    | Some uid => snd (update_user_session rq db uid None None)
    | None => db
    end in
  (db', mkState None None None false).

End Auth.


(* ===================================================================== *)
(** ** The attendance page: confirming a photo-verified attendance *)
(* ===================================================================== *)

Module AttendancePage.

Import Attendance.

(** [confirmAttendance()]: the page calls [markAttendance] with the member,
    "attend", the captured photo, the detected location and, as a fifth
    argument, [user?.id]; [markAttendance] has four parameters, so the
    fifth argument is bound to nothing. An error is caught and reported by
    an alert. *)
Definition confirmAttendance (st : State) (db : DB) (env : MarkEnv)
    (user : option Auth.User) (selectedMember : option MemberAttendance)
    (capturedPhoto : option string) (currentLocation : option LocationData)
  : DB * State :=
  match selectedMember with
  | Some m =>
      let '(_, db', st') :=
        markAttendance st db env (ma_member_id m) attend
          (or_null capturedPhoto)
          (match currentLocation with
           | Some l => Some (mkLocationData (loc_latitude l) (loc_longitude l)
                                            (loc_accuracy l) (loc_address l) None)
           | None => None
           end) in
      (db', st')
  | None => (db, st)
  end.

End AttendancePage.
(* ===================================================================== *)
(** ** The teams page: registration with automatic team assignment *)
(* ===================================================================== *)

Module Teams.

Record Participant := mkParticipant {
  tp_id : Z;
  tp_name : string;
  tp_registeredAt : string
}.

Record Team := mkTeam {
  t_id : Z;
  t_name : string;
  t_members : list Participant
}.

Definition MAX_MEMBERS_PER_TEAM : nat := 5.
Definition DEFAULT_TEAMS : nat := 8.

(** The part of the page's state the registration touches. *)
Record State := mkState {
  teams : list Team;
  totalParticipants : Z;
  newParticipantName : string;
  isAddingParticipant : bool;
  assignmentResult : option (string * string);
  error : option string
}.

(** [str.split("T")[0]] *)
Fixpoint before_T (s : string) : string :=
  match s with
  | EmptyString => EmptyString
  | String c rest => if decide (c = "T"%char) then EmptyString
                     else String c (before_T rest)
  end.

(** [str.trim()] (white space of the ASCII range). *)
Fixpoint trimStart (s : string) : string :=
  match s with
  | EmptyString => EmptyString
  | String c rest => if Ascii.is_space c then trimStart rest else s
  end.

Definition trim (s : string) : string :=
  String.rev (trimStart (String.rev (trimStart s))).

(** [team.members.push(p)] on the first team with that id
    ([teamsMap.find]); no such team: nothing happens. *)
Fixpoint push_member (gid : Z) (p : Participant) (ts : list Team) : list Team :=
  match ts with
  | [] => []
  | t :: rest =>
      if decide (t_id t = gid)
      then mkTeam (t_id t) (t_name t) (t_members t ++ [p]) :: rest
      else t :: push_member gid p rest
  end.

Definition participant_of_row (r : ParticipantRow) : Participant :=
  mkParticipant (p_id r) (p_name r) (before_T (p_registered_at r)).

(** The teams structure [fetchTeamsAndParticipants] builds from the rows. *)
Definition teamsMap (groupsData : list Group)
    (participantsData : list ParticipantRow) : list Team :=
  foldl (fun ts r =>
           match or_null (p_group_id r) with
           | Some gid => push_member gid (participant_of_row r) ts
           | None => ts
           end)
        (map (fun g => mkTeam (g_id g) (g_name g) []) groupsData)
        participantsData.

(** [fetchTeamsAndParticipants(showLoading)] *)
Definition fetchTeamsAndParticipants (st : State) (db : DB)
    (showLoading : bool) (rq_groups rq_participants : Req) : State :=
  let failed :=
    mkState (teams st) (totalParticipants st) (newParticipantName st)
            (isAddingParticipant st) (assignmentResult st)
            (if showLoading
             then Some "Failed to load teams and participants"%string
             else error st) in
  match select_groups rq_groups db with
  | Err _ => failed
  | Ok groupsData =>
      match select_participants rq_participants db with
      | Err _ => failed
      | Ok participantsData =>
          mkState (teamsMap groupsData participantsData)
                  (Z.of_nat (length participantsData))
                  (newParticipantName st) (isAddingParticipant st)
                  (assignmentResult st)
                  (if showLoading then None else error st)
      end
  end.

(** What one call of [handleAddParticipant] reads from outside: the two
    requests it may send and the value of
    [Math.floor(Math.random() * availableTeams.length)]. *)
Record AddEnv := mkAddEnv {
  rq_group : Req;
  rq_participant : Req;
  random_index : nat
}.

(** Which way a call went: the early return, the end of the [try] block, or
    the [catch] block. *)
Inductive Outcome :=
  | Skipped
  | Registered (row : ParticipantRow) (teamName : string)
  | Failed (e : Store.Error).

Definition add_member (assignedTeamId : Z) (p : Participant) (team : Team)
  : Team :=
  if decide (t_id team = assignedTeamId)
  then mkTeam (t_id team) (t_name team) (t_members team ++ [p])
  else team.

(** The [catch] and [finally] blocks after the teams were set to [ts]. *)
Definition add_failed (st : State) (ts : list Team) : State :=
  mkState ts (totalParticipants st) (newParticipantName st) false
          (assignmentResult st) (Some "Failed to add participant"%string).

(** From "Insert participant into Supabase" to the end of the [try] block. *)
Definition insert_and_assign (st : State) (db : DB) (user : option Auth.User)
    (env : AddEnv) (name : string) (ts : list Team)
    (assignedTeamId : Z) (assignedTeamName : string)
  : Outcome * DB * State :=
  match insert_participant (rq_participant env) db name (Some assignedTeamId)
          (or_null (Auth.id <$> user)) with
  | (Err e, db') => (Failed e, db', add_failed st ts)
  | (Ok participantData, db') =>
      let newParticipant := participant_of_row participantData in
      (Registered participantData assignedTeamName, db',
       mkState (map (add_member assignedTeamId newParticipant) ts)
               (totalParticipants st + 1) "" false
               (Some (name, assignedTeamName)) (error st))
  end.

(** [handleAddParticipant()] *)
Definition handleAddParticipant (st : State) (db : DB)
    (user : option Auth.User) (env : AddEnv) : Outcome * DB * State :=
  let name := trim (newParticipantName st) in
  if negb (truthy name) || isAddingParticipant st then (Skipped, db, st)
  else
    let availableTeams :=
      filter (fun team => (length (t_members team) < MAX_MEMBERS_PER_TEAM)%nat)
             (teams st) in
    match availableTeams with
    | [] =>
        let newTeamName := "Team " +:+ pretty (length (teams st) + 1)%nat in
        match insert_group (rq_group env) db newTeamName with
        | (Err e, db') => (Failed e, db', add_failed st (teams st))
        | (Ok newGroupData, db') =>
            let newTeam := mkTeam (g_id newGroupData) (g_name newGroupData) [] in
            insert_and_assign st db' user env name (teams st ++ [newTeam])
              (g_id newGroupData) (g_name newGroupData)
        end
    | _ =>
        match availableTeams !! random_index env with
        | None =>
            (Failed (ClientError "randomTeam is undefined"), db,
             add_failed st (teams st))
        | Some randomTeam =>
            insert_and_assign st db user env name (teams st)
              (t_id randomTeam) (t_name randomTeam)
        end
    end.

(** *** Registrations over time *)

(** The registrar types a name into the form. *)
Definition setNewParticipantName (st : State) (name : string) : State :=
  mkState (teams st) (totalParticipants st) name (isAddingParticipant st)
          (assignmentResult st) (error st).

(** One registration: the name is typed, then the form is submitted. *)
Definition registerParticipant (user : option Auth.User) (s : DB * State)
    (x : string * AddEnv) : Outcome * DB * State :=
  handleAddParticipant (setNewParticipantName (snd s) (fst x)) (fst s) user
                       (snd x).

(** Registrations one at a time: the outcomes, oldest first, and the final
    store and page. *)
Fixpoint register_all (user : option Auth.User) (s : DB * State)
    (xs : list (string * AddEnv)) : list Outcome * (DB * State) :=
  match xs with
  | [] => ([], s)
  | x :: rest =>
      let '(o, db', st') := registerParticipant user s x in
      let '(os, s') := register_all user (db', st') rest in
      (o :: os, s')
  end.

Definition is_registered (o : Outcome) : Prop :=
  match o with Registered _ _ => True | _ => False end.

#[global] Instance is_registered_dec o : Decision (is_registered o).
Proof. destruct o; simpl; apply _. Defined.

(** The sizes of the teams the page shows. *)
Definition team_sizes (st : State) : list nat :=
  map (fun t => length (t_members t)) (teams st).

(** The number of participants the store holds for a group. *)
Definition group_size (db : DB) (gid : Z) : nat :=
  length (filter (fun p => p_group_id p = Some gid) (participants db)).

(** The page shows the groups of the store, each with as many members as
    the store holds for it: the state after a fetch. *)
Definition in_sync (db : DB) (st : State) : Prop :=
  map (fun t => (t_id t, t_name t)) (teams st)
  ≡ₚ map (fun g => (g_id g, g_name g)) (groups db) /\
  Forall (fun t => length (t_members t) = group_size db (t_id t)) (teams st).

(** [k] participants were registered, one at a time, since the store was
    [db0] with its teams empty: the groups are still those of [db0], no team
    is over capacity, and the teams hold [k] members together. *)
Definition filling (db0 : DB) (k : nat) (s : DB * State) : Prop :=
  groups (fst s) = groups db0 /\
  groups_seq (fst s) = groups_seq db0 /\
  map t_id (teams (snd s)) = map g_id (groups db0) /\
  Forall (fun n => (n <= MAX_MEMBERS_PER_TEAM)%nat) (team_sizes (snd s)) /\
  sum_list (team_sizes (snd s)) = k /\
  length (participants (fst s)) = (length (participants db0) + k)%nat.

(** The store [supabase/schema-v3.sql] sets up for the teams: the eight
    default groups, no participant yet. *)
Definition default_groups (created : timestamp) : list Group :=
  map (fun i => mkGroup (Z.of_nat i) ("Team " +:+ pretty i) created)
      (seq 1 DEFAULT_TEAMS).

End Teams.

(* ===================================================================== *)
(** ** Sample data: a small store, a roster, requests *)
(* ===================================================================== *)

Module Samples.

Import Attendance.

Definition t0 : timestamp := "2025-01-10T00:00:00+00:00".
Definition today : string := "2025-01-10".

Definition admin_row : UserRow :=
  mkUserRow 1 "admin" "$2a$10$rQEY8TYwvCq3H9f3z8YXGO" "Administrator"
            administrator admin active None None t0 t0.

Definition member1 : CommitteeMember :=
  mkCommitteeMember 1 "Ehara Tomoka" protocol_ceremonial t0.

Definition member2 : CommitteeMember :=
  mkCommitteeMember 2 "Aizieq Bin Azlan" sponsorship_finance t0.

(** The store after the schema script: one user, the eight default
    groups, a roster of two, no attendance and no participant yet. *)
Definition db0 : DB :=
  mkDB [admin_row] (Teams.default_groups t0) 9 [] 1 [member1; member2] [] 1.

Definition rq_ok : Req := mkReq true "2025-01-10T01:00:00+00:00".
Definition rq_lost : Req := mkReq false "2025-01-10T01:00:00+00:00".

(** The roster as first fetched for [today]. *)
Definition st0 : State :=
  fetchMembers (mkState [] today true None) db0 None true rq_ok rq_ok.

Definition photo_url : string :=
  "https://funlish.supabase.co/storage/v1/object/public/attendance-photos/2025-01-10/1_1736470800000.jpg".

Definition inline_photo : string := "data:image/jpeg;base64,/9j/4AAQSkZJRg==".

Definition kuala_lumpur : LocationData :=
  mkLocationData (of_Z 3) (of_Z 101) (of_Z 12) (Some "Kuala Lumpur"%string) None.

(** A position as the browser reports it, with thirteen decimals:
    3.1390031234567, 101.6868551234567. *)
Definition bukit_bintang : LocationData :=
  mkLocationData (decimal 31390031234567 (-13))
                 (decimal 1016868551234567 (-13)) (of_Z 12)
                 (Some "Bukit Bintang, Kuala Lumpur"%string) None.

(** A mark whose request arrives; a photo upload, if any, succeeds. *)
Definition env_ok : MarkEnv :=
  mkMarkEnv (Some photo_url) "2025-01-10T01:00:00.000Z"
            "2025-01-10T01:00:00.002Z" rq_ok.

(** A mark whose request arrives, while the photo upload fails. *)
Definition env_upload_fails : MarkEnv :=
  mkMarkEnv None "2025-01-10T02:00:00.000Z" "2025-01-10T02:00:00.002Z" rq_ok.

(** A mark whose request does not reach the store. *)
Definition env_lost : MarkEnv :=
  mkMarkEnv None "2025-01-10T03:00:00.000Z" "2025-01-10T03:00:00.002Z" rq_lost.

Definition admin_user : Auth.User :=
  Auth.mkUser 1 "admin" "Administrator" administrator admin
              (Some "m5q0w1xq-k3j2h1g0f9e8-z9y8x7w6v5u4"%string).

(** Store and roster after member 1 was marked "attend" with an inline
    photo and a location, and then after the member was marked "absent". *)
Definition db1 : DB :=
  snd (fst (markAttendance st0 db0 env_ok 1 attend
              (Some inline_photo) (Some kuala_lumpur))).

Definition st1 : State :=
  snd (markAttendance st0 db0 env_ok 1 attend
         (Some inline_photo) (Some kuala_lumpur)).

(** The row that first mark inserted. *)
Definition row1 : AttendanceRecord :=
  new_attendance_row 1 (NOW rq_ok)
    (attendanceData st0 env_ok 1 attend (Some inline_photo) (Some kuala_lumpur)).

Definition db2 : DB :=
  snd (fst (markAttendance st1 db1 env_ok 1 absent None None)).

Definition st2 : State :=
  snd (markAttendance st1 db1 env_ok 1 absent None None).

(** A reading taken on the equator: latitude 0. *)
Definition on_equator : LocationData :=
  mkLocationData (of_Z 0) (of_Z 101) (of_Z 12) (Some "Pulau Lingga"%string) None.

(** A store whose only attendance record, for member 1 today, was taken on
    the equator. *)
Definition db_equator : DB :=
  mkDB [admin_row] (Teams.default_groups t0) 9 [] 1 [member1; member2]
       [mkAttendanceRecord 1 1 today attend (Some photo_url)
          (Some (of_Z 0)) (Some (of_Z 101)) (Some (of_Z 12))
          (Some "Pulau Lingga"%string) (Some "2025-01-10T01:00:00.000Z"%string)
          t0 t0 None]
       2.

(** A roster of forty, twenty-three of them marked "attend". *)
Definition roster_entry (i : nat) (s : AttendanceStatus) : MemberAttendance :=
  mkMemberAttendance (Z.of_nat i) "member" executive None today s
                     None None None None None None.

Definition roster_23_of_40 : list MemberAttendance :=
  map (fun i => roster_entry i attend) (seq 1 23)
  ++ map (fun i => roster_entry i absent) (seq 24 17).

(** A login of the administrator at clock reading 1736470800000, with a
    password check that accepts exactly "admin123". *)
Definition login_env : Auth.LoginEnv :=
  Auth.mkLoginEnv rq_ok rq_ok
    (fun password _ => bool_decide (password = "admin123"%string))
    1736470800000 "0.k3j2h1g0f9e8d7c" "0.z9y8x7w6v5u4t3s"
    "2025-01-10T01:00:00.000Z".

Definition logged_out : Auth.State := Auth.mkState None None None false.

(** A token issued by a login one minute earlier. *)
Definition earlier_token : string :=
  Auth.generateSessionToken 1736470740000 "0.a1b2c3d4e5f6g7h" "0.q1w2e3r4t5y6u7i".

(** The teams page as first fetched from [db0]: eight empty teams. *)
Definition page0 : Teams.State :=
  Teams.fetchTeamsAndParticipants (Teams.mkState [] 0 "" false None None)
    db0 true rq_ok rq_ok.

(** Forty-one registrations whose requests arrive, the team picked at
    random being the first, the second, the third ... available one in
    turn. *)
Definition add_ok (i : nat) : string * Teams.AddEnv :=
  ("Participant " +:+ pretty i,
   Teams.mkAddEnv rq_ok rq_ok (Nat.min (i mod 3) ((40 - i) / 5))).

Definition registrations_41 : list (string * Teams.AddEnv) :=
  map add_ok (seq 1 41).

(** A store with one group, full: five participants in "Team 1"; and the
    page that shows it. *)
Definition db_full : DB :=
  mkDB [admin_row] [mkGroup 1 "Team 1" t0] 2
       (map (fun i => mkParticipantRow (Z.of_nat i) ("Participant " +:+ pretty i)
                        (Some 1) t0 t0 (Some 1))
            (seq 1 5))
       6 [member1; member2] [] 1.

Definition page_full : Teams.State :=
  Teams.setNewParticipantName
    (Teams.fetchTeamsAndParticipants (Teams.mkState [] 0 "" false None None)
       db_full true rq_ok rq_ok)
    "  Nur Afiqah ".

(** A registration whose group insert arrives and whose participant insert
    does not. *)
Definition add_env_half : Teams.AddEnv := Teams.mkAddEnv rq_ok rq_lost 0.

End Samples.

(* ===================================================================== *)
(** ** JavaScript strings and array slices *)
(* ===================================================================== *)

Module JSText.

(** The lower-case form of a character (letters of the ASCII range). *)
Definition lower (c : ascii) : ascii :=
  let n := N_of_ascii c in
  if ((65 <=? n) && (n <=? 90))%N then ascii_of_N (n + 32) else c.

(** [str.toLowerCase()] *)
Fixpoint toLowerCase (str : string) : string :=
  match str with
  | EmptyString => EmptyString
  | String c rest => String (lower c) (toLowerCase rest)
  end.

(** [str.includes(search)] *)
Fixpoint includes (str search : string) : bool :=
  String.prefix search str
  || match str with
     | EmptyString => false
     | String _ rest => includes rest search
     end.

(** [str.split(sep)] reads [str] from the left: where [sep] starts, the
    part read so far is closed and [sep] is skipped. [cur] is the part
    read so far, [skip] the number of characters of [sep] still to skip. *)
Fixpoint split_from (sep : string) (skip : nat) (cur : string) (str : string)
  : list string :=
  match str with
  | EmptyString => [cur]
  | String c rest =>
      match skip with
      | S k => split_from sep k cur rest
      | O =>
          if String.prefix sep str
          then cur :: split_from sep (String.length sep - 1) "" rest
          else split_from sep 0 (cur +:+ String c "") rest
      end
  end.

(** [str.split(sep)]; the empty separator splits into characters. *)
Definition split (sep str : string) : list string :=
  match sep with
  | EmptyString => map (fun c => String c "") (list_ascii_of_string str)
  | _ => split_from sep 0 "" str
  end.

(** [parts.join(sep)] *)
Fixpoint join (sep : string) (parts : list string) : string :=
  match parts with
  | [] => ""
  | [p] => p
  | p :: rest => p +:+ sep +:+ join sep rest
  end.

(** [arr.slice(from, to)] for indices [0 <= from <= to]. *)
Definition slice {A} (from to : nat) (arr : list A) : list A :=
  take (to - from) (drop from arr).

(** [Math.ceil(x)]: the least integral number not below [x]; NaN, the
    zeros and the infinities are returned unchanged, and a result of zero
    keeps the sign of [x]. *)
Definition Math_ceil (x : number) : number :=
  match x with
  | S754_finite s m e =>
      if 0 <=? e then x
      else
        let n := - ((- cond_Zopp s (Z.pos m)) / 2 ^ (- e)) in
        if n =? 0 then S754_zero s else of_Z n
  | _ => x
  end.

(** The length [Array.from({length: x})] gives the array: [x] truncated,
    at least 0 and at most 2^53 - 1. *)
Definition ToLength (x : number) : nat :=
  match x with
  | S754_finite false m e =>
      Z.to_nat (Z.min (2 ^ 53 - 1)
                      (if 0 <=? e then Z.pos m * 2 ^ e
                       else Z.pos m / 2 ^ (- e)))
  | S754_infinity false => Z.to_nat (2 ^ 53 - 1)
  | _ => 0%nat
  end.

End JSText.

(* ===================================================================== *)
(** ** The store: the other statements of the teams page *)
(* ===================================================================== *)

Module TeamStore.

Definition set_group_id (p : ParticipantRow) (group_id : option Z)
  : ParticipantRow :=
  mkParticipantRow (p_id p) (p_name p) group_id (p_registered_at p)
                   (p_created_at p) (p_registered_by p).

(** [from("participants").delete().eq("id", id)]: no matching row is not
    an error. *)
Definition delete_participant (rq : Req) (db : DB) (id : Z)
  : result unit * DB :=
  if delivered rq then
    (Ok (),
     set_participants db (filter (fun p => p_id p <> id) (participants db))
                      (participants_seq db))
  else (Err Unavailable, db).

(** [from("participants").delete().eq("group_id", group_id)] *)
Definition delete_participants_of_group (rq : Req) (db : DB) (group_id : Z)
  : result unit * DB :=
  if delivered rq then
    (Ok (),
     set_participants db
       (filter (fun p => p_group_id p <> Some group_id) (participants db))
       (participants_seq db))
  else (Err Unavailable, db).

(** [from("groups").delete().eq("id", id)]; the participants that name a
    deleted group are left without group ([participants.group_id ...
    REFERENCES groups(id) ON DELETE SET NULL]). *)
Definition delete_group (rq : Req) (db : DB) (id : Z) : result unit * DB :=
  if delivered rq then
    (Ok (),
     set_participants
       (set_groups db (filter (fun g => g_id g <> id) (groups db))
                   (groups_seq db))
       (if bool_decide (id ∈ map g_id (groups db))
        then map (fun p => if decide (p_group_id p = Some id)
                           then set_group_id p None else p)
                 (participants db)
        else participants db)
       (participants_seq db))
  else (Err Unavailable, db).

(** [from("participants").update({group_id}).eq("id", id)]: the new group
    must exist when a row is rewritten; no matching row is not an error. *)
Definition update_participant_group (rq : Req) (db : DB) (id group_id : Z)
  : result unit * DB :=
  if delivered rq then
    if bool_decide (id ∈ map p_id (participants db)) then
      if group_exists db (Some group_id) then
        (Ok (),
         set_participants db
           (map (fun p => if decide (p_id p = id)
                          then set_group_id p (Some group_id) else p)
                (participants db))
           (participants_seq db))
      else (Err ForeignKeyViolation, db)
    else (Ok (), db)
  else (Err Unavailable, db).

End TeamStore.

(* ===================================================================== *)
(** ** AuthContext: permissions by role and the life of a session *)
(* ===================================================================== *)

Module Session.

Import Auth.

Inductive Permission := full | view | none.

(** [keyof Permissions]: the pages a permission is given for. *)
Inductive Page := dashboard | attendance | teams | profile | userManagement.

#[global] Instance Permission_eq_dec : EqDecision Permission.
Proof. solve_decision. Defined.
#[global] Instance Page_eq_dec : EqDecision Page.
Proof. solve_decision. Defined.

(** [Permissions]: one permission for every page. *)
Definition Permissions : Type := Page -> Permission.

Definition mkPermissions (dashboard_ attendance_ teams_ profile_
                          userManagement_ : Permission) : Permissions :=
  fun page =>
    match page with
    | dashboard => dashboard_
    | attendance => attendance_
    | teams => teams_
    | profile => profile_
    | userManagement => userManagement_
    end.

(** [ROLE_PERMISSIONS] *)
Definition ROLE_PERMISSIONS (r : UserRole) : Permissions :=
  match r with
  | admin => mkPermissions full full full full full
  | chairperson => mkPermissions full full full full none
  | protocol => mkPermissions full full full full none
  | registration_coordinator => mkPermissions full view full full none
  | committee => mkPermissions full view view full none
  end.

(** [isAdmin = user?.role === "admin"] *)
Definition isAdmin (st : State) : bool :=
  bool_decide (role <$> user st = Some admin).

(** [permissions = user ? ROLE_PERMISSIONS[user.role] : null] *)
Definition permissions (st : State) : option Permissions :=
  match user st with
  | Some u => Some (ROLE_PERMISSIONS (role u))
  | None => None
  end.

(** [canEdit(page)] *)
Definition canEdit (st : State) (page : Page) : bool :=
  match permissions st with
  | None => false
  | Some p => bool_decide (p page = full)
  end.

(** [canView(page)] *)
Definition canView (st : State) (page : Page) : bool :=
  match permissions st with
  | None => false
  | Some p => bool_decide (p page = full) || bool_decide (p page = view)
  end.

(** [getRoleDisplayName(role)] *)
Definition getRoleDisplayName (r : UserRole) : string :=
  match r with
  | admin => "Admin"
  | chairperson => "Chairperson"
  | protocol => "Protocol"
  | registration_coordinator => "Registration Coordinator"
  | committee => "Committee"
  end.

(** [handleSessionInvalidated()]: the flag is raised, the user and the
    stored entry are dropped, the interval is cleared. *)
Definition handleSessionInvalidated (st : State) : State :=
  mkState None None None true.

(** [startSessionValidation(userId, sessionToken)]: a running interval is
    replaced by one that validates these two values. *)
Definition startSessionValidation (st : State) (userId : Z)
    (sessionToken : string) : State :=
  mkState (user st) (stored st) (Some (userId, sessionToken))
          (sessionInvalidated st).

Definition SESSION_CHECK_INTERVAL : Z := 10000.

(** The callback of the interval, run every [SESSION_CHECK_INTERVAL]
    milliseconds with the values the interval was started with. *)
Definition sessionCheck_tick (st : State) (db : DB) (rq : Req) : State :=
  match sessionCheck st with
  | None => st
  | Some (userId, sessionToken) =>
      if validateSession rq db userId sessionToken then st
      else handleSessionInvalidated st
  end.

(** The provider as the pages see it: the session state and [isLoading],
    true until the stored session was looked at. *)
Record Provider := mkProvider {
  session : State;
  isLoading : bool
}.

(** The provider when it is mounted (a page load): the initial values of
    its [useState] hooks; [entry] is what localStorage holds under
    [funlish_user]. *)
Definition mount (entry : option User) : Provider :=
  mkProvider (mkState None entry None false) true.

(** [checkExistingSession()], the effect run on mount. The entry is held
    as the user object [JSON.parse] returns for it; an entry written by an
    older version of the application has no [sessionToken]. *)
Definition checkExistingSession (p : Provider) (db : DB) (rq : Req)
  : Provider :=
  let st := session p in
  let st' :=
    match stored st with
    | Some parsedUser =>
        match or_null (sessionToken parsedUser) with
        | Some token =>
            if validateSession rq db (id parsedUser) token then
              startSessionValidation
                (mkState (Some parsedUser) (stored st) (sessionCheck st)
                         (sessionInvalidated st))
                (id parsedUser) token
            else mkState (user st) None (sessionCheck st) true
        | None =>
            mkState (user st) None (sessionCheck st) (sessionInvalidated st)
        end
    | None => st
    end in
  mkProvider st' false.

End Session.

(* ===================================================================== *)
(** ** The login page *)
(* ===================================================================== *)

Module LoginPage.

Import Auth.

(** The form of the page and where a submission led. *)
Record Page := mkPage {
  username : string;
  password : string;
  error : string;
  isLoading : bool;
  pushed : option string
}.

(** [handleSubmit(e)] *)
Definition handleSubmit (p : Page) (st : State) (db : DB) (env : LoginEnv)
  : Page * DB * State :=
  let '(success, db', st') := login st db env (username p) (password p) in
  if success
  then (mkPage (username p) (password p) "" false (Some "/dashboard"%string),
        db', st')
  else (mkPage (username p) (password p) "Invalid username or password" false
               (pushed p),
        db', st').

End LoginPage.

(* ===================================================================== *)
(** ** AttendanceContext: the selected date and the refreshes *)
(* ===================================================================== *)

Module AttendanceProvider.

Import Attendance.

(** [DEPARTMENT_DISPLAY_NAMES] *)
Definition DEPARTMENT_DISPLAY_NAMES (d : Department) : string :=
  match d with
  | administrator => "Administrator"
  | pr_communication => "PR & Communication"
  | protocol_ceremonial => "Protocol & Ceremonial"
  | fnb => "F&B"
  | sponsorship_finance => "Sponsorship & Finance"
  | logistics_operations => "Logistics & Operations"
  | technical_it_support => "Technical & IT Support"
  | evaluation_research_documentation => "Evaluation, Research & Documentation"
  | health_safety_welfare => "Health, Safety & Welfare"
  | executive => "Executive"
  | program_activities => "Program & Activities"
  end.

(** [handleSetSelectedDate(date)] *)
Definition handleSetSelectedDate (st : State) (date : string) : State :=
  mkState (members st) date (isLoading st) (error st).

(** A date is picked: [handleSetSelectedDate(date)], and, the selected
    date having changed, the effect that depends on it runs
    [fetchMembers(selectedDate, true)]. *)
Definition setSelectedDate (st : State) (db : DB) (date : string)
    (rq_members rq_attendance : Req) : State :=
  if decide (date = selectedDate st) then st
  else
    let st1 := handleSetSelectedDate st date in
    fetchMembers st1 db (Some (selectedDate st1)) true rq_members rq_attendance.

(** [refreshMembers()] *)
Definition refreshMembers (st : State) (db : DB)
    (rq_members rq_attendance : Req) : State :=
  fetchMembers st db (Some (selectedDate st)) true rq_members rq_attendance.

(** The callback of the two-second interval:
    [fetchMembers(selectedDate, false)]. *)
Definition autoRefresh (st : State) (db : DB)
    (rq_members rq_attendance : Req) : State :=
  fetchMembers st db (Some (selectedDate st)) false rq_members rq_attendance.

End AttendanceProvider.

(* ===================================================================== *)
(** ** The attendance page: the list, the location, the gestures *)
(* ===================================================================== *)

Module AttendanceList.

Import Attendance AttendanceProvider JSText.

(** The text of a status and of a department in the rows and in the
    filters of the page. *)
Definition status_value (s : AttendanceStatus) : string :=
  match s with
  | attend => "attend"
  | absent => "absent"
  end.

Definition department_value (d : Department) : string :=
  match d with
  | administrator => "administrator"
  | pr_communication => "pr_communication"
  | protocol_ceremonial => "protocol_ceremonial"
  | fnb => "fnb"
  | sponsorship_finance => "sponsorship_finance"
  | logistics_operations => "logistics_operations"
  | technical_it_support => "technical_it_support"
  | evaluation_research_documentation => "evaluation_research_documentation"
  | health_safety_welfare => "health_safety_welfare"
  | executive => "executive"
  | program_activities => "program_activities"
  end.

(** The predicate of [filteredMembers]. *)
Definition matches (searchTerm statusFilter departmentFilter : string)
    (member : MemberAttendance) : bool :=
  let matchesSearch :=
    includes (toLowerCase (ma_name member)) (toLowerCase searchTerm)
    || includes (toLowerCase (DEPARTMENT_DISPLAY_NAMES (ma_department member)))
                (toLowerCase searchTerm) in
  let matchesStatus :=
    bool_decide (statusFilter = "all")
    || bool_decide (status_value (ma_status member) = statusFilter) in
  let matchesDepartment :=
    bool_decide (departmentFilter = "all")
    || bool_decide (department_value (ma_department member) = departmentFilter) in
  matchesSearch && matchesStatus && matchesDepartment.

(** [filteredMembers] *)
Definition filteredMembers (members : list MemberAttendance)
    (searchTerm statusFilter departmentFilter : string)
  : list MemberAttendance :=
  List.filter (matches searchTerm statusFilter departmentFilter) members.

(** The address kept for a detected position: the first three parts of
    the geocoder's [display_name]; "Location detected" when the geocoder
    gave no name ([None]: the request failed, or the answer has no
    [display_name]). *)
Definition shortAddress (display_name : option string) : string :=
  match or_null display_name with
  | Some name => join ", " (slice 0 3 (split ", " name))
  | None => "Location detected"
  end.

(** The success callback of [getCurrentPosition]: the value given to
    [setCurrentLocation]. *)
Definition detectedLocation (latitude longitude accuracy : number)
    (display_name : option string) (now : string) : LocationData :=
  mkLocationData latitude longitude (Math_round accuracy)
                 (Some (shortAddress display_name)) (Some now).

(** What happens on the page between two renderings: an attendance is
    confirmed in the camera dialog, a date is picked, or the roster is
    refreshed (every two seconds, in the background). *)
Inductive Gesture :=
  | Confirm (env : MarkEnv) (user : option Auth.User)
            (selectedMember : option MemberAttendance)
            (capturedPhoto : option string)
            (currentLocation : option LocationData)
  | SelectDate (date : string) (rq_members rq_attendance : Req)
  | AutoRefresh (rq_members rq_attendance : Req).

Definition gesture (s : DB * State) (g : Gesture) : DB * State :=
  match g with
  | Confirm env user selectedMember capturedPhoto currentLocation =>
      AttendancePage.confirmAttendance (snd s) (fst s) env user selectedMember
                                       capturedPhoto currentLocation
  | SelectDate date rq_members rq_attendance =>
      (fst s, setSelectedDate (snd s) (fst s) date rq_members rq_attendance)
  | AutoRefresh rq_members rq_attendance =>
      (fst s, autoRefresh (snd s) (fst s) rq_members rq_attendance)
  end.

Definition gestures (s : DB * State) (gs : list Gesture) : DB * State :=
  foldl gesture s gs.

(** What the list shows of an entry, the clock readings and the numbers
    of the position left aside: member, record, date, status, address. *)
Definition entry_summary (e : MemberAttendance)
  : Z * string * Department * option Z * string * AttendanceStatus
    * option string :=
  (ma_member_id e, ma_name e, ma_department e, ma_attendance_id e,
   ma_attendance_date e, ma_status e, ma_address e).

(** A record of a member who checked in: status "attend", with the time
    of the check-in. *)
Definition checked_in (r : AttendanceRecord) : Prop :=
  ar_status r = attend /\ is_Some (ar_check_in_time r).

End AttendanceList.

(* ===================================================================== *)
(** ** The teams page: deleting, moving, adding a team *)
(* ===================================================================== *)

Module TeamsPage.

Import Teams TeamStore.

(** The page: the state the registration touches ([Teams.State]) and the
    state of its dialogs. *)
Record Page := mkPage {
  state : State;
  selectedParticipant : option (Participant * Z);
  showMoveModal : bool;
  selectedDestinationTeam : option Z;
  isMovingParticipant : bool;
  moveResult : option (string * string * string);
  deleteParticipantConfirm : option (Participant * Z);
  deleteTeamConfirm : option Team;
  isDeletingParticipant : bool;
  isDeletingTeam : bool;
  openDropdownId : option Z
}.

Definition set_teams (st : State) (ts : list Team) (total : Z) : State :=
  mkState ts total (newParticipantName st) (isAddingParticipant st)
          (assignmentResult st) (error st).

Definition setError (st : State) (msg : string) : State :=
  mkState (teams st) (totalParticipants st) (newParticipantName st)
          (isAddingParticipant st) (assignmentResult st) (Some msg).

(** [handleMoveParticipant(participant, fromTeamId)]: the move dialog is
    opened for a member of a team. *)
Definition handleMoveParticipant (p : Page) (participant : Participant)
    (fromTeamId : Z) : Page :=
  mkPage (state p) (Some (participant, fromTeamId)) true
         (selectedDestinationTeam p) (isMovingParticipant p) (moveResult p)
         (deleteParticipantConfirm p) (deleteTeamConfirm p)
         (isDeletingParticipant p) (isDeletingTeam p) None.

(** The teams the move dialog offers as destination. *)
Definition destinations (p : Page) : list Team :=
  match selectedParticipant p with
  | Some (_, fromTeamId) =>
      filter (fun team => t_id team <> fromTeamId) (teams (state p))
  | None => []
  end.

(** The [finally] block of [handleDeleteParticipant]. *)
Definition deleteParticipant_done (p : Page) (st : State) : Page :=
  mkPage st (selectedParticipant p) (showMoveModal p)
         (selectedDestinationTeam p) (isMovingParticipant p) (moveResult p)
         None (deleteTeamConfirm p) false (isDeletingTeam p)
         (openDropdownId p).

Definition without_member (id : Z) (team : Team) : Team :=
  mkTeam (t_id team) (t_name team)
         (filter (fun m => tp_id m <> id) (t_members team)).

(** [handleDeleteParticipant()] *)
Definition handleDeleteParticipant (p : Page) (db : DB) (rq : Req)
  : DB * Page :=
  match deleteParticipantConfirm p with
  | None => (db, p)
  | Some (participant, teamId) =>
      if isDeletingParticipant p then (db, p)
      else
        let st := state p in
        match delete_participant rq db (tp_id participant) with
        | (Ok _, db') =>
            (db',
             deleteParticipant_done p
               (set_teams st
                  (map (fun team => if decide (t_id team = teamId)
                                    then without_member (tp_id participant) team
                                    else team)
                       (teams st))
                  (totalParticipants st - 1)))
        | (Err _, db') =>
            (db',
             deleteParticipant_done p
               (setError st "Failed to delete participant"))
        end
  end.

(** The [finally] block of [handleDeleteTeam]. *)
Definition deleteTeam_done (p : Page) (st : State) : Page :=
  mkPage st (selectedParticipant p) (showMoveModal p)
         (selectedDestinationTeam p) (isMovingParticipant p) (moveResult p)
         (deleteParticipantConfirm p) None (isDeletingParticipant p) false
         (openDropdownId p).

(** [handleDeleteTeam()]: the participants of the team are deleted first,
    then the group. *)
Definition handleDeleteTeam (p : Page) (db : DB)
    (rq_participants rq_group : Req) : DB * Page :=
  match deleteTeamConfirm p with
  | None => (db, p)
  | Some team =>
      if isDeletingTeam p then (db, p)
      else
        let st := state p in
        let failed := deleteTeam_done p (setError st "Failed to delete team") in
        match delete_participants_of_group rq_participants db (t_id team) with
        | (Err _, db1) => (db1, failed)
        | (Ok _, db1) =>
            match delete_group rq_group db1 (t_id team) with
            | (Err _, db2) => (db2, failed)
            | (Ok _, db2) =>
                let deletedMembersCount := Z.of_nat (length (t_members team)) in
                (db2,
                 deleteTeam_done p
                   (set_teams st
                      (filter (fun t => t_id t <> t_id team) (teams st))
                      (totalParticipants st - deletedMembersCount)))
            end
        end
  end.

(** The [finally] block of [confirmMove]. *)
Definition confirmMove_done (p : Page) (st : State)
    (result : option (string * string * string)) : Page :=
  mkPage st None false None false result
         (deleteParticipantConfirm p) (deleteTeamConfirm p)
         (isDeletingParticipant p) (isDeletingTeam p) (openDropdownId p).

Definition moved (participant : Participant) (fromTeamId toTeamId : Z)
    (team : Team) : Team :=
  if decide (t_id team = fromTeamId) then
    without_member (tp_id participant) team
  else if decide (t_id team = toTeamId) then
    mkTeam (t_id team) (t_name team) (t_members team ++ [participant])
  else team.

(** [confirmMove(toTeamId)] *)
Definition confirmMove (p : Page) (db : DB) (toTeamId : Z) (rq : Req)
  : DB * Page :=
  match selectedParticipant p with
  | None => (db, p)
  | Some (participant, fromTeamId) =>
      if isMovingParticipant p then (db, p)
      else
        let st := state p in
        let fromTeam :=
          find (fun t => bool_decide (t_id t = fromTeamId)) (teams st) in
        let toTeam :=
          find (fun t => bool_decide (t_id t = toTeamId)) (teams st) in
        let participantName := tp_name participant in
        match update_participant_group rq db (tp_id participant) toTeamId with
        | (Ok _, db') =>
            (db',
             confirmMove_done p
               (set_teams st
                  (map (moved participant fromTeamId toTeamId) (teams st))
                  (totalParticipants st))
               (Some (participantName,
                      default "" (or_null (t_name <$> fromTeam)),
                      default "" (or_null (t_name <$> toTeam)))))
        | (Err _, db') =>
            (db',
             confirmMove_done p (setError st "Failed to move participant")
                              (moveResult p))
        end
  end.

(** The "Move" button of the dialog: [confirmMove(selectedDestinationTeam)]
    when a destination is selected. *)
Definition clickMove (p : Page) (db : DB) (rq : Req) : DB * Page :=
  match or_null (selectedDestinationTeam p) with
  | Some toTeamId => confirmMove p db toTeamId rq
  | None => (db, p)
  end.

(** [handleAddTeam()] *)
Definition handleAddTeam (st : State) (db : DB) (rq : Req) : DB * State :=
  let newTeamName := "Team " +:+ pretty (length (teams st) + 1)%nat in
  match insert_group rq db newTeamName with
  | (Ok data, db') =>
      (db',
       set_teams st (teams st ++ [mkTeam (g_id data) (g_name data) []])
                 (totalParticipants st))
  | (Err _, db') => (db', setError st "Failed to add team")
  end.

(** *** The page and the store *)

(** The keys of the participants the store holds for a group. *)
Definition group_ids (db : DB) (gid : Z) : list Z :=
  map p_id (filter (fun p => p_group_id p = Some gid) (participants db)).

(** The page shows the store: its teams are the groups, by key and name,
    and the members of each team are, by their keys, the participants the
    store holds for the group, up to the order. *)
Definition shows (db : DB) (st : State) : Prop :=
  map (fun t => (t_id t, t_name t)) (teams st)
  ≡ₚ map (fun g => (g_id g, g_name g)) (groups db) /\
  Forall (fun t => map tp_id (t_members t) ≡ₚ group_ids db (t_id t))
         (teams st).

(** What the schema guarantees of groups and participants: the primary
    keys, drawn from sequences that start at 1, and the foreign key of
    [participants.group_id]. *)
Definition teams_ok (db : DB) : Prop :=
  NoDup (map g_id (groups db)) /\
  NoDup (map p_id (participants db)) /\
  0 < groups_seq db /\
  Forall (fun g => 0 < g_id g < groups_seq db) (groups db) /\
  Forall (fun p => p_id p < participants_seq db) (participants db) /\
  Forall (fun p => group_exists db (p_group_id p) = true) (participants db).

#[global] Instance teams_ok_dec db : Decision (teams_ok db).
Proof. unfold teams_ok. apply _. Defined.

End TeamsPage.

(* ===================================================================== *)
(** ** The report page: the printed cards *)
(* ===================================================================== *)

Module Report.

Import Attendance JSText.

(** The number of printed pages:
    [Math.ceil(filteredData.length / 6)], as the length of an array. *)
Definition pageCount (length_ : nat) : nat :=
  ToLength (Math_ceil (div (of_nat length_) (of_Z 6))).

(** The print-only card grid: the pages
    [filteredData.slice(pageIndex * 6, (pageIndex + 1) * 6)], six cards a
    page. *)
Definition printPages {A} (filteredData : list A) : list (list A) :=
  map (fun pageIndex => slice (pageIndex * 6) ((pageIndex + 1) * 6) filteredData)
      (seq 0 (pageCount (length filteredData))).

(** The number printed on a card: [pageIndex * 6 + index + 1]. *)
Definition cardNumber (pageIndex index : nat) : nat :=
  pageIndex * 6 + index + 1.

End Report.

(* ===================================================================== *)
(** ** Sample sessions *)
(* ===================================================================== *)

Module Scenarios.

Import Samples.

(** The administrator signs in (see [Samples.login_env]). *)
Definition db_first : DB :=
  snd (fst (Auth.login logged_out db0 login_env "admin" "admin123")).

Definition st_first : Auth.State :=
  snd (Auth.login logged_out db0 login_env "admin" "admin123").

(** A minute later the same account signs in from another browser. *)
Definition login_env2 : Auth.LoginEnv :=
  Auth.mkLoginEnv rq_ok rq_ok
    (fun password _ => bool_decide (password = "admin123"%string))
    1736470860000 "0.b7c6d5e4f3g2h1i" "0.p0o9i8u7y6t5r4e"
    "2025-01-10T01:01:00.000Z".

Definition db_second : DB :=
  snd (fst (Auth.login logged_out db_first login_env2 "admin" "admin123")).

Definition st_second : Auth.State :=
  snd (Auth.login logged_out db_first login_env2 "admin" "admin123").

(** A store with three groups and four participants, and the teams page
    that shows it. *)
Definition participant_row (i gid : Z) (name : string) : ParticipantRow :=
  mkParticipantRow i name (Some gid) t0 t0 (Some 1).

Definition db_teams : DB :=
  mkDB [admin_row]
       [mkGroup 1 "Team 1" t0; mkGroup 2 "Team 2" t0; mkGroup 3 "Team 3" t0] 4
       [participant_row 1 1 "Aina"; participant_row 2 1 "Badrul";
        participant_row 3 2 "Chong"; participant_row 4 3 "Devi"] 5
       [member1; member2] [] 1.

Definition teams_state : Teams.State :=
  Teams.fetchTeamsAndParticipants (Teams.mkState [] 0 "" false None None)
    db_teams true rq_ok rq_ok.

Definition teams_page : TeamsPage.Page :=
  TeamsPage.mkPage teams_state None false None false None None None
                   false false None.

Definition aina : Teams.Participant := Teams.mkParticipant 1 "Aina" "2025-01-10".

Definition team1 : Teams.Team :=
  Teams.mkTeam 1 "Team 1" [aina; Teams.mkParticipant 2 "Badrul" "2025-01-10"].

Definition team2 : Teams.Team :=
  Teams.mkTeam 2 "Team 2" [Teams.mkParticipant 3 "Chong" "2025-01-10"].

Definition team3 : Teams.Team :=
  Teams.mkTeam 3 "Team 3" [Teams.mkParticipant 4 "Devi" "2025-01-10"].

(** The page with the dialog that asks to delete Aina, who is in Team 1;
    with the dialog that asks to delete Team 2; with the move dialog open
    for Aina. *)
Definition page_delete_aina : TeamsPage.Page :=
  TeamsPage.mkPage teams_state None false None false None
                   (Some (aina, 1)) None false false None.

Definition page_delete_team2 : TeamsPage.Page :=
  TeamsPage.mkPage teams_state None false None false None
                   None (Some team2) false false None.

Definition page_move_aina : TeamsPage.Page :=
  TeamsPage.handleMoveParticipant teams_page aina 1.

(** The store after Team 2 was deleted, and the page fetched from it. *)
Definition db_without_team2 : DB :=
  fst (TeamsPage.handleDeleteTeam page_delete_team2 db_teams rq_ok rq_ok).

Definition state_without_team2 : Teams.State :=
  Teams.fetchTeamsAndParticipants (Teams.mkState [] 0 "" false None None)
    db_without_team2 true rq_ok rq_ok.

(** The name of a new participant is typed into the form of the page. *)
Definition teams_state_typed : Teams.State :=
  Teams.setNewParticipantName teams_state "Ehsan".

(** A store whose first team is full, and the page that shows it with
    the move dialog open for Farah, the one member of Team 2. *)
Definition db_crowded : DB :=
  mkDB [admin_row]
       [mkGroup 1 "Team 1" t0; mkGroup 2 "Team 2" t0] 3
       [participant_row 1 1 "Aina"; participant_row 2 1 "Badrul";
        participant_row 3 1 "Chong"; participant_row 4 1 "Devi";
        participant_row 5 1 "Ehsan"; participant_row 6 2 "Farah"] 7
       [member1; member2] [] 1.

Definition crowded_state : Teams.State :=
  Teams.fetchTeamsAndParticipants (Teams.mkState [] 0 "" false None None)
    db_crowded true rq_ok rq_ok.

Definition farah : Teams.Participant :=
  Teams.mkParticipant 6 "Farah" "2025-01-10".

Definition page_move_farah : TeamsPage.Page :=
  TeamsPage.handleMoveParticipant
    (TeamsPage.mkPage crowded_state None false None false None None None
                      false false None)
    farah 2.

End Scenarios.

(* ===================================================================== *)
(** * Properties of the store operations *)
(* ===================================================================== *)

Module StoreFacts.

Import Attendance.

(** Closes a decidable goal over concrete data by evaluation. *)
Ltac by_compute :=
  lazymatch goal with
  | |- ?P => apply (@bool_decide_unpack P _)
  end; vm_compute; exact I.

Lemma rows_eq_refl db : rows_eq db db.
Proof. by repeat split. Qed.

Lemma rows_eq_trans db1 db2 db3 :
  rows_eq db1 db2 -> rows_eq db2 db3 -> rows_eq db1 db3.
Proof.
  intros (?&?&?&?&?) (?&?&?&?&?). repeat split; congruence.
Qed.

(** An accepted INSERT appends exactly the row built from the data, under
    the next key of the sequence; a rejected one changes no row. *)
Lemma insert_attendance_inv rq db d r db' :
  insert_attendance rq db d = (r, db') ->
  users db' = users db /\ groups db' = groups db /\
  participants db' = participants db /\
  committee_members db' = committee_members db /\
  match r with
  | Ok row =>
      delivered rq = true /\
      row = new_attendance_row (attendance_seq db) (NOW rq) d /\
      attendance db' = attendance db ++ [row] /\
      attendance_seq db' = attendance_seq db + 1 /\
      (attendance_seq db ∉ map ar_id (attendance db)) /\
      (ad_key d ∉ map ar_key (attendance db)) /\
      member_exists db (ad_committee_member_id d) = true
  | Err _ =>
      attendance db' = attendance db /\
      (attendance_seq db' = attendance_seq db \/
       attendance_seq db' = attendance_seq db + 1)
  end.
Proof.
  unfold insert_attendance. intros H.
  destruct (delivered rq) eqn:Hd; [|simplify_eq; repeat split; auto].
  repeat case_bool_decide; destruct (member_exists db _) eqn:Hm;
    simplify_eq/=; repeat split; auto.
Qed.

(** An INSERT is accepted exactly when the request arrives, the key from
    the sequence is free, the member exists and the pair is new. *)
Lemma insert_attendance_accepts rq db d :
  delivered rq = true ->
  attendance_seq db ∉ map ar_id (attendance db) ->
  member_exists db (ad_committee_member_id d) = true ->
  ad_key d ∉ map ar_key (attendance db) ->
  exists row db', insert_attendance rq db d = (Ok row, db').
Proof.
  intros Hd Hid Hm Hk. unfold insert_attendance. rewrite Hd, Hm.
  rewrite !bool_decide_eq_false_2 by done. simpl. eauto.
Qed.

Lemma update_attendance_inv rq db i d r db' :
  update_attendance rq db i d = (r, db') ->
  users db' = users db /\ groups db' = groups db /\
  participants db' = participants db /\
  committee_members db' = committee_members db /\
  attendance_seq db' = attendance_seq db /\
  match r with
  | Ok _ =>
      delivered rq = true /\
      ((filter (fun r => ar_id r = i) (attendance db) = [] /\ db' = db) \/
       (exists t, filter (fun r => ar_id r = i) (attendance db) = [t] /\
          (ad_key d ∉ map ar_key (filter (fun r => ar_id r <> i) (attendance db))) /\
          member_exists db (ad_committee_member_id d) = true /\
          attendance db' =
            map (fun r => if decide (ar_id r = i)
                          then apply_attendance_data (NOW rq) d r else r)
                (attendance db)))
  | Err _ => db' = db
  end.
Proof.
  unfold update_attendance. intros H.
  destruct (delivered rq) eqn:Hd; [|simplify_eq; repeat split; auto].
  destruct (filter _ (attendance db)) as [|t rest] eqn:Ht.
  { simplify_eq. repeat split; auto. }
  destruct (member_exists db _) eqn:Hm; simpl in H;
    [|simplify_eq; repeat split; auto].
  repeat case_bool_decide; simplify_eq/=; repeat split; auto.
  right. exists t. repeat split; auto.
Qed.

End StoreFacts.

(* ===================================================================== *)
(** * Properties of the attendance ledger *)
(* ===================================================================== *)

Module AttendanceFacts.

Import Attendance StoreFacts.

(** ** Searching a table *)

Section Find.
Context {A : Type}.
Implicit Types (P : A -> bool) (l : list A).

Lemma find_snoc P l x :
  find P (l ++ [x])
  = match find P l with
    | Some y => Some y
    | None => if P x then Some x else None
    end.
Proof.
  induction l as [|a l IH]; simpl; [done|]. by destruct (P a).
Qed.

Lemma find_map_same P (f : A -> A) l :
  (forall x, x ∈ l -> P (f x) = P x) ->
  find P (map f l) = f <$> find P l.
Proof.
  induction l as [|a l IH]; intros Hf; simpl; [done|].
  rewrite Hf by left. destruct (P a); [done|].
  apply IH. intros x Hx. apply Hf. by right.
Qed.

Lemma find_None_iff P l : find P l = None <-> forall x, x ∈ l -> P x = false.
Proof.
  induction l as [|a l IH]; simpl.
  - split; [intros _ x Hx; inversion Hx|done].
  - destruct (P a) eqn:Ha.
    + split; [done|]. intros H. specialize (H a). rewrite Ha in H.
      discriminate H. left.
    + rewrite IH. split.
      * intros H x Hx. apply elem_of_cons in Hx as [->|Hx]; auto.
      * intros H x Hx. apply H. by right.
Qed.

Lemma find_Some_elem P l x : find P l = Some x -> x ∈ l /\ P x = true.
Proof.
  induction l as [|a l IH]; simpl; [done|].
  destruct (P a) eqn:Ha.
  - intros [= ->]. split; [left|done].
  - intros H. destruct (IH H). split; [by right|done].
Qed.

Lemma filter_none (Q : A -> Prop) `{forall x, Decision (Q x)} l :
  (forall x, x ∈ l -> ~ Q x) -> filter Q l = [].
Proof.
  induction l as [|a l IH]; intros HQ; [done|].
  rewrite filter_cons_False by (apply HQ; left).
  apply IH. intros x Hx. apply HQ. by right.
Qed.

End Find.

(** ** [record_for] *)

Lemma coherent_spec db st :
  coherent db st <->
  forall e, e ∈ members st ->
    or_null (ma_attendance_id e)
    = ar_id <$> record_for db (ma_member_id e) (selectedDate st).
Proof. apply Forall_forall. Qed.

Lemma record_for_Some db m d r :
  record_for db m d = Some r -> r ∈ attendance db /\ ar_key r = (m, d).
Proof.
  unfold record_for. intros H. apply find_Some_elem in H as [? H].
  split; [done|]. by apply bool_decide_eq_true in H.
Qed.

Lemma record_for_None db m d :
  record_for db m d = None <-> (m, d) ∉ map ar_key (attendance db).
Proof.
  unfold record_for. rewrite find_None_iff. split.
  - intros H Hin. apply list_elem_of_fmap in Hin as (r & Hk & Hr).
    specialize (H r Hr). apply bool_decide_eq_false in H. by apply H.
  - intros H r Hr. apply bool_decide_eq_false. intros Hk. apply H.
    apply list_elem_of_fmap. eauto.
Qed.

(** Under the UNIQUE constraint the record of a pair is the only row with
    that pair. *)
Lemma NoDup_key_eq (rows : list AttendanceRecord) r1 r2 :
  NoDup (map ar_key rows) -> r1 ∈ rows -> r2 ∈ rows ->
  ar_key r1 = ar_key r2 -> r1 = r2.
Proof.
  induction rows as [|a rows IH]; intros Hnd H1 H2 Hk; [inversion H1|].
  apply NoDup_cons in Hnd as [Ha Hnd].
  apply elem_of_cons in H1 as [->|H1], H2 as [->|H2]; auto.
  - exfalso. apply Ha. rewrite Hk. apply list_elem_of_fmap. eauto.
  - exfalso. apply Ha. rewrite <- Hk. apply list_elem_of_fmap. eauto.
Qed.

Lemma NoDup_id_eq (rows : list AttendanceRecord) r1 r2 :
  NoDup (map ar_id rows) -> r1 ∈ rows -> r2 ∈ rows ->
  ar_id r1 = ar_id r2 -> r1 = r2.
Proof.
  induction rows as [|a rows IH]; intros Hnd H1 H2 Hk; [inversion H1|].
  apply NoDup_cons in Hnd as [Ha Hnd].
  apply elem_of_cons in H1 as [->|H1], H2 as [->|H2]; auto.
  - exfalso. apply Ha. rewrite Hk. apply list_elem_of_fmap. eauto.
  - exfalso. apply Ha. rewrite <- Hk. apply list_elem_of_fmap. eauto.
Qed.

Lemma record_for_unique db m d r :
  NoDup (map ar_key (attendance db)) ->
  r ∈ attendance db -> ar_key r = (m, d) -> record_for db m d = Some r.
Proof.
  intros Hnd Hr Hk. destruct (record_for db m d) as [r'|] eqn:Hf.
  - apply record_for_Some in Hf as [Hr' Hk']. f_equal.
    eapply NoDup_key_eq; eauto. congruence.
  - apply record_for_None in Hf. exfalso. apply Hf.
    apply list_elem_of_fmap. eauto.
Qed.

(** The rows with a pair are the record of the pair, and nothing else. *)
Lemma rows_of_pair db m d :
  NoDup (map ar_key (attendance db)) ->
  filter (fun r => ar_key r = (m, d)) (attendance db)
  = option_list (record_for db m d).
Proof.
  unfold record_for. induction (attendance db) as [|a rows IH]; simpl;
    intros Hnd; [done|].
  apply NoDup_cons in Hnd as [Ha Hnd]. rewrite filter_cons.
  case_bool_decide as Hk; case_decide; try done.
  - simpl. f_equal. apply filter_none.
    intros r Hr Hkr. apply Ha. rewrite Hk, <- Hkr.
    apply list_elem_of_fmap. eauto.
  - by apply IH.
Qed.

(** ** The read path *)

Lemma attendanceMap_snoc rs x :
  attendanceMap (rs ++ [x]) = <[ar_committee_member_id x := x]> (attendanceMap rs).
Proof. unfold attendanceMap. by rewrite foldl_app. Qed.

(** The map holds, for each member, the last record of that member. *)
Lemma attendanceMap_lookup rs m :
  attendanceMap rs !! m
  = last (filter (fun r => ar_committee_member_id r = m) rs).
Proof.
  induction rs as [|x rs IH] using rev_ind; [done|].
  rewrite attendanceMap_snoc, filter_app, filter_cons, filter_nil.
  case_decide as Hx.
  - rewrite Hx, lookup_insert_eq. by rewrite last_snoc.
  - rewrite lookup_insert_ne by done. by rewrite app_nil_r.
Qed.

(** For a table that satisfies the UNIQUE constraint, the map built from
    the records of a date holds the record of each pair. *)
Lemma attendanceMap_record db d m :
  NoDup (map ar_key (attendance db)) ->
  attendanceMap (filter (fun r => ar_attendance_date r = d) (attendance db)) !! m
  = record_for db m d.
Proof.
  intros Hnd. rewrite attendanceMap_lookup, list_filter_filter.
  rewrite (list_filter_iff _ (fun r => ar_key r = (m, d))).
  - rewrite rows_of_pair by done. by destruct (record_for db m d).
  - intros r. unfold ar_key. split; [intros [-> ->]|intros [= -> ->]]; done.
Qed.

(** What a fetch leaves in the roster. *)
Lemma fetchMembers_delivered st db date showLoading rq1 rq2 :
  delivered rq1 = true -> delivered rq2 = true ->
  let d := default (selectedDate st) (or_null date) in
  members (fetchMembers st db date showLoading rq1 rq2)
  = map (combine d (attendanceMap
                      (filter (fun r => ar_attendance_date r = d) (attendance db))))
        (merge_sort cm_le (committee_members db)).
Proof.
  intros H1 H2. unfold fetchMembers, select_committee_members, select_attendance.
  by rewrite H1, H2.
Qed.

Lemma fetchMembers_undelivered st db date showLoading rq1 rq2 :
  delivered rq1 && delivered rq2 = false ->
  members (fetchMembers st db date showLoading rq1 rq2) = members st.
Proof.
  unfold fetchMembers, select_committee_members, select_attendance.
  destruct (delivered rq1), (delivered rq2), showLoading; done.
Qed.

Lemma fetchMembers_selectedDate st db date showLoading rq1 rq2 :
  selectedDate (fetchMembers st db date showLoading rq1 rq2) = selectedDate st.
Proof.
  unfold fetchMembers, select_committee_members, select_attendance.
  destruct (delivered rq1), (delivered rq2), showLoading; done.
Qed.

Lemma or_null_id (i : Z) : 0 < i -> or_null (Some i) = Some i.
Proof.
  intros Hi. unfold or_null, truthy, truthy_Z.
  destruct (Z.eqb_spec i 0); [lia|done].
Qed.

Lemma att_ok_pos db r : att_ok db -> r ∈ attendance db -> 0 < ar_id r.
Proof.
  intros (_ & _ & _ & Hall) Hr.
  rewrite Forall_forall in Hall. apply Hall in Hr. lia.
Qed.

(** A fetch for the selected date whose reads are delivered leaves a
    roster that is coherent with the store, whatever it was before. *)
Lemma fetchMembers_delivered_coherent st db showLoading rq1 rq2 :
  att_ok db -> delivered rq1 = true -> delivered rq2 = true ->
  coherent db (fetchMembers st db (Some (selectedDate st)) showLoading rq1 rq2).
Proof.
  intros Hok H1 H2. apply coherent_spec. intros e He.
  rewrite fetchMembers_selectedDate.
  rewrite fetchMembers_delivered in He by done.
  assert (default (selectedDate st) (or_null (Some (selectedDate st)))
          = selectedDate st) as Hdate.
  { unfold or_null. by destruct (truthy (selectedDate st)). }
  rewrite Hdate in He.
  apply list_elem_of_fmap in He as (c & -> & _). simpl.
  rewrite attendanceMap_record by apply Hok.
  destruct (record_for db (cm_id c) (selectedDate st)) as [r|] eqn:Hr; [|done].
  simpl. apply record_for_Some in Hr as [Hr _].
  by rewrite !or_null_id by eauto using att_ok_pos.
Qed.

(** After a refresh for the selected date the roster is coherent with the
    store, whether or not the reads were delivered. *)
Lemma fetchMembers_coherent st db showLoading rq1 rq2 :
  att_ok db -> coherent db st ->
  coherent db (fetchMembers st db (Some (selectedDate st)) showLoading rq1 rq2).
Proof.
  intros Hok Hco.
  destruct (delivered rq1 && delivered rq2) eqn:Hd.
  - apply andb_prop in Hd as [H1 H2].
    by apply fetchMembers_delivered_coherent.
  - apply coherent_spec. intros e He. rewrite coherent_spec in Hco.
    rewrite fetchMembers_selectedDate.
    rewrite fetchMembers_undelivered in He by done. by apply Hco.
Qed.

(** ** The write path *)

Lemma attendanceData_key st env m s p l :
  ad_key (attendanceData st env m s p l) = (m, selectedDate st).
Proof. done. Qed.

(** What one call of [markAttendance] does to the store and to the roster,
    when the roster is coherent with the store. *)
Lemma markAttendance_spec st db env m s p l r db' st' :
  att_ok db -> coherent db st ->
  markAttendance st db env m s p l = (r, db', st') ->
  let data := attendanceData st env m s p l in
  users db' = users db /\ groups db' = groups db /\
  participants db' = participants db /\
  committee_members db' = committee_members db /\
  match r with
  | Err _ =>
      attendance db' = attendance db /\ st' = st /\
      (attendance_seq db' = attendance_seq db \/
       attendance_seq db' = attendance_seq db + 1)
  | Ok _ =>
      delivered (mark_rq env) = true /\
      m ∈ map ma_member_id (members st) /\
      match record_for db m (selectedDate st) with
      | None =>
          attendance db'
          = attendance db
            ++ [new_attendance_row (attendance_seq db) (NOW (mark_rq env)) data] /\
          attendance_seq db' = attendance_seq db + 1 /\
          member_exists db m = true /\
          st' = set_members st
                  (map (mark_local env m (Some (attendance_seq db)) s p l)
                       (members st))
      | Some old =>
          attendance db'
          = map (fun r => if decide (ar_id r = ar_id old)
                          then apply_attendance_data (NOW (mark_rq env)) data r
                          else r)
                (attendance db) /\
          attendance_seq db' = attendance_seq db /\
          st' = set_members st
                  (map (mark_local env m None s p l) (members st))
      end
  end.
Proof.
  intros Hok Hco Hcall data. unfold markAttendance in Hcall.
  destruct (find _ (members st)) as [member|] eqn:Hfind;
    [|simplify_eq; repeat split; auto].
  apply find_Some_elem in Hfind as [Hmem Hid].
  apply bool_decide_eq_true in Hid.
  pose proof (proj1 (coherent_spec _ _) Hco _ Hmem) as Hcoh.
  rewrite Hid in Hcoh.
  assert (m ∈ map ma_member_id (members st)) as Hroster
    by (apply list_elem_of_fmap; eauto).
  fold data in Hcall.
  destruct (or_null (ma_attendance_id member)) as [aid|] eqn:Haid.
  - (* UPDATE *)
    destruct (record_for db m (selectedDate st)) as [old|] eqn:Hold;
      [|done].
    injection Hcoh as ->.
    destruct (update_attendance _ db (ar_id old) data) as [ru db1] eqn:Hup.
    apply update_attendance_inv in Hup as (?&?&?&?&?&Hup).
    destruct ru as [[]|e]; simplify_eq.
    + destruct Hup as (Hd & [[Hnil _]|(t & _ & _ & _ & Hrows)]).
      * exfalso. apply record_for_Some in Hold as [Hold _].
        assert (old ∈ filter (fun r => ar_id r = ar_id old) (attendance db))
          as Hin by (by apply list_elem_of_filter).
        rewrite Hnil in Hin. inversion Hin.
      * repeat split; eauto.
    + repeat split; auto; congruence.
  - (* INSERT *)
    destruct (record_for db m (selectedDate st)) as [old|] eqn:Hold;
      [done|].
    destruct (insert_attendance _ db data) as [ri db1] eqn:Hins.
    apply insert_attendance_inv in Hins as (?&?&?&?&Hins).
    destruct ri as [row|e]; simplify_eq.
    + destruct Hins as (Hd & -> & Hrows & Hseq & _ & _ & Hm).
      repeat split; eauto.
    + destruct Hins as [? ?]. repeat split; auto.
Qed.

Lemma markAttendance_selectedDate st db env m s p l r db' st' :
  markAttendance st db env m s p l = (r, db', st') ->
  selectedDate st' = selectedDate st.
Proof.
  unfold markAttendance. intros H.
  repeat (case_match; simplify_eq/=); done.
Qed.

(** The rewritten table of an UPDATE by key: keys and pairs stay where they
    are when the rewritten row already carried the pair. *)
Lemma update_rows_same db old now data :
  att_ok db -> old ∈ attendance db -> ar_key old = ad_key data ->
  let f := fun r => if decide (ar_id r = ar_id old)
                    then apply_attendance_data now data r else r in
  forall r, r ∈ attendance db ->
    ar_key (f r) = ar_key r /\ ar_id (f r) = ar_id r /\
    (r <> old -> f r = r) /\ f old = apply_attendance_data now data old.
Proof.
  intros (Hk & Hi & _) Hold Hkey f r Hr. unfold f.
  assert (forall x y : AttendanceRecord,
             (if decide (ar_id old = ar_id old) then x else y) = x) as Hself
    by (intros; by rewrite decide_True).
  destruct (decide (ar_id r = ar_id old)) as [Heq|Hne].
  - assert (r = old) as -> by (by apply (NoDup_id_eq (attendance db))).
    repeat split; auto. by intros [].
  - repeat split; auto.
Qed.

Lemma map_same_on {A B} (f g : A -> B) (l : list A) :
  (forall x, x ∈ l -> f x = g x) -> map f l = map g l.
Proof.
  intros H. apply map_ext_in. intros x Hx. apply H. by apply list_elem_of_In.
Qed.

(** [att_ok] is an invariant of [markAttendance]. *)
Lemma markAttendance_att_ok st db env m s p l r db' st' :
  att_ok db -> coherent db st ->
  markAttendance st db env m s p l = (r, db', st') ->
  att_ok db'.
Proof.
  intros Hok Hco Hcall.
  pose proof (markAttendance_spec _ _ _ _ _ _ _ _ _ _ Hok Hco Hcall)
    as (_ & _ & _ & _ & Hspec).
  pose proof Hok as (Hk & Hi & Hs & Hall).
  destruct r as [[]|e].
  - destruct Hspec as (_ & _ & Hspec).
    destruct (record_for db m (selectedDate st)) as [old|] eqn:Hold.
    + destruct Hspec as (Hrows & Hseq & _).
      apply record_for_Some in Hold as [Hold Hkey].
      pose proof (update_rows_same db old (NOW (mark_rq env))
                    (attendanceData st env m s p l) Hok Hold Hkey) as Hf.
      unfold att_ok. rewrite Hrows, Hseq, !map_map.
      rewrite (map_same_on _ ar_key) by (intros x Hx; by apply Hf).
      rewrite (map_same_on (fun x => ar_id _) ar_id)
        by (intros x Hx; by apply Hf).
      repeat split; auto.
      apply Forall_forall. intros x Hx.
      apply list_elem_of_fmap in Hx as (y & -> & Hy).
      destruct (Hf y Hy) as (_ & -> & _).
      rewrite Forall_forall in Hall. by apply Hall.
    + destruct Hspec as (Hrows & Hseq & _).
      apply record_for_None in Hold.
      unfold att_ok. rewrite Hrows, Hseq, !map_app. simpl.
      repeat split.
      * apply NoDup_app. repeat split; [done| |apply NoDup_singleton].
        intros k Hkin Hk1. apply list_elem_of_singleton in Hk1 as ->.
        by apply Hold.
      * apply NoDup_app. repeat split; [done| |apply NoDup_singleton].
        intros i Hin Hi1. apply list_elem_of_singleton in Hi1 as ->.
        apply list_elem_of_fmap in Hin as (y & Hy & Hyin).
        rewrite Forall_forall in Hall. apply Hall in Hyin. lia.
      * lia.
      * apply Forall_app. split.
        -- eapply Forall_impl; [exact Hall|]. simpl. intros; lia.
        -- apply Forall_singleton. simpl. lia.
  - destruct Hspec as (Hrows & _ & Hseq).
    unfold att_ok. rewrite Hrows. repeat split; auto; [lia|].
    eapply Forall_impl; [exact Hall|]. simpl. intros; lia.
Qed.

(** The record of every pair after a call: the marked pair holds the row
    built from this call (a new row, or the old row rewritten), every other
    pair holds what it held. *)
Lemma markAttendance_lookup st db env m s p l r db' st' :
  att_ok db -> coherent db st ->
  markAttendance st db env m s p l = (r, db', st') ->
  let data := attendanceData st env m s p l in
  forall m' d',
    record_for db' m' d'
    = if decide ((m', d') = (m, selectedDate st)) then
        match r with
        | Ok _ =>
            Some match record_for db m (selectedDate st) with
                 | None => new_attendance_row (attendance_seq db)
                             (NOW (mark_rq env)) data
                 | Some old => apply_attendance_data (NOW (mark_rq env)) data old
                 end
        | Err _ => record_for db m' d'
        end
      else record_for db m' d'.
Proof.
  intros Hok Hco Hcall data m' d'.
  pose proof (markAttendance_spec _ _ _ _ _ _ _ _ _ _ Hok Hco Hcall)
    as (_ & _ & _ & _ & Hspec).
  fold data in Hspec.
  destruct r as [[]|e].
  - destruct Hspec as (_ & _ & Hspec).
    destruct (record_for db m (selectedDate st)) as [old|] eqn:Hold.
    + destruct Hspec as (Hrows & _).
      pose proof Hold as Hold'. apply record_for_Some in Hold' as [Hin Hkey].
      pose proof (update_rows_same db old (NOW (mark_rq env)) data Hok Hin Hkey)
        as Hf.
      unfold record_for at 1. rewrite Hrows.
      rewrite find_map_same.
      2:{ intros x Hx. destruct (Hf x Hx) as (Hkx & _).
          cbv beta in *. by rewrite Hkx. }
      fold (record_for db m' d').
      case_decide as Hk.
      * injection Hk as -> ->. rewrite Hold. simpl. f_equal.
        by destruct (Hf old Hin) as (_ & _ & _ & ->).
      * destruct (record_for db m' d') as [r'|] eqn:Hr'; [|done].
        simpl. f_equal. apply record_for_Some in Hr' as [Hin' Hkey'].
        destruct (Hf r' Hin') as (_ & _ & Hne & _). apply Hne.
        intros ->. apply Hk. congruence.
    + destruct Hspec as (Hrows & _).
      unfold record_for at 1. rewrite Hrows, find_snoc.
      fold (record_for db m' d'). simpl.
      case_decide as Hk.
      * injection Hk as -> ->. rewrite Hold.
        by rewrite bool_decide_eq_true_2.
      * destruct (record_for db m' d'); [done|].
        by rewrite bool_decide_eq_false_2.
  - destruct Hspec as (Hrows & _).
    unfold record_for. rewrite Hrows. by case_decide.
Qed.

(** Coherence of the roster is an invariant of [markAttendance]. *)
Lemma markAttendance_coherent st db env m s p l r db' st' :
  att_ok db -> coherent db st ->
  markAttendance st db env m s p l = (r, db', st') ->
  coherent db' st'.
Proof.
  intros Hok Hco Hcall. apply coherent_spec. intros e' He'.
  pose proof (markAttendance_lookup _ _ _ _ _ _ _ _ _ _ Hok Hco Hcall) as Hlk.
  pose proof (markAttendance_spec _ _ _ _ _ _ _ _ _ _ Hok Hco Hcall)
    as (_ & _ & _ & _ & Hspec).
  rewrite (markAttendance_selectedDate _ _ _ _ _ _ _ _ _ _ Hcall).
  simpl in Hlk. rewrite Hlk. clear Hlk.
  rewrite coherent_spec in Hco.
  destruct r as [[]|err].
  - destruct Hspec as (_ & _ & Hspec).
    destruct (record_for db m (selectedDate st)) as [old|] eqn:Hold.
    + destruct Hspec as (_ & _ & ->). simpl in He'.
      apply list_elem_of_fmap in He' as (e & -> & He).
      specialize (Hco e He). unfold mark_local.
      destruct (decide (ma_member_id e = m)) as [<-|Hne]; simpl.
      * rewrite decide_True by done. simpl. by rewrite Hco, Hold.
      * rewrite decide_False by congruence. done.
    + destruct Hspec as (_ & _ & _ & ->). simpl in He'.
      apply list_elem_of_fmap in He' as (e & -> & He).
      specialize (Hco e He). unfold mark_local.
      destruct (decide (ma_member_id e = m)) as [<-|Hne]; simpl.
      * rewrite decide_True by done. simpl.
        apply or_null_id. by destruct Hok as (_ & _ & ? & _).
      * rewrite decide_False by congruence. done.
  - destruct Hspec as (_ & -> & _). rewrite Hco by done. by case_decide.
Qed.

(** Both invariants hold along every history of marks and refreshes, and
    the selected date stays what it is. *)
Lemma run_invariant ops db st :
  att_ok db -> coherent db st ->
  att_ok (fst (run (db, st) ops)) /\
  coherent (fst (run (db, st) ops)) (snd (run (db, st) ops)) /\
  selectedDate (snd (run (db, st) ops)) = selectedDate st.
Proof.
  revert db st. induction ops as [|op ops IH]; intros db st Hok Hco; [done|].
  unfold run in *. simpl.
  destruct op as [env m s p l|sl rq1 rq2]; simpl.
  - destruct (markAttendance st db env m s p l) as [[r db'] st'] eqn:Hcall.
    destruct (IH db' st') as (? & ? & ->);
      eauto using markAttendance_att_ok, markAttendance_coherent.
    split; [done|split; [done|]]. eauto using markAttendance_selectedDate.
  - destruct (IH db (fetchMembers st db (Some (selectedDate st)) sl rq1 rq2))
      as (? & ? & ->); eauto using fetchMembers_coherent.
    split; [done|split; [done|]]. apply fetchMembers_selectedDate.
Qed.

(** Along every history the record of a pair, once there, stays the one
    row it was: its key never changes. *)
Lemma run_keeps_record ops db st m d row :
  att_ok db -> coherent db st ->
  record_for db m d = Some row ->
  exists row', record_for (fst (run (db, st) ops)) m d = Some row' /\
               ar_id row' = ar_id row.
Proof.
  revert db st row. induction ops as [|op ops IH]; intros db st row Hok Hco Hrow.
  { eauto. }
  unfold run in *. simpl.
  destruct op as [env m' s p l|sl rq1 rq2]; simpl.
  - destruct (markAttendance st db env m' s p l) as [[r db'] st'] eqn:Hcall.
    pose proof (markAttendance_lookup _ _ _ _ _ _ _ _ _ _ Hok Hco Hcall m d)
      as Hlk. simpl in Hlk.
    assert (exists row1, record_for db' m d = Some row1 /\ ar_id row1 = ar_id row)
      as (row1 & Hrow1 & <-).
    { rewrite Hlk. case_decide as Hk; [|eauto].
      injection Hk as -> ->. destruct r as [[]|]; [|eauto].
      rewrite Hrow. eauto. }
    eapply IH; eauto using markAttendance_att_ok, markAttendance_coherent.
  - eapply IH; eauto using fetchMembers_coherent.
Qed.

(** ** The UNIQUE constraint, whatever the roster believes *)

(** Rewriting the one row with key [i] to a pair no other row has keeps
    the pairs distinct. *)
Lemma update_keeps_pairs_distinct (rows : list AttendanceRecord) i k
    (g : AttendanceRecord -> AttendanceRecord) :
  (forall r, ar_key (g r) = k) ->
  NoDup (map ar_key rows) ->
  (length (filter (fun r => ar_id r = i) rows) <= 1)%nat ->
  k ∉ map ar_key (filter (fun r => ar_id r <> i) rows) ->
  NoDup (map ar_key (map (fun r => if decide (ar_id r = i) then g r else r) rows)).
Proof.
  intros Hg. induction rows as [|a rows IH]; intros Hnd Hlen Hk; [done|].
  simpl in Hnd. apply NoDup_cons in Hnd as [Ha Hnd].
  rewrite filter_cons in Hlen, Hk. simpl.
  destruct (decide (ar_id a = i)) as [Hai|Hai].
  - rewrite decide_False in Hk by (intros ?; done).
    simpl in Hlen.
    assert (filter (fun r => ar_id r = i) rows = []) as Hnone
      by (destruct (filter _ rows); [done|simpl in Hlen; lia]).
    assert (forall r, r ∈ rows -> ar_id r <> i) as Hall.
    { intros r Hr Hri. by eapply (filter_nil_not_elem_of _ rows r). }
    rewrite (map_same_on _ id), map_id by (intros r Hr; by rewrite decide_False by auto).
    assert (filter (fun r => ar_id r <> i) rows = rows) as Heq.
    { clear -Hall. induction rows as [|b rows IH]; [done|].
      rewrite filter_cons_True by (apply Hall; left).
      f_equal. apply IH. intros r Hr. apply Hall. by right. }
    rewrite Heq in Hk. rewrite Hg. by apply NoDup_cons.
  - rewrite decide_True in Hk by done. simpl in Hk.
    apply not_elem_of_cons in Hk as [Hka Hk].
    apply NoDup_cons. split; [|by apply IH].
    intros Hin. apply list_elem_of_fmap in Hin as (y & Hy & Hyin).
    apply list_elem_of_fmap in Hyin as (r & -> & Hr).
    destruct (decide (ar_id r = i)).
    + rewrite Hg in Hy. by apply Hka.
    + apply Ha. rewrite Hy. apply list_elem_of_fmap. eauto.
Qed.

(** No call of [markAttendance], in any state of the store and of the
    roster, leaves two rows with one (member, date) pair. *)
Lemma markAttendance_unique st db env m s p l r db' st' :
  NoDup (map ar_key (attendance db)) ->
  markAttendance st db env m s p l = (r, db', st') ->
  NoDup (map ar_key (attendance db')).
Proof.
  intros Hnd. unfold markAttendance. intros Hcall.
  destruct (find _ (members st)) as [member|]; [|by simplify_eq].
  destruct (or_null (ma_attendance_id member)) as [aid|].
  - destruct (update_attendance _ db aid _) as [ru db1] eqn:Hup.
    apply update_attendance_inv in Hup as (_&_&_&_&_&Hup).
    destruct ru as [[]|e]; simplify_eq; [|done].
    destruct Hup as (_ & [[_ ->]|(t & Ht & Hk & _ & ->)]); [done|].
    apply update_keeps_pairs_distinct with (k := (m, selectedDate st));
      [done|done|by rewrite Ht|done].
  - destruct (insert_attendance _ db _) as [ri db1] eqn:Hins.
    apply insert_attendance_inv in Hins as (_&_&_&_&Hins).
    destruct ri as [row|e]; simplify_eq.
    + destruct Hins as (_ & -> & -> & _ & _ & Hk & _).
      rewrite map_app. apply NoDup_app. repeat split; [done| |apply NoDup_singleton].
      intros k Hkin Hk1. apply list_elem_of_singleton in Hk1 as ->. by apply Hk.
    + destruct Hins as [-> _]. done.
Qed.

(** ** When the store accepts *)

Lemma filter_id_single db old :
  NoDup (map ar_id (attendance db)) -> old ∈ attendance db ->
  filter (fun r => ar_id r = ar_id old) (attendance db) = [old].
Proof.
  induction (attendance db) as [|a rows IH]; intros Hnd Hin; [inversion Hin|].
  simpl in Hnd. apply NoDup_cons in Hnd as [Ha Hnd].
  rewrite filter_cons. apply elem_of_cons in Hin as [->|Hin].
  - rewrite decide_True by done. f_equal. apply filter_none.
    intros r Hr Hri. apply Ha. rewrite <- Hri. apply list_elem_of_fmap. eauto.
  - rewrite decide_False; [by apply IH|].
    intros Hai. apply Ha. rewrite Hai. apply list_elem_of_fmap. eauto.
Qed.

(** First mark of a pair: the member is in the roster and in the store,
    the request reaches the store, so the INSERT is accepted. *)
Lemma markAttendance_inserts st db env m s p l :
  att_ok db -> coherent db st ->
  m ∈ map ma_member_id (members st) ->
  member_exists db m = true ->
  delivered (mark_rq env) = true ->
  record_for db m (selectedDate st) = None ->
  exists db' st', markAttendance st db env m s p l = (Ok (), db', st').
Proof.
  intros Hok Hco Hroster Hm Hd Hnone.
  apply list_elem_of_fmap in Hroster as (e & Hem & He). symmetry in Hem.
  rewrite coherent_spec in Hco.
  unfold markAttendance.
  destruct (find _ (members st)) as [member|] eqn:Hfind.
  2:{ rewrite find_None_iff in Hfind. specialize (Hfind e He).
      by rewrite bool_decide_eq_true_2 in Hfind. }
  apply find_Some_elem in Hfind as [Hmem Hid].
  apply bool_decide_eq_true in Hid.
  pose proof (Hco _ Hmem) as Hcoh. rewrite Hid, Hnone in Hcoh. simpl in Hcoh.
  rewrite Hcoh.
  destruct (insert_attendance_accepts (mark_rq env) db
              (attendanceData st env m s p l)) as (row & db' & ->); eauto.
  - destruct Hok as (_ & _ & _ & Hall). intros Hin.
    apply list_elem_of_fmap in Hin as (y & Hy & Hyin).
    rewrite Forall_forall in Hall. apply Hall in Hyin. lia.
  - by apply record_for_None.
Qed.

(** A further mark of the pair: the UPDATE is accepted. *)
Lemma markAttendance_updates st db env m s p l old :
  att_ok db -> coherent db st ->
  m ∈ map ma_member_id (members st) ->
  member_exists db m = true ->
  delivered (mark_rq env) = true ->
  record_for db m (selectedDate st) = Some old ->
  exists db' st', markAttendance st db env m s p l = (Ok (), db', st').
Proof.
  intros Hok Hco Hroster Hm Hd Hold.
  apply list_elem_of_fmap in Hroster as (e & Hem & He). symmetry in Hem.
  rewrite coherent_spec in Hco.
  unfold markAttendance.
  destruct (find _ (members st)) as [member|] eqn:Hfind.
  2:{ rewrite find_None_iff in Hfind. specialize (Hfind e He).
      by rewrite bool_decide_eq_true_2 in Hfind. }
  apply find_Some_elem in Hfind as [Hmem Hid].
  apply bool_decide_eq_true in Hid.
  pose proof (Hco _ Hmem) as Hcoh. rewrite Hid, Hold in Hcoh. simpl in Hcoh.
  rewrite Hcoh. unfold update_attendance. rewrite Hd.
  pose proof Hok as (Hk & Hi & _).
  apply record_for_Some in Hold as [Hin Hkey].
  rewrite filter_id_single by done. simpl. rewrite Hm. simpl.
  rewrite bool_decide_eq_false_2; [simpl; eauto|].
  intros Hdup. apply list_elem_of_fmap in Hdup as (y & Hy & Hyin).
  apply list_elem_of_filter in Hyin as [Hne Hyin].
  apply Hne. f_equal. eapply NoDup_key_eq; eauto.
  rewrite Hkey. symmetry. exact Hy.
Qed.

Lemma markAttendance_roster_ids st db env m s p l r db' st' :
  markAttendance st db env m s p l = (r, db', st') ->
  map ma_member_id (members st') = map ma_member_id (members st).
Proof.
  unfold markAttendance. intros H.
  repeat (case_match; simplify_eq/=); try done.
  all: rewrite map_map; apply map_ext; intros e; unfold mark_local;
       by case_decide.
Qed.

(** A mark of a member who is on the roster and in the store is accepted
    whenever its request arrives. *)
Lemma markAttendance_succeeds st db env m s p l :
  att_ok db -> coherent db st ->
  m ∈ map ma_member_id (members st) ->
  member_exists db m = true ->
  delivered (mark_rq env) = true ->
  exists db' st', markAttendance st db env m s p l = (Ok (), db', st').
Proof.
  intros. destruct (record_for db m (selectedDate st)) eqn:?;
    eauto using markAttendance_inserts, markAttendance_updates.
Qed.

Lemma member_exists_eq db db' m :
  committee_members db' = committee_members db ->
  member_exists db' m = member_exists db m.
Proof. unfold member_exists. by intros ->. Qed.

(** A refresh keeps on the roster every member the store has. *)
Lemma fetchMembers_roster_ids st db date showLoading rq1 rq2 m :
  m ∈ map ma_member_id (members st) -> member_exists db m = true ->
  m ∈ map ma_member_id
        (members (fetchMembers st db date showLoading rq1 rq2)).
Proof.
  intros Hr Hm. destruct (delivered rq1 && delivered rq2) eqn:Hd.
  - apply andb_prop in Hd as [H1 H2].
    rewrite fetchMembers_delivered by done. rewrite map_map. simpl.
    apply bool_decide_eq_true in Hm.
    apply list_elem_of_fmap in Hm as (c & -> & Hc).
    apply list_elem_of_fmap. exists c. split; [done|].
    by rewrite merge_sort_Permutation.
  - by rewrite fetchMembers_undelivered.
Qed.

(** Roster and member table along a history. *)
Lemma run_roster ops db st m :
  att_ok db -> coherent db st ->
  m ∈ map ma_member_id (members st) -> member_exists db m = true ->
  member_exists (fst (run (db, st) ops)) m = true /\
  m ∈ map ma_member_id (members (snd (run (db, st) ops))).
Proof.
  revert db st. induction ops as [|op ops IH]; intros db st Hok Hco Hr Hm;
    [done|].
  unfold run in *. simpl.
  destruct op as [env m' s p l|sl rq1 rq2]; simpl.
  - destruct (markAttendance st db env m' s p l) as [[r db'] st'] eqn:Hcall.
    pose proof (markAttendance_spec _ _ _ _ _ _ _ _ _ _ Hok Hco Hcall)
      as (_ & _ & _ & Hcm & _).
    apply IH; eauto using markAttendance_att_ok, markAttendance_coherent.
    + by rewrite (markAttendance_roster_ids _ _ _ _ _ _ _ _ _ _ Hcall).
    + by rewrite (member_exists_eq _ _ _ Hcm).
  - apply IH; eauto using fetchMembers_coherent, fetchMembers_roster_ids.
Qed.

(** What a written row holds after an accepted call: the status of the
    call, the photo, the numbers as their columns keep them, the address,
    and a check-in time that is the clock reading of the call for "attend"
    and null for "absent". *)
Lemma markAttendance_written_row st db env m s p l db' st' :
  att_ok db -> coherent db st ->
  markAttendance st db env m s p l = (Ok (), db', st') ->
  exists row,
    record_for db' m (selectedDate st) = Some row /\
    filter (fun r => ar_key r = (m, selectedDate st)) (attendance db') = [row] /\
    ar_status row = s /\
    ar_photo_url row = finalPhotoUrl env p /\
    ar_latitude row = latitude_column (or_null (loc_latitude <$> l)) /\
    ar_longitude row = longitude_column (or_null (loc_longitude <$> l)) /\
    ar_accuracy row = accuracy_column (or_null (loc_accuracy <$> l)) /\
    ar_address row = or_null (l ≫= loc_address) /\
    ar_check_in_time row
    = match s with attend => Some (now_data env) | absent => None end.
Proof.
  intros Hok Hco Hcall.
  pose proof (markAttendance_lookup _ _ _ _ _ _ _ _ _ _ Hok Hco Hcall
                m (selectedDate st)) as Hlk.
  simpl in Hlk. rewrite decide_True in Hlk by done.
  pose proof (markAttendance_att_ok _ _ _ _ _ _ _ _ _ _ Hok Hco Hcall) as Hok'.
  eexists. split; [exact Hlk|].
  split; [rewrite rows_of_pair by apply Hok'; by rewrite Hlk|].
  by destruct (record_for db m (selectedDate st)).
Qed.

(** A call made from a roster that is behind the store: the entry of the
    member shows no record where the store has one. The INSERT is refused,
    whatever else the store checks, and no row is touched. *)
Lemma markAttendance_stale st db env m s p l old :
  m ∈ map ma_member_id (members st) ->
  (forall e, e ∈ members st -> ma_member_id e = m ->
             or_null (ma_attendance_id e) = None) ->
  record_for db m (selectedDate st) = Some old ->
  exists err db',
    markAttendance st db env m s p l = (Err err, db', st) /\
    attendance db' = attendance db /\
    (att_ok db -> member_exists db m = true ->
     delivered (mark_rq env) = true -> err = UniqueViolation).
Proof.
  intros Hroster Hnone Hold.
  apply list_elem_of_fmap in Hroster as (e & Hem & He). symmetry in Hem.
  unfold markAttendance.
  destruct (find _ (members st)) as [member|] eqn:Hfind.
  2:{ rewrite find_None_iff in Hfind. specialize (Hfind e He).
      by rewrite bool_decide_eq_true_2 in Hfind. }
  apply find_Some_elem in Hfind as [Hmem Hid].
  apply bool_decide_eq_true in Hid.
  rewrite (Hnone _ Hmem Hid).
  apply record_for_Some in Hold as [Hin Hkey].
  assert (ad_key (attendanceData st env m s p l) ∈ map ar_key (attendance db))
    as Hdup.
  { apply list_elem_of_fmap. exists old. split; [|done]. by rewrite Hkey. }
  destruct (insert_attendance _ db _) as [ri db1] eqn:Hins.
  pose proof Hins as Hinv.
  apply insert_attendance_inv in Hinv as (_&_&_&_&Hinv).
  destruct ri as [row|err].
  { by destruct Hinv as (_ & _ & _ & _ & _ & Hfree & _). }
  destruct Hinv as [Hrows _].
  exists err, db1. split; [done|]. split; [done|].
  intros (_ & _ & _ & Hall) Hm Hd.
  unfold insert_attendance in Hins. rewrite Hd in Hins.
  rewrite bool_decide_eq_false_2 in Hins.
  2:{ intros Hpk. apply list_elem_of_fmap in Hpk as (y & Hy & Hyin).
      rewrite Forall_forall in Hall. apply Hall in Hyin. lia. }
  cbn [attendanceData ad_committee_member_id] in Hins.
  rewrite Hm in Hins. simpl in Hins.
  rewrite bool_decide_eq_true_2 in Hins by done.
  by injection Hins as <- _.
Qed.

(** C1, as stated, fails. Member 1 has a record for today. (1) A page
    whose roster was fetched before that record was written marks the
    member "absent": the call does not update the record, its INSERT is
    refused by the UNIQUE constraint and the record stays "attend".
    (2) A page whose fetch failed after the date was changed marks the
    member on the new date, a pair without a record: the call is accepted
    and inserts no row; it rewrites the record of today, which the member
    loses. *)
Lemma mark_from_stale_roster_does_not_update :
  record_for Samples.db1 1 Samples.today = Some Samples.row1 /\
  ar_status Samples.row1 = attend /\
  (let '(r, db', _) :=
     markAttendance Samples.st0 Samples.db1 Samples.env_ok 1 absent None None in
   r = Err UniqueViolation /\ attendance db' = attendance Samples.db1) /\
  (let st :=
     AttendanceProvider.setSelectedDate Samples.st1 Samples.db1 "2025-01-11"
       Samples.rq_lost Samples.rq_lost in
   selectedDate st = "2025-01-11"%string /\
   record_for Samples.db1 1 (selectedDate st) = None /\
   let '(r, db', _) :=
     markAttendance st Samples.db1 Samples.env_ok 1 attend None None in
   r = Ok () /\
   length (attendance db') = length (attendance Samples.db1) /\
   record_for db' 1 Samples.today = None).
Proof. vm_compute. repeat split. Qed.

(** C1, amended. For every committee member and every date at most one
    attendance record exists, and [markAttendance] picks INSERT or UPDATE
    by its local roster. (1) No call, whatever the store and the roster
    hold, leaves two rows with one (member, date) pair. (2) From a roster
    that agrees with the store, a call for a pair without a record, its
    request arriving, inserts exactly one row, at the end of the table,
    holding what the call supplied; after any further history of marks and
    refreshes of that page the pair still has exactly that one row (same
    key [id]); and every later call of the page for the pair leaves the
    number of rows as it is, is accepted when its request arrives, and
    then rewrites that row in place with what the call supplied; a call
    that is not accepted touches no row. (3) From a roster that is behind
    the store, showing no record for a pair that has one, the call fails
    and touches no row; its INSERT is what the UNIQUE constraint refuses. *)
Theorem markAttendance_one_record_per_pair :
  (forall st db env m s p l r db' st',
     NoDup (map ar_key (attendance db)) ->
     markAttendance st db env m s p l = (r, db', st') ->
     NoDup (map ar_key (attendance db'))) /\
  (forall st db env m s p l ops,
     att_ok db -> coherent db st ->
     m ∈ map ma_member_id (members st) ->
     member_exists db m = true ->
     delivered (mark_rq env) = true ->
     record_for db m (selectedDate st) = None ->
     exists db1 st1 row,
       markAttendance st db env m s p l = (Ok (), db1, st1) /\
       attendance db1 = attendance db ++ [row] /\
       ar_key row = (m, selectedDate st) /\
       ar_status row = s /\
       ar_photo_url row = finalPhotoUrl env p /\
       ar_latitude row = latitude_column (or_null (loc_latitude <$> l)) /\
       ar_longitude row = longitude_column (or_null (loc_longitude <$> l)) /\
       ar_accuracy row = accuracy_column (or_null (loc_accuracy <$> l)) /\
       ar_address row = or_null (l ≫= loc_address) /\
       ar_check_in_time row
       = match s with attend => Some (now_data env) | absent => None end /\
       let db2 := fst (run (db1, st1) ops) in
       let st2 := snd (run (db1, st1) ops) in
       exists row2,
         filter (fun r => ar_key r = (m, selectedDate st)) (attendance db2)
         = [row2] /\
         ar_id row2 = ar_id row /\
         forall env' s' p' l' r db3 st3,
           markAttendance st2 db2 env' m s' p' l' = (r, db3, st3) ->
           length (attendance db3) = length (attendance db2) /\
           (delivered (mark_rq env') = true -> r = Ok ()) /\
           (r <> Ok () -> attendance db3 = attendance db2) /\
           (r = Ok () ->
            exists row3,
              filter (fun r => ar_key r = (m, selectedDate st)) (attendance db3)
              = [row3] /\
              ar_id row3 = ar_id row2 /\
              ar_created_at row3 = ar_created_at row2 /\
              ar_updated_at row3 = NOW (mark_rq env') /\
              ar_status row3 = s' /\
              ar_photo_url row3 = finalPhotoUrl env' p' /\
              ar_latitude row3
              = latitude_column (or_null (loc_latitude <$> l')) /\
              ar_longitude row3
              = longitude_column (or_null (loc_longitude <$> l')) /\
              ar_accuracy row3
              = accuracy_column (or_null (loc_accuracy <$> l')) /\
              ar_address row3 = or_null (l' ≫= loc_address) /\
              ar_check_in_time row3
              = match s' with attend => Some (now_data env') | absent => None end)) /\
  (forall st db env m s p l old,
     m ∈ map ma_member_id (members st) ->
     (forall e, e ∈ members st -> ma_member_id e = m ->
                or_null (ma_attendance_id e) = None) ->
     record_for db m (selectedDate st) = Some old ->
     exists err db',
       markAttendance st db env m s p l = (Err err, db', st) /\
       attendance db' = attendance db /\
       (att_ok db -> member_exists db m = true ->
        delivered (mark_rq env) = true -> err = UniqueViolation)).
Proof.
  split; [exact markAttendance_unique|]. split; [|exact markAttendance_stale].
  intros st db env m s p l ops Hok Hco Hroster Hm Hd Hnone.
  destruct (markAttendance_inserts st db env m s p l) as (db1 & st1 & Hcall);
    try done.
  pose proof (markAttendance_spec _ _ _ _ _ _ _ _ _ _ Hok Hco Hcall)
    as (_ & _ & _ & Hcm & _ & _ & Hspec).
  rewrite Hnone in Hspec. destruct Hspec as (Hrows & _ & _ & _).
  pose proof (markAttendance_att_ok _ _ _ _ _ _ _ _ _ _ Hok Hco Hcall) as Hok1.
  pose proof (markAttendance_coherent _ _ _ _ _ _ _ _ _ _ Hok Hco Hcall) as Hco1.
  pose proof (markAttendance_selectedDate _ _ _ _ _ _ _ _ _ _ Hcall) as Hdate1.
  exists db1, st1. eexists. split; [done|]. split; [exact Hrows|].
  do 8 (split; [reflexivity|]). intros db2 st2.
  destruct (run_invariant ops db1 st1 Hok1 Hco1) as (Hok2 & Hco2 & Hdate2).
  fold db2 st2 in Hok2, Hco2, Hdate2.
  assert (record_for db1 m (selectedDate st)
          = Some (new_attendance_row (attendance_seq db) (NOW (mark_rq env))
                    (attendanceData st env m s p l))) as Hrec1.
  { rewrite (markAttendance_lookup _ _ _ _ _ _ _ _ _ _ Hok Hco Hcall).
    by rewrite decide_True, Hnone by done. }
  destruct (run_keeps_record ops db1 st1 m (selectedDate st) _ Hok1 Hco1 Hrec1)
    as (row2 & Hrec2 & Hid2). fold db2 in Hrec2.
  exists row2. split; [|split; [exact Hid2|]].
  { rewrite rows_of_pair by apply Hok2. by rewrite Hrec2. }
  intros env' s' p' l' r db3 st3 Hcall3.
  assert (selectedDate st2 = selectedDate st) as Hdate by congruence.
  pose proof (markAttendance_spec _ _ _ _ _ _ _ _ _ _ Hok2 Hco2 Hcall3)
    as (_ & _ & _ & _ & Hspec3).
  pose proof (markAttendance_att_ok _ _ _ _ _ _ _ _ _ _ Hok2 Hco2 Hcall3) as Hok3.
  pose proof (markAttendance_lookup _ _ _ _ _ _ _ _ _ _ Hok2 Hco2 Hcall3
                m (selectedDate st)) as Hlk3.
  simpl in Hlk3. rewrite Hdate, decide_True, Hrec2 in Hlk3 by done.
  split; [|split; [|split]].
  - destruct r as [[]|e].
    + destruct Hspec3 as (_ & _ & Hspec3). rewrite Hdate, Hrec2 in Hspec3.
      destruct Hspec3 as (-> & _). by rewrite length_map.
    + destruct Hspec3 as (-> & _). done.
  - intros Hd'.
    destruct (run_roster ops db1 st1 m Hok1 Hco1) as [Hm2 Hr2].
    { by rewrite (markAttendance_roster_ids _ _ _ _ _ _ _ _ _ _ Hcall). }
    { by rewrite (member_exists_eq _ _ _ Hcm). }
    destruct (markAttendance_succeeds st2 db2 env' m s' p' l')
      as (db3' & st3' & Hcall3'); try done.
    fold db2 st2 in Hcall3'. congruence.
  - intros Hr. destruct r as [[]|e]; [done|]. by destruct Hspec3 as (-> & _).
  - intros ->. eexists. split.
    { rewrite rows_of_pair by apply Hok3. by rewrite Hlk3. }
    repeat split; reflexivity.
Qed.

Lemma markAttendance_one_record_per_pair_witness :
  att_ok Samples.db0 /\ coherent Samples.db0 Samples.st0 /\
  record_for Samples.db0 1 (selectedDate Samples.st0) = None /\
  (exists db1 st1 row,
     markAttendance Samples.st0 Samples.db0 Samples.env_ok 1 attend
       (Some Samples.inline_photo) (Some Samples.kuala_lumpur)
     = (Ok (), db1, st1) /\
     attendance db1 = attendance Samples.db0 ++ [row] /\
     ar_status row = attend /\
     exists row2,
       filter (fun r => ar_key r = (1, selectedDate Samples.st0))
         (attendance
            (fst (run (db1, st1)
                    [Mark Samples.env_ok 1 absent None None;
                     Refresh false Samples.rq_ok Samples.rq_ok;
                     Mark Samples.env_lost 1 attend None None])))
       = [row2] /\ ar_id row2 = ar_id row) /\
  record_for Samples.db1 1 (selectedDate Samples.st0) = Some Samples.row1 /\
  exists err db',
    markAttendance Samples.st0 Samples.db1 Samples.env_ok 1 absent None None
    = (Err err, db', Samples.st0) /\
    attendance db' = attendance Samples.db1.
Proof.
  split; [by_compute|]. split; [by_compute|]. split; [reflexivity|].
  split.
  - destruct (proj1 (proj2 markAttendance_one_record_per_pair)
                Samples.st0 Samples.db0 Samples.env_ok 1 attend
                (Some Samples.inline_photo) (Some Samples.kuala_lumpur)
                [Mark Samples.env_ok 1 absent None None;
                 Refresh false Samples.rq_ok Samples.rq_ok;
                 Mark Samples.env_lost 1 attend None None])
      as (db1 & st1 & row & Hcall & Hrows & _ & Hs & _ & _ & _ & _ & _ & _
          & row2 & Hone & Hid & _).
    + by_compute.
    + by_compute.
    + by_compute.
    + reflexivity.
    + reflexivity.
    + reflexivity.
    + exists db1, st1, row. split; [exact Hcall|]. split; [exact Hrows|].
      split; [exact Hs|]. exists row2. split; [exact Hone|exact Hid].
  - split; [reflexivity|].
    destruct (proj2 (proj2 markAttendance_one_record_per_pair)
                Samples.st0 Samples.db1 Samples.env_ok 1 absent None None
                Samples.row1)
      as (err & db' & Hcall & Hrows & _).
    + by_compute.
    + intros e He Hm. vm_compute in He.
      repeat (apply elem_of_cons in He as [->|He]; [vm_compute in Hm |- *; congruence|]).
      inversion He.
    + reflexivity.
    + exists err, db'. split; [exact Hcall|exact Hrows].
Defined.

(** C7. The record a call of [markAttendance] writes has a check-in time
    that is the call's "now" exactly when the status is "attend", and null
    when it is "absent"; marking a member absent, then attend, then absent
    on one date leaves exactly one row for the pair, with status "absent"
    and no check-in time. *)
Theorem check_in_time_follows_status :
  (forall st db env m s p l db' st',
     att_ok db -> coherent db st ->
     markAttendance st db env m s p l = (Ok (), db', st') ->
     exists row,
       filter (fun r => ar_key r = (m, selectedDate st)) (attendance db') = [row] /\
       ar_status row = s /\
       (s = attend -> ar_check_in_time row = Some (now_data env)) /\
       (s = absent -> ar_check_in_time row = None) /\
       (ar_check_in_time row = Some (now_data env) <-> s = attend)) /\
  (forall st db e1 e2 e3 m p1 l1 p2 l2 p3 l3,
     att_ok db -> coherent db st ->
     m ∈ map ma_member_id (members st) ->
     member_exists db m = true ->
     delivered (mark_rq e1) = true -> delivered (mark_rq e2) = true ->
     delivered (mark_rq e3) = true ->
     let s2 := run (db, st) [Mark e1 m absent p1 l1; Mark e2 m attend p2 l2] in
     let s3 := step s2 (Mark e3 m absent p3 l3) in
     exists row2 row3,
       filter (fun r => ar_key r = (m, selectedDate st)) (attendance (fst s2))
       = [row2] /\
       ar_status row2 = attend /\
       ar_check_in_time row2 = Some (now_data e2) /\
       filter (fun r => ar_key r = (m, selectedDate st)) (attendance (fst s3))
       = [row3] /\
       ar_id row3 = ar_id row2 /\
       ar_status row3 = absent /\
       ar_check_in_time row3 = None).
Proof.
  split.
  - intros st db env m s p l db' st' Hok Hco Hcall.
    destruct (markAttendance_written_row _ _ _ _ _ _ _ _ _ Hok Hco Hcall)
      as (row & _ & Hone & Hs & _ & _ & _ & _ & _ & Ht).
    exists row. split; [done|]. split; [done|].
    destruct s; rewrite Ht; repeat split; done.
  - intros st db e1 e2 e3 m p1 l1 p2 l2 p3 l3 Hok Hco Hr Hm Hd1 Hd2 Hd3.
    unfold run. simpl.
    destruct (markAttendance_succeeds st db e1 m absent p1 l1)
      as (db1 & st1 & Hc1); try done.
    rewrite Hc1. simpl.
    pose proof (markAttendance_att_ok _ _ _ _ _ _ _ _ _ _ Hok Hco Hc1) as Hok1.
    pose proof (markAttendance_coherent _ _ _ _ _ _ _ _ _ _ Hok Hco Hc1) as Hco1.
    pose proof (markAttendance_selectedDate _ _ _ _ _ _ _ _ _ _ Hc1) as Hdt1.
    pose proof (markAttendance_spec _ _ _ _ _ _ _ _ _ _ Hok Hco Hc1)
      as (_ & _ & _ & Hcm1 & _).
    destruct (markAttendance_succeeds st1 db1 e2 m attend p2 l2)
      as (db2 & st2 & Hc2); try done.
    { by rewrite (markAttendance_roster_ids _ _ _ _ _ _ _ _ _ _ Hc1). }
    { by rewrite (member_exists_eq _ _ _ Hcm1). }
    rewrite Hc2. simpl.
    pose proof (markAttendance_att_ok _ _ _ _ _ _ _ _ _ _ Hok1 Hco1 Hc2) as Hok2.
    pose proof (markAttendance_coherent _ _ _ _ _ _ _ _ _ _ Hok1 Hco1 Hc2) as Hco2.
    pose proof (markAttendance_selectedDate _ _ _ _ _ _ _ _ _ _ Hc2) as Hdt2.
    pose proof (markAttendance_spec _ _ _ _ _ _ _ _ _ _ Hok1 Hco1 Hc2)
      as (_ & _ & _ & Hcm2 & _).
    destruct (markAttendance_succeeds st2 db2 e3 m absent p3 l3)
      as (db3 & st3 & Hc3); try done.
    { rewrite (markAttendance_roster_ids _ _ _ _ _ _ _ _ _ _ Hc2).
      by rewrite (markAttendance_roster_ids _ _ _ _ _ _ _ _ _ _ Hc1). }
    { by rewrite (member_exists_eq _ _ _ Hcm2), (member_exists_eq _ _ _ Hcm1). }
    rewrite Hc3. simpl.
    destruct (markAttendance_written_row _ _ _ _ _ _ _ _ _ Hok1 Hco1 Hc2)
      as (row2 & Hrec2 & Hone2 & Hs2 & _ & _ & _ & _ & _ & Ht2).
    destruct (markAttendance_written_row _ _ _ _ _ _ _ _ _ Hok2 Hco2 Hc3)
      as (row3 & Hrec3 & Hone3 & Hs3 & _ & _ & _ & _ & _ & Ht3).
    rewrite Hdt1 in Hone2, Hrec2. rewrite Hdt2, Hdt1 in Hone3, Hrec3.
    exists row2, row3. repeat split; try done.
    pose proof (markAttendance_lookup _ _ _ _ _ _ _ _ _ _ Hok2 Hco2 Hc3
                  m (selectedDate st)) as Hlk.
    simpl in Hlk. rewrite Hdt2, Hdt1, decide_True, Hrec2, Hrec3 in Hlk by done.
    by injection Hlk as ->.
Qed.

Lemma check_in_time_follows_status_witness :
  att_ok Samples.db0 /\ coherent Samples.db0 Samples.st0 /\
  exists row2 row3,
    filter (fun r => ar_key r = (2, Samples.today))
      (attendance
         (fst (run (Samples.db0, Samples.st0)
                 [Mark Samples.env_ok 2 absent None None;
                  Mark Samples.env_ok 2 attend (Some Samples.inline_photo)
                       (Some Samples.kuala_lumpur)])))
    = [row2] /\
    ar_check_in_time row2 = Some (now_data Samples.env_ok) /\
    filter (fun r => ar_key r = (2, Samples.today))
      (attendance
         (fst (step (run (Samples.db0, Samples.st0)
                       [Mark Samples.env_ok 2 absent None None;
                        Mark Samples.env_ok 2 attend (Some Samples.inline_photo)
                             (Some Samples.kuala_lumpur)])
                    (Mark Samples.env_upload_fails 2 absent None None))))
    = [row3] /\
    ar_status row3 = absent /\ ar_check_in_time row3 = None.
Proof.
  split; [by_compute|]. split; [by_compute|].
  destruct (proj2 check_in_time_follows_status
              Samples.st0 Samples.db0 Samples.env_ok Samples.env_ok
              Samples.env_upload_fails 2
              None None (Some Samples.inline_photo) (Some Samples.kuala_lumpur)
              None None)
    as (row2 & row3 & H2 & _ & Ht2 & H3 & _ & Hs3 & Ht3).
  - by_compute.
  - by_compute.
  - by_compute.
  - reflexivity.
  - reflexivity.
  - reflexivity.
  - reflexivity.
  - exists row2, row3. repeat split; assumption.
Defined.

(** C10, as stated, fails: a mark of a pair that has a record, with an
    inline photo whose upload fails, is accepted and leaves the record
    without a photo although one was supplied; a mark that supplies the
    latitude 0 leaves the record without a latitude; and a mark that
    supplies the latitude 3.1390031234567 leaves the record with the
    latitude 3.13900312. *)
Lemma update_does_not_carry_what_was_supplied :
  let '(_, db1, st1) :=
    markAttendance Samples.st0 Samples.db0 Samples.env_ok 1 attend
      (Some Samples.photo_url) (Some Samples.kuala_lumpur) in
  (let '(r, db2, _) :=
     markAttendance st1 db1 Samples.env_upload_fails 1 attend
       (Some Samples.inline_photo) (Some Samples.kuala_lumpur) in
   r = Ok () /\
   exists row,
     filter (fun r => ar_key r = (1, Samples.today)) (attendance db2) = [row] /\
     ar_photo_url row = None /\
     ~ carries_supplied (Some Samples.inline_photo)
         (Some Samples.kuala_lumpur) row) /\
  (let '(r, db2, _) :=
     markAttendance st1 db1 Samples.env_ok 1 attend
       (Some Samples.photo_url) (Some Samples.on_equator) in
   r = Ok () /\
   exists row,
     filter (fun r => ar_key r = (1, Samples.today)) (attendance db2) = [row] /\
     ar_latitude row = None /\
     ~ carries_supplied (Some Samples.photo_url)
         (Some Samples.on_equator) row) /\
  (let '(r, db2, _) :=
     markAttendance st1 db1 Samples.env_ok 1 attend
       (Some Samples.photo_url) (Some Samples.bukit_bintang) in
   r = Ok () /\
   exists row,
     filter (fun r => ar_key r = (1, Samples.today)) (attendance db2) = [row] /\
     ar_latitude row = Some (decimal 313900312 (-8)) /\
     ~ carries_supplied (Some Samples.photo_url)
         (Some Samples.bukit_bintang) row).
Proof.
  vm_compute. repeat split; eexists;
    (split; [reflexivity|]); (split; [reflexivity|]).
  - intros [H _]. discriminate H.
  - intros (_ & H & _). discriminate H.
  - intros (_ & H & _). discriminate H.
Qed.

(** C10, amended. A call of [markAttendance] for a pair that has a record,
    made from a coherent roster and accepted by the store, rewrites that
    row (same key, no row added) from the call alone: the photo is the
    supplied URL, or for an inline image whatever the upload returned
    (null when it failed); latitude, longitude and accuracy are the
    supplied numbers, when these are truthy, as their columns keep them:
    rounded to eight, eight and two decimals; the address is the supplied
    non-empty text; every field that is not supplied is null; the check-in
    time is the call's "now" for "attend" and null for "absent". Hence
    an "absent" mark without photo and location erases photo, location
    and check-in time. *)
Theorem markAttendance_update_overwrites st db env m s p l old db' st' :
  att_ok db -> coherent db st ->
  record_for db m (selectedDate st) = Some old ->
  markAttendance st db env m s p l = (Ok (), db', st') ->
  exists row,
    filter (fun r => ar_key r = (m, selectedDate st)) (attendance db') = [row] /\
    ar_id row = ar_id old /\
    length (attendance db') = length (attendance db) /\
    ar_status row = s /\
    (p = None -> ar_photo_url row = None) /\
    (forall url, p = Some url -> url <> ""%string ->
       isBase64Image url = false -> ar_photo_url row = Some url) /\
    (forall img, p = Some img -> isBase64Image img = true ->
       ar_photo_url row = uploaded env) /\
    (l = None ->
       ar_latitude row = None /\ ar_longitude row = None /\
       ar_accuracy row = None /\ ar_address row = None) /\
    (forall loc, l = Some loc ->
       (truthy (loc_latitude loc) = true ->
          ar_latitude row = numeric_round 8 (loc_latitude loc)) /\
       (truthy (loc_longitude loc) = true ->
          ar_longitude row = numeric_round 8 (loc_longitude loc)) /\
       (truthy (loc_accuracy loc) = true ->
          ar_accuracy row = numeric_round 2 (loc_accuracy loc)) /\
       (loc_address loc = None -> ar_address row = None) /\
       (forall a, loc_address loc = Some a -> a <> ""%string ->
          ar_address row = Some a)) /\
    (s = attend -> ar_check_in_time row = Some (now_data env)) /\
    (s = absent -> ar_check_in_time row = None) /\
    (s = absent -> p = None -> l = None ->
       ar_photo_url row = None /\ ar_latitude row = None /\
       ar_longitude row = None /\ ar_accuracy row = None /\
       ar_address row = None /\ ar_check_in_time row = None).
Proof.
  intros Hok Hco Hold Hcall.
  destruct (markAttendance_written_row _ _ _ _ _ _ _ _ _ Hok Hco Hcall)
    as (row & Hrec & Hone & Hs & Hp & Hla & Hlo & Hac & Had & Ht).
  pose proof (markAttendance_lookup _ _ _ _ _ _ _ _ _ _ Hok Hco Hcall
                m (selectedDate st)) as Hlk.
  simpl in Hlk. rewrite decide_True, Hold, Hrec in Hlk by done.
  injection Hlk as Hrow.
  pose proof (markAttendance_spec _ _ _ _ _ _ _ _ _ _ Hok Hco Hcall)
    as (_ & _ & _ & _ & _ & _ & Hspec).
  rewrite Hold in Hspec. destruct Hspec as (Hrows & _).
  exists row. split; [done|]. split; [by rewrite Hrow|].
  split; [by rewrite Hrows, length_map|]. split; [done|].
  rewrite Hp, Hla, Hlo, Hac, Had, Ht. unfold finalPhotoUrl, or_null.
  split; [by intros ->|].
  split.
  { intros url -> Hne Hb. destruct url; [done|]. simpl. by rewrite Hb. }
  split.
  { intros img -> Hb. destruct img; [done|]. simpl. by rewrite Hb. }
  split; [by intros ->|].
  split.
  { intros loc ->. simpl. repeat split.
    - by intros ->.
    - by intros ->.
    - by intros ->.
    - by intros ->.
    - intros a -> Hne. by destruct a. }
  split; [by intros ->|]. split; [by intros ->|].
  by intros -> -> ->.
Qed.

Lemma markAttendance_update_overwrites_witness :
  att_ok Samples.db1 /\ coherent Samples.db1 Samples.st1 /\
  markAttendance Samples.st1 Samples.db1 Samples.env_ok 1 absent None None
  = (Ok (), Samples.db2, Samples.st2) /\
  (exists row,
     filter (fun r => ar_key r = (1, selectedDate Samples.st1))
            (attendance Samples.db2) = [row] /\
     ar_status row = absent /\
     ar_photo_url row = None /\ ar_latitude row = None /\
     ar_longitude row = None /\ ar_accuracy row = None /\
     ar_address row = None /\ ar_check_in_time row = None) /\
  exists db' st' row,
    markAttendance Samples.st1 Samples.db1 Samples.env_ok 1 attend
      (Some Samples.photo_url) (Some Samples.bukit_bintang)
    = (Ok (), db', st') /\
    filter (fun r => ar_key r = (1, selectedDate Samples.st1)) (attendance db')
    = [row] /\
    ar_latitude row = Some (decimal 313900312 (-8)) /\
    ar_longitude row = Some (decimal 10168685512 (-8)) /\
    ar_accuracy row = Some (of_Z 12).
Proof.
  split; [by_compute|]. split; [by_compute|]. split; [reflexivity|].
  split.
  - edestruct (markAttendance_update_overwrites
                 Samples.st1 Samples.db1 Samples.env_ok 1 absent None None
                 Samples.row1 Samples.db2 Samples.st2)
      as (row & Hone & _ & _ & Hs & _ & _ & _ & _ & _ & _ & _ & Herase).
    + by_compute.
    + by_compute.
    + reflexivity.
    + reflexivity.
    + exists row. split; [exact Hone|]. split; [exact Hs|]. by apply Herase.
  - destruct (markAttendance Samples.st1 Samples.db1 Samples.env_ok 1 attend
                (Some Samples.photo_url) (Some Samples.bukit_bintang))
      as [[r db'] st'] eqn:Hcall.
    assert (r = Ok ()) as ->
      by (apply (f_equal (fun x => fst (fst x))) in Hcall; vm_compute in Hcall;
          congruence).
    edestruct (markAttendance_update_overwrites
                 Samples.st1 Samples.db1 Samples.env_ok 1 attend
                 (Some Samples.photo_url) (Some Samples.bukit_bintang)
                 Samples.row1 db' st')
      as (row & Hone & _ & _ & _ & _ & _ & _ & _ & Hloc & _).
    + by_compute.
    + by_compute.
    + reflexivity.
    + exact Hcall.
    + destruct (Hloc _ eq_refl) as (Hla & Hlo & Hac & _).
      exists db', st', row. split; [reflexivity|]. split; [exact Hone|].
      rewrite Hla, Hlo, Hac by reflexivity.
      repeat split; vm_compute; reflexivity.
Defined.

(** The write path treats a supplied 0 (or an empty text) as not supplied:
    the same [x || null] that the read path applies. *)
Lemma zero_is_written_as_null st env m s p loc :
  truthy (loc_latitude loc) = false ->
  ad_latitude (attendanceData st env m s p (Some loc)) = None.
Proof. intros H. simpl. unfold or_null. simpl. by rewrite H. Qed.

(** A latitude below half a unit of the eighth decimal is truthy, is
    written, and is kept as 0 by its column: the next read of the record
    gives the falsy 0. *)
Lemma tiny_latitude_is_kept_as_zero :
  truthy (decimal 4 (-9)) = true /\
  latitude_column (or_null (Some (decimal 4 (-9)))) = Some (of_Z 0).
Proof. vm_compute. done. Qed.

(** ** The marker of a record *)

(** The page hands the user to [markAttendance], which has no parameter
    for it: the outcome is the same whoever is logged in. *)
Lemma confirmAttendance_ignores_user st db env u1 u2 sel photo loc :
  AttendancePage.confirmAttendance st db env u1 sel photo loc
  = AttendancePage.confirmAttendance st db env u2 sel photo loc.
Proof. reflexivity. Qed.

(** Every record [markAttendance] inserts has a null [marked_by]. *)
Lemma inserted_record_has_no_marker st db env m s p l db' st' :
  att_ok db -> coherent db st ->
  record_for db m (selectedDate st) = None ->
  markAttendance st db env m s p l = (Ok (), db', st') ->
  exists row,
    attendance db' = attendance db ++ [row] /\
    ar_key row = (m, selectedDate st) /\
    ar_status row = s /\
    ar_marked_by row = None.
Proof.
  intros Hok Hco Hnone Hcall.
  pose proof (markAttendance_spec _ _ _ _ _ _ _ _ _ _ Hok Hco Hcall)
    as (_ & _ & _ & _ & _ & _ & Hspec).
  rewrite Hnone in Hspec. destruct Hspec as (-> & _). eauto.
Qed.

(** C8, at a concrete input: the administrator (user 1) confirms the
    attendance of member 1, who has no record for the day. A record is
    inserted with the given status, date and timestamps; its [marked_by]
    is null, not the administrator. *)
Theorem confirmAttendance_drops_marker :
  let '(db', _) :=
    AttendancePage.confirmAttendance Samples.st0 Samples.db0 Samples.env_ok
      (Some Samples.admin_user) (head (members Samples.st0))
      (Some Samples.inline_photo) (Some Samples.kuala_lumpur) in
  Auth.id Samples.admin_user = 1 /\
  1 ∈ map u_id (users db') /\
  exists row,
    attendance db' = [row] /\
    ar_key row = (1, Samples.today) /\
    ar_status row = attend /\
    ar_check_in_time row = Some (now_data Samples.env_ok) /\
    ar_marked_by row = None /\
    ar_marked_by row <> Some (Auth.id Samples.admin_user).
Proof.
  vm_compute. split; [reflexivity|]. split; [left|].
  eexists. repeat split. discriminate.
Qed.

(** ** The roster a fetch returns *)

Lemma combine_without_record d amap c :
  amap !! cm_id c = None -> synthesized_absent (combine d amap c).
Proof. intros H. unfold combine, synthesized_absent. rewrite H. done. Qed.

Lemma combine_with_record d amap c r :
  amap !! cm_id c = Some r -> no_falsy_field r ->
  paired_with (combine d amap c) r.
Proof.
  intros H (?&?&?&?&?&?&?). unfold combine, paired_with. rewrite H. simpl.
  repeat split; done.
Qed.

(** One entry per committee member, in the order of the member keys: the
    member's own columns, the date asked for, and either the record of the
    pair read through [x || null], or the synthesized absence. *)
Lemma fetchMembers_one_entry_per_member st db date showLoading rq1 rq2 :
  delivered rq1 = true -> delivered rq2 = true ->
  NoDup (map ar_key (attendance db)) ->
  let d := default (selectedDate st) (or_null date) in
  let st' := fetchMembers st db date showLoading rq1 rq2 in
  map ma_member_id (members st') ≡ₚ map cm_id (committee_members db) /\
  length (members st') = length (committee_members db) /\
  Forall2 (fun c e =>
             ma_member_id e = cm_id c /\ ma_name e = cm_name c /\
             ma_department e = cm_department c /\ ma_attendance_date e = d /\
             match record_for db (cm_id c) d with
             | None => synthesized_absent e
             | Some r =>
                 ma_status e = ar_status r /\
                 (no_falsy_field r -> paired_with e r)
             end)
          (merge_sort cm_le (committee_members db)) (members st').
Proof.
  intros H1 H2 Hnd d st'. unfold st'.
  rewrite fetchMembers_delivered by done. fold d.
  split; [|split].
  - rewrite map_map. simpl. by rewrite merge_sort_Permutation.
  - by rewrite length_map, merge_sort_Permutation.
  - apply Forall2_fmap_r, Forall_Forall2_diag, Forall_forall.
    intros c _. repeat split.
    pose proof (attendanceMap_record db d (cm_id c) Hnd) as Hrec.
    destruct (record_for db (cm_id c) d) as [r|].
    + split; [by unfold combine; rewrite Hrec|].
      by apply combine_with_record.
    + by apply combine_without_record.
Qed.

(** C2, at a concrete input: the store holds one record for member 1
    today, taken on the equator (latitude 0). The fetched roster has one
    entry per member, and the entry of member 1 shows the record's status
    and key, but a null latitude: it is not paired with the record's
    fields. *)
Theorem fetchMembers_drops_zero_latitude :
  let st :=
    fetchMembers (mkState [] Samples.today true None) Samples.db_equator
                 None true Samples.rq_ok Samples.rq_ok in
  att_ok Samples.db_equator /\
  map ma_member_id (members st) = map cm_id (committee_members Samples.db_equator) /\
  exists e r,
    head (members st) = Some e /\
    record_for Samples.db_equator 1 Samples.today = Some r /\
    ma_member_id e = 1 /\
    ma_attendance_id e = Some (ar_id r) /\
    ma_status e = ar_status r /\
    ar_latitude r = Some (of_Z 0) /\
    ma_latitude e = None /\
    ~ paired_with e r.
Proof.
  split; [by_compute|]. split; [reflexivity|].
  eexists _, _. split; [reflexivity|]. split; [reflexivity|].
  repeat split. intros (_ & _ & _ & H & _). vm_compute in H. discriminate H.
Qed.

(** ** Statistics *)

Lemma stats_counts ms :
  stats_total (stats ms) = length ms /\
  stats_attend (stats ms) = length (filter (fun m => ma_status m = attend) ms) /\
  stats_absent (stats ms) = (stats_total (stats ms) - stats_attend (stats ms))%nat /\
  (stats_attend (stats ms) <= stats_total (stats ms))%nat.
Proof.
  unfold stats. simpl. repeat split; [|apply length_filter].
  induction ms as [|m ms IH]; [done|].
  rewrite !filter_cons. simpl.
  pose proof (length_filter (fun m => ma_status m = attend) ms).
  destruct (ma_status m); repeat case_decide; simpl; try done; lia.
Qed.

Lemma attendanceRate_no_member s :
  stats_total s = 0%nat -> attendanceRate s = of_Z 0.
Proof. intros H. unfold attendanceRate. by rewrite H. Qed.

(** Twelve members, nine of them marked "attend": 12, 9, 3 and 75. *)
Lemma stats_12_members_9_attend ms :
  length ms = 12%nat ->
  length (filter (fun m => ma_status m = attend) ms) = 9%nat ->
  stats ms = mkStats 12 9 3 /\
  attendanceRate (stats ms) = of_Z 75 /\
  spec_rate 9 12 = 75.
Proof.
  intros Hl Ha. destruct (stats_counts ms) as (Ht & Hat & Hab & _).
  assert (stats ms = mkStats 12 9 3) as ->.
  { destruct (stats ms) as [t a b]. simpl in *. f_equal; lia. }
  split; [done|]. split; by vm_compute.
Qed.

(** C6, at a concrete input: forty members, twenty-three of them marked
    "attend". The counts are 40, 23 and 17; attend / total is the double
    nearest to 0.575, its product with 100 is the double
    57.49999999999999289..., and the rate shown is 57, where
    23/40 x 100 = 57.5 rounds to 58. *)
Theorem attendanceRate_of_23_in_40 :
  stats Samples.roster_23_of_40 = mkStats 40 23 17 /\
  mul (div (of_nat 23) (of_nat 40)) (of_Z 100)
  = S754_finite false 8092405580431359 (-47) /\
  attendanceRate (stats Samples.roster_23_of_40) = of_Z 57 /\
  spec_rate 23 40 = 58 /\
  of_Z 57 <> of_Z 58.
Proof. vm_compute. repeat split. discriminate. Qed.

End AttendanceFacts.

(* ===================================================================== *)
(** * Properties of the session token *)
(* ===================================================================== *)

Module AuthFacts.

Import Auth StoreFacts.

(** ** Radix 36 *)

Lemma digit36_code d :
  (d < 36)%N ->
  N_of_ascii (digit36 d) = if (d <? 10)%N then (48 + d)%N else (87 + d)%N.
Proof.
  intros Hd. unfold digit36.
  destruct (N.ltb_spec d 10); apply N_ascii_embedding; lia.
Qed.

Lemma digit36_value_digit36 d : (d < 36)%N -> digit36_value (digit36 d) = d.
Proof.
  intros Hd. unfold digit36_value. rewrite digit36_code by done.
  destruct (N.ltb_spec d 10).
  - destruct (N.ltb_spec (48 + d) 58); lia.
  - destruct (N.ltb_spec (87 + d) 58); lia.
Qed.

Lemma digit36_not_dash d : (d < 36)%N -> digit36 d <> "-"%char.
Proof.
  intros Hd Heq. pose proof (digit36_code d Hd) as Hc. rewrite Heq in Hc.
  simpl in Hc. destruct (N.ltb_spec d 10); lia.
Qed.

(** The digits are digits, and they denote the number. *)
Lemma digits36_eval fuel n :
  (n < 2 ^ N.of_nat fuel)%N ->
  Forall (fun d => (d < 36)%N) (digits36 fuel n) /\
  fold_right (fun d acc => (36 * acc + d)%N) 0%N (digits36 fuel n) = n.
Proof.
  revert n. induction fuel as [|fuel IH]; intros n Hn.
  - simpl in *. split; [constructor|]. lia.
  - simpl digits36. destruct (N.ltb_spec n 36) as [Hlt|Hge].
    + split; [by repeat constructor|]. simpl. lia.
    + assert (n / 36 < 2 ^ N.of_nat fuel)%N as Hdiv.
      { rewrite Nat2N.inj_succ, N.pow_succ_r' in Hn.
        apply N.Div0.div_lt_upper_bound. lia. }
      destruct (IH _ Hdiv) as [Hall Heval]. split.
      * constructor; [|done]. apply N.mod_lt. lia.
      * simpl. rewrite Heval. rewrite (N.div_mod n 36) at 3 by lia. lia.
Qed.

Lemma toString36_digits n :
  exists ds, Forall (fun d => (d < 36)%N) ds /\
             list_ascii_of_string (toString36 n) = map digit36 (rev ds) /\
             fold_right (fun d acc => (36 * acc + d)%N) 0%N ds = n.
Proof.
  exists (digits36 (S (N.to_nat (N.size n))) n).
  destruct (digits36_eval (S (N.to_nat (N.size n))) n) as [Hall Heval].
  { rewrite Nat2N.inj_succ, N2Nat.id, N.pow_succ_r'.
    pose proof (N.size_gt n). lia. }
  split; [done|]. split; [|done].
  unfold toString36. apply list_ascii_of_string_of_list_ascii.
Qed.

(** [parseInt(n.toString(36), 36) = n]: the rendering loses nothing. *)
Lemma parseInt36_toString36 n : parseInt36 (toString36 n) = n.
Proof.
  destruct (toString36_digits n) as (ds & Hall & Hchars & Heval).
  unfold parseInt36. rewrite Hchars, <- Heval.
  rewrite <- (rev_involutive ds) at 2. rewrite fold_left_rev_right.
  apply Forall_rev in Hall. revert Hall.
  generalize (rev ds) as l. generalize 0%N as acc.
  intros acc l. revert acc.
  induction l as [|d l IH]; intros acc Hall; [done|].
  apply Forall_cons in Hall as [Hd Hall]. simpl.
  rewrite digit36_value_digit36 by done. by apply IH.
Qed.

Lemma toString36_inj n1 n2 : toString36 n1 = toString36 n2 -> n1 = n2.
Proof.
  intros H. rewrite <- (parseInt36_toString36 n1), H.
  apply parseInt36_toString36.
Qed.

Lemma append_cons c s t : String c s +:+ t = String c (s +:+ t).
Proof. reflexivity. Qed.

Lemma token_timestamp_append l rest :
  Forall (fun c => c <> "-"%char) l ->
  token_timestamp (string_of_list_ascii l +:+ "-" +:+ rest)
  = string_of_list_ascii l.
Proof.
  induction l as [|c l IH]; intros Hall.
  - reflexivity.
  - apply Forall_cons in Hall as [Hc Hall]. simpl string_of_list_ascii.
    rewrite append_cons. simpl. rewrite decide_False by done.
    by rewrite IH.
Qed.

(** The timestamp part of a generated token is the clock reading. *)
Lemma token_timestamp_generate now r1 r2 :
  token_timestamp (generateSessionToken now r1 r2) = toString36 now.
Proof.
  unfold generateSessionToken.
  destruct (toString36_digits now) as (ds & Hall & Hchars & _).
  rewrite <- (string_of_list_ascii_of_string (toString36 now)), Hchars.
  apply token_timestamp_append.
  apply Forall_fmap, Forall_rev. eapply Forall_impl; [exact Hall|].
  intros d Hd. by apply digit36_not_dash.
Qed.

(** Tokens generated at different readings of the clock differ, whatever
    the random parts are. *)
Lemma generateSessionToken_fresh now1 now2 r1 r2 r1' r2' :
  now1 <> now2 ->
  generateSessionToken now1 r1 r2 <> generateSessionToken now2 r1' r2'.
Proof.
  intros Hne Heq. apply Hne, toString36_inj.
  by rewrite <- (token_timestamp_generate now1 r1 r2), Heq,
             token_timestamp_generate.
Qed.

(** ** Validation and login *)

(** [validateSession] answers true exactly when its request arrives and
    the one row of the user is active and holds the supplied token. *)
Lemma validateSession_true rq db uid t :
  validateSession rq db uid t = true <->
  delivered rq = true /\
  exists u, filter (fun u => u_id u = uid) (users db) = [u] /\
            u_status u = active /\ u_session_token u = Some t.
Proof.
  unfold validateSession, select_user_session, single. split.
  - destruct (delivered rq); [|done].
    destruct (filter _ (users db)) as [|u [|u' rest]] eqn:Hf; try done.
    repeat case_bool_decide; try done. intros _. split; [done|].
    exists u. split; [done|]. split.
    + by destruct (decide (u_status u = active)).
    + by destruct (decide (u_session_token u = Some t)).
  - intros (-> & u & -> & Hs & Ht). rewrite Hs, Ht.
    rewrite !bool_decide_eq_false_2; [done|intros H; by apply H..].
Qed.

(** What a successful login did. *)
Lemma login_true st db env username password db' st' :
  login st db env username password = (true, db', st') ->
  let token := generateSessionToken (Date_now env) (Math_random1 env)
                                    (Math_random2 env) in
  exists data,
    filter (fun u => u_username u = username /\ u_status u = active) (users db)
    = [data] /\
    bcrypt_compare env password (u_password data) = true /\
    users db'
    = map (fun u =>
             if decide (u_id u = u_id data) then
               mkUserRow (u_id u) (u_username u) (u_password u) (u_name u)
                 (u_department u) (u_role u) (u_status u)
                 (Some token) (Some (toISOString env)) (u_created_at u)
                 (NOW (rq_update env))
             else u)
          (users db) /\
    id <$> user st' = Some (u_id data) /\
    (user st' ≫= sessionToken) = Some token.
Proof.
  unfold login, select_active_user, update_user_session, single.
  intros H.
  destruct (delivered (rq_select env)); [|by simplify_eq].
  destruct (filter _ (users db)) as [|data [|u' rest]] eqn:Hf;
    try by simplify_eq.
  destruct (bcrypt_compare env password (u_password data)) eqn:Hpw;
    simpl in H; [|by simplify_eq].
  destruct (delivered (rq_update env)); [|by simplify_eq].
  simplify_eq. exists data. repeat split; done.
Qed.

(** C3. After a successful login of a user, [validateSession] answers
    false for every token other than the newly generated one: in
    particular for every token that was generated at an earlier reading of
    the clock, which is never the new one; the new token itself validates
    (user keys being unique) as long as the request arrives.
    [validateSession] answers true only when the user's row is active and
    its stored token equals the supplied one. *)
Theorem login_invalidates_previous_tokens :
  (forall st db env username password db' st' uid,
     login st db env username password = (true, db', st') ->
     id <$> user st' = Some uid ->
     let token := generateSessionToken (Date_now env) (Math_random1 env)
                                       (Math_random2 env) in
     (forall rq t_old, t_old <> token ->
        validateSession rq db' uid t_old = false) /\
     (forall rq issued r1 r2, (issued < Date_now env)%N ->
        validateSession rq db' uid (generateSessionToken issued r1 r2) = false) /\
     (forall rq, NoDup (map u_id (users db)) -> delivered rq = true ->
        validateSession rq db' uid token = true)) /\
  (forall rq db uid t,
     validateSession rq db uid t = true ->
     exists u, u ∈ users db /\ u_id u = uid /\
               u_status u = active /\ u_session_token u = Some t).
Proof.
  split.
  - intros st db env username password db' st' uid Hlogin Huid token.
    apply login_true in Hlogin as (data & Hsel & _ & Hrows & Hid & _).
    fold token in Hrows. rewrite Hid in Huid. injection Huid as <-.
    assert (forall rq t_old, t_old <> token ->
              validateSession rq db' (u_id data) t_old = false) as Hold.
    { intros rq t_old Hne.
      destruct (validateSession rq db' (u_id data) t_old) eqn:Hv; [|done].
      apply validateSession_true in Hv as (_ & u & Hf & _ & Ht).
      assert (u ∈ filter (fun u => u_id u = u_id data) (users db')) as Hin
        by (rewrite Hf; left).
      apply list_elem_of_filter in Hin as [Hu Hin]. rewrite Hrows in Hin.
      apply list_elem_of_fmap in Hin as (u0 & -> & _).
      destruct (decide (u_id u0 = u_id data)); simpl in *; congruence. }
    split; [exact Hold|]. split.
    + intros rq issued r1 r2 Hlt. apply Hold.
      apply generateSessionToken_fresh. lia.
    + intros rq Hnd Hd. apply validateSession_true. split; [done|].
      assert (data ∈ users db /\ u_status data = active) as [Hin Hact].
      { assert (data ∈ filter (fun u => u_username u = username
                                         /\ u_status u = active) (users db))
          as Hin by (rewrite Hsel; left).
        apply list_elem_of_filter in Hin as [[_ ?] ?]. done. }
      exists (mkUserRow (u_id data) (u_username data) (u_password data)
                (u_name data) (u_department data) (u_role data)
                (u_status data) (Some token) (Some (toISOString env))
                (u_created_at data) (NOW (rq_update env))).
      split; [|by split].
      * rewrite Hrows. clear Hrows Hsel.
        induction (users db) as [|a us IH]; [inversion Hin|].
        simpl in Hnd. apply NoDup_cons in Hnd as [Ha Hnd]. simpl.
        apply elem_of_cons in Hin as [<-|Hin].
        -- rewrite decide_True by done. rewrite filter_cons_True by done.
           f_equal. apply AttendanceFacts.filter_none.
           intros x Hx Hxid. apply Ha.
           apply list_elem_of_fmap in Hx as (y & -> & Hy).
           apply list_elem_of_fmap. exists y. split; [|done].
           by destruct (decide (u_id y = u_id data)).
        -- destruct (decide (u_id a = u_id data)) as [Heq|Hne].
           ++ exfalso. apply Ha. rewrite Heq. apply list_elem_of_fmap. eauto.
           ++ rewrite filter_cons_False by done. by apply IH.
  - intros rq db uid t Hv.
    apply validateSession_true in Hv as (_ & u & Hf & Hs & Ht).
    assert (u ∈ filter (fun u => u_id u = uid) (users db)) as Hin
      by (rewrite Hf; left).
    apply list_elem_of_filter in Hin as [Hu Hin]. eauto.
Qed.

Lemma login_invalidates_previous_tokens_witness :
  let '(ok, db', st') :=
    login Samples.logged_out Samples.db0 Samples.login_env "admin" "admin123" in
  ok = true /\
  id <$> user st' = Some 1 /\
  validateSession Samples.rq_ok db' 1 Samples.earlier_token = false /\
  validateSession Samples.rq_ok db' 1 "m5q0w1xq-stale-token" = false /\
  validateSession Samples.rq_ok db' 1
    (generateSessionToken 1736470800000 "0.k3j2h1g0f9e8d7c" "0.z9y8x7w6v5u4t3s")
  = true.
Proof.
  destruct (login Samples.logged_out Samples.db0 Samples.login_env
                  "admin" "admin123") as [[ok db'] st'] eqn:Hlogin.
  assert (ok = true) as -> by (vm_compute in Hlogin; congruence).
  assert (id <$> user st' = Some 1) as Huid
    by (vm_compute in Hlogin; by simplify_eq).
  destruct (proj1 login_invalidates_previous_tokens _ _ _ _ _ _ _ 1
              Hlogin Huid) as (Hold & Hearlier & Hnew).
  split; [done|]. split; [done|]. split; [|split].
  - apply Hearlier. reflexivity.
  - apply Hold. vm_compute. discriminate.
  - apply Hnew; [by_compute|reflexivity].
Defined.

End AuthFacts.

(* ===================================================================== *)
(** * Properties of the team allocator *)
(* ===================================================================== *)

Module TeamsFacts.

Import Teams StoreFacts.

Lemma insert_group_inv rq db name r db' :
  insert_group rq db name = (r, db') ->
  users db' = users db /\ participants db' = participants db /\
  participants_seq db' = participants_seq db /\
  committee_members db' = committee_members db /\
  attendance db' = attendance db /\
  match r with
  | Ok g =>
      delivered rq = true /\
      g = mkGroup (groups_seq db) name (NOW rq) /\
      groups db' = groups db ++ [g] /\
      groups_seq db' = groups_seq db + 1
  | Err _ => groups db' = groups db
  end.
Proof.
  unfold insert_group. intros H.
  destruct (delivered rq); [|simplify_eq; repeat split; auto].
  case_bool_decide; simplify_eq/=; repeat split; auto.
Qed.

Lemma insert_participant_inv rq db name gid uid r db' :
  insert_participant rq db name gid uid = (r, db') ->
  users db' = users db /\ groups db' = groups db /\
  groups_seq db' = groups_seq db /\
  committee_members db' = committee_members db /\
  attendance db' = attendance db /\
  match r with
  | Ok row =>
      delivered rq = true /\
      row = mkParticipantRow (participants_seq db) name gid (NOW rq) (NOW rq) uid /\
      participants db' = participants db ++ [row] /\
      participants_seq db' = participants_seq db + 1 /\
      group_exists db gid = true /\ user_exists db uid = true
  | Err _ => participants db' = participants db
  end.
Proof.
  unfold insert_participant. intros H.
  destruct (delivered rq); [|simplify_eq; repeat split; auto].
  case_bool_decide; [simplify_eq/=; repeat split; auto|].
  destruct (group_exists db gid), (user_exists db uid);
    simplify_eq/=; repeat split; auto.
Qed.

(** What one submission of the form does to the store and to the page. *)
Lemma handleAddParticipant_spec st db user env o db' st' :
  handleAddParticipant st db user env = (o, db', st') ->
  let name := trim (newParticipantName st) in
  let availableTeams :=
    filter (fun team => (length (t_members team) < MAX_MEMBERS_PER_TEAM)%nat)
           (teams st) in
  users db' = users db /\ committee_members db' = committee_members db /\
  attendance db' = attendance db /\
  match o with
  | Skipped => db' = db /\ st' = st
  | Registered row teamName =>
      exists gid,
        row = mkParticipantRow (participants_seq db) name (Some gid)
                (NOW (rq_participant env)) (NOW (rq_participant env))
                (or_null (Auth.id <$> user)) /\
        participants db' = participants db ++ [row] /\
        ((availableTeams <> [] /\ groups db' = groups db /\
          groups_seq db' = groups_seq db /\
          exists team,
            availableTeams !! random_index env = Some team /\
            gid = t_id team /\ teamName = t_name team /\
            teams st' = map (add_member gid (participant_of_row row)) (teams st))
         \/
         (availableTeams = [] /\
          exists g,
            g = mkGroup (groups_seq db)
                  ("Team " +:+ pretty (length (teams st) + 1)%nat)
                  (NOW (rq_group env)) /\
            groups db' = groups db ++ [g] /\
            gid = g_id g /\ teamName = g_name g /\
            teams st' = map (add_member gid (participant_of_row row))
                            (teams st ++ [mkTeam (g_id g) (g_name g) []])))
  | Failed e =>
      participants db' = participants db /\
      (availableTeams <> [] -> groups db' = groups db) /\
      (groups db' = groups db \/
       exists g,
         availableTeams = [] /\
         g = mkGroup (groups_seq db)
               ("Team " +:+ pretty (length (teams st) + 1)%nat)
               (NOW (rq_group env)) /\
         groups db' = groups db ++ [g])
  end.
Proof.
  intros H name availableTeams. unfold handleAddParticipant in H.
  fold name availableTeams in H.
  destruct (negb (truthy name) || isAddingParticipant st);
    [by simplify_eq|].
  destruct availableTeams as [|t0 rest] eqn:Hav.
  - destruct (insert_group _ db _) as [rg db1] eqn:Hg.
    apply insert_group_inv in Hg as (?&?&?&?&?&Hg).
    destruct rg as [g|e]; [|simplify_eq; repeat split; auto; congruence].
    destruct Hg as (_ & Hgdef & Hgrows & _).
    unfold insert_and_assign in H.
    destruct (insert_participant _ db1 _ _ _) as [rp db2] eqn:Hp.
    apply insert_participant_inv in Hp as (?&?&?&?&?&Hp).
    destruct rp as [row|e]; simplify_eq/=.
    + destruct Hp as (_ & -> & Hrows & _).
      repeat split; try congruence.
      eexists. split; [by f_equal|]. split; [congruence|].
      right. split; [done|]. eexists. repeat split; congruence.
    + repeat split; try congruence. right. eexists.
      repeat split; congruence.
  - destruct ((t0 :: rest) !! random_index env) as [team|] eqn:Hteam;
      [|simplify_eq; repeat split; auto].
    unfold insert_and_assign in H.
    destruct (insert_participant _ db _ _ _) as [rp db2] eqn:Hp.
    apply insert_participant_inv in Hp as (?&?&?&?&?&Hp).
    destruct rp as [row|e]; simplify_eq/=.
    + destruct Hp as (_ & -> & Hrows & _).
      repeat split; try congruence.
      eexists. split; [done|]. split; [done|].
      left. split; [done|]. split; [done|]. split; [done|]. eauto.
    + repeat split; auto.
Qed.

(** ** Existing participants *)

(** C5. A registration never alters an existing participant: the table
    of participants afterwards is the table before, row for row, followed
    by at most one new row; so every earlier participant keeps its group
    (and every other column), and on the page every team keeps its members,
    in order, followed by at most the new one. *)
Theorem registration_keeps_existing_participants st db user env :
  let '(o, db', st') := handleAddParticipant st db user env in
  (exists new, participants db' = participants db ++ new /\
               (length new <= 1)%nat) /\
  (forall i p, participants db !! i = Some p -> participants db' !! i = Some p) /\
  (forall p, p ∈ participants db ->
     exists q, q ∈ participants db' /\ q = p /\ p_group_id q = p_group_id p) /\
  (forall t, t ∈ teams st ->
     exists t' new, t' ∈ teams st' /\ t_id t' = t_id t /\ t_name t' = t_name t /\
                    t_members t' = t_members t ++ new /\ (length new <= 1)%nat).
Proof.
  destruct (handleAddParticipant st db user env) as [[o db'] st'] eqn:Hcall.
  pose proof (handleAddParticipant_spec _ _ _ _ _ _ _ Hcall)
    as (_ & _ & _ & Hspec).
  assert (exists new, participants db' = participants db ++ new /\
                      (length new <= 1)%nat) as (new & Hrows & Hlen).
  { destruct o as [|row nm|e].
    - destruct Hspec as [-> _]. exists [].
      split; [by rewrite app_nil_r|simpl; lia].
    - destruct Hspec as (gid & _ & -> & _). exists [row]. done.
    - destruct Hspec as (-> & _). exists []. split; [by rewrite app_nil_r|].
      simpl. lia. }
  split; [eauto|]. split; [|split].
  - intros i p Hp. rewrite Hrows. by apply lookup_app_l_Some.
  - intros p Hp. exists p. rewrite Hrows. split; [|done].
    apply elem_of_app. by left.
  - intros t Ht.
    assert (forall gid p ts, t ∈ ts ->
              exists t' new, t' ∈ map (add_member gid p) ts /\
                t_id t' = t_id t /\ t_name t' = t_name t /\
                t_members t' = t_members t ++ new /\ (length new <= 1)%nat)
      as Hadd.
    { intros gid p ts Hin. exists (add_member gid p t).
      unfold add_member. destruct (decide (t_id t = gid)).
      - exists [p]. repeat split; try done.
        apply list_elem_of_fmap. exists t. split; [|done].
        by rewrite decide_True.
      - exists []. rewrite app_nil_r. repeat split; try done; [|simpl; lia].
        apply list_elem_of_fmap. exists t. split; [|done].
        by rewrite decide_False. }
    assert (exists t' new, t' ∈ teams st /\ t_id t' = t_id t /\
              t_name t' = t_name t /\ t_members t' = t_members t ++ new /\
              (length new <= 1)%nat) as Hsame.
    { exists t, []. rewrite app_nil_r. repeat split; try done. simpl. lia. }
    destruct o as [|row nm|e].
    + destruct Hspec as [_ ->]. exact Hsame.
    + destruct Hspec as (gid & _ & _ & [(_ & _ & _ & team & _ & _ & _ & ->)
                                       |(_ & g & _ & _ & _ & _ & ->)]).
      * by apply Hadd.
      * apply Hadd. apply elem_of_app. by left.
    + unfold handleAddParticipant in Hcall.
      repeat (case_match; simplify_eq/=); try done.
      all: unfold insert_and_assign in *;
           repeat (case_match; simplify_eq/=); try done.
      exists t, []. rewrite app_nil_r. repeat split; try done;
        [apply elem_of_app; by left|simpl; lia].
Qed.

Lemma registration_keeps_existing_participants_witness :
  let '(o, db', st') :=
    handleAddParticipant Samples.page_full Samples.db_full
                         (Some Samples.admin_user)
                         (mkAddEnv Samples.rq_ok Samples.rq_ok 0) in
  is_registered o /\
  length (participants db') = 6%nat /\
  take 5 (participants db') = participants Samples.db_full /\
  forall p, p ∈ participants Samples.db_full ->
    exists q, q ∈ participants db' /\ q = p /\ p_group_id q = p_group_id p.
Proof.
  pose proof (registration_keeps_existing_participants
                Samples.page_full Samples.db_full (Some Samples.admin_user)
                (mkAddEnv Samples.rq_ok Samples.rq_ok 0)) as H.
  destruct (handleAddParticipant Samples.page_full Samples.db_full
              (Some Samples.admin_user) (mkAddEnv Samples.rq_ok Samples.rq_ok 0))
    as [[o db'] st'] eqn:Hcall.
  destruct H as (_ & _ & Hkeep & _).
  vm_compute in Hcall. injection Hcall as <- <- <-.
  split; [exact I|]. split; [reflexivity|]. split; [reflexivity|].
  exact Hkeep.
Defined.

(** ** The page and the store *)

Lemma in_sync_team db st t :
  in_sync db st -> t ∈ teams st ->
  exists g, g ∈ groups db /\ g_id g = t_id t /\ g_name g = t_name t /\
            group_size db (g_id g) = length (t_members t).
Proof.
  intros [Hmap Hsize] Ht.
  assert ((t_id t, t_name t) ∈ map (fun g => (g_id g, g_name g)) (groups db))
    as Hin by (rewrite <- Hmap; apply list_elem_of_fmap; eauto).
  apply list_elem_of_fmap in Hin as (g & [= Hi Hn] & Hg).
  exists g. repeat split; auto.
  rewrite Forall_forall in Hsize. rewrite <- Hi. symmetry. by apply Hsize.
Qed.

Lemma in_sync_group db st g :
  in_sync db st -> g ∈ groups db ->
  exists t, t ∈ teams st /\ t_id t = g_id g /\
            length (t_members t) = group_size db (g_id g).
Proof.
  intros [Hmap Hsize] Hg.
  assert ((g_id g, g_name g) ∈ map (fun t => (t_id t, t_name t)) (teams st))
    as Hin by (rewrite Hmap; apply list_elem_of_fmap; eauto).
  apply list_elem_of_fmap in Hin as (t & [= Hi Hn] & Ht).
  exists t. repeat split; auto.
  rewrite Forall_forall in Hsize. rewrite Hi. by apply Hsize.
Qed.

Lemma in_sync_length db st :
  in_sync db st -> length (teams st) = length (groups db).
Proof.
  intros [Hmap _]. apply Permutation_length in Hmap.
  by rewrite !length_map in Hmap.
Qed.

(** [push] adds one member to the team with the given key, and to no
    other, when the keys are distinct. *)
Lemma push_member_sizes gid p ts :
  NoDup (map t_id ts) ->
  Forall2 (fun t t' =>
             t_id t' = t_id t /\ t_name t' = t_name t /\
             length (t_members t')
             = (length (t_members t) + if decide (t_id t = gid) then 1 else 0)%nat)
          ts (push_member gid p ts).
Proof.
  induction ts as [|a ts IH]; intros Hnd; [constructor|].
  simpl in Hnd. apply NoDup_cons in Hnd as [Ha Hnd]. simpl.
  destruct (decide (t_id a = gid)) as [Heq|Hne].
  - constructor.
    + simpl. rewrite length_app. by rewrite decide_True.
    + apply Forall_Forall2_diag, Forall_forall. intros t Ht.
      rewrite decide_False; [repeat split; lia|].
      intros Htid. apply Ha. rewrite Heq, <- Htid.
      apply list_elem_of_fmap. eauto.
  - constructor; [|by apply IH].
    rewrite decide_False by done. repeat split; lia.
Qed.

(** Pushing the rows, one after the other, onto teams with distinct,
    non-zero keys: every team grows by the number of rows that name it. *)
Lemma push_rows_sizes (ps : list ParticipantRow) : forall ts,
  NoDup (map t_id ts) -> 0 ∉ map t_id ts ->
  Forall2 (fun t t' =>
             t_id t' = t_id t /\ t_name t' = t_name t /\
             length (t_members t')
             = (length (t_members t)
                + length (filter (fun p => p_group_id p = Some (t_id t)) ps))%nat)
          ts
          (foldl (fun ts r =>
                    match or_null (p_group_id r) with
                    | Some gid => push_member gid (participant_of_row r) ts
                    | None => ts
                    end) ts ps).
Proof.
  induction ps as [|p ps IH]; intros ts Hnd H0.
  { apply Forall_Forall2_diag, Forall_forall. intros t _. simpl.
    repeat split; lia. }
  simpl foldl.
  set (ts1 := match or_null (p_group_id p) with
              | Some gid => push_member gid (participant_of_row p) ts
              | None => ts
              end).
  assert (Forall2 (fun t t' =>
                     t_id t' = t_id t /\ t_name t' = t_name t /\
                     length (t_members t')
                     = (length (t_members t)
                        + if decide (p_group_id p = Some (t_id t))
                          then 1 else 0)%nat) ts ts1) as Hstep.
  { unfold ts1, or_null. destruct (p_group_id p) as [gid|] eqn:Hgid.
    - unfold truthy, truthy_Z. destruct (Z.eqb_spec gid 0) as [->|Hnz]; simpl.
      + apply Forall_Forall2_diag, Forall_forall. intros t Ht.
        rewrite decide_False; [repeat split; lia|].
        intros [= Hid]. apply H0. rewrite Hid.
        apply list_elem_of_fmap. eauto.
      + eapply Forall2_impl; [by apply push_member_sizes|].
        intros t t' (? & ? & Hlen). repeat split; try done.
        rewrite Hlen. destruct (decide (t_id t = gid)) as [->|Hne].
        * by rewrite decide_True.
        * rewrite decide_False; [done|]. by intros [= ?].
    - apply Forall_Forall2_diag, Forall_forall. intros t Ht.
      rewrite decide_False by done. repeat split; lia. }
  assert (map t_id ts1 = map t_id ts) as Hids.
  { clear -Hstep. induction Hstep as [|t t' ts ts' (? & _) _ IH]; [done|].
    simpl. by f_equal. }
  eapply Forall2_trans; [|exact Hstep|apply IH; by rewrite Hids].
  intros t t1 t2 (Hi1 & Hn1 & Hl1) (Hi2 & Hn2 & Hl2).
  split; [congruence|]. split; [congruence|].
  rewrite Hl2, Hl1, Hi1, filter_cons.
  destruct (decide (p_group_id p = Some (t_id t))); simpl; lia.
Qed.

(** After a fetch whose reads are delivered the page is in sync with the
    store, the group keys being distinct and not 0. *)
Lemma fetchTeamsAndParticipants_in_sync st db showLoading rq1 rq2 :
  NoDup (map g_id (groups db)) -> 0 ∉ map g_id (groups db) ->
  delivered rq1 = true -> delivered rq2 = true ->
  in_sync db (fetchTeamsAndParticipants st db showLoading rq1 rq2).
Proof.
  intros Hnd H0 H1 H2.
  unfold fetchTeamsAndParticipants, select_groups, select_participants.
  rewrite H1, H2. unfold in_sync. cbn [teams]. unfold teamsMap.
  set (gs := merge_sort g_le (groups db)).
  set (ps := merge_sort p_le (participants db)).
  assert (gs ≡ₚ groups db) as Hgs by apply merge_sort_Permutation.
  assert (ps ≡ₚ participants db) as Hps by apply merge_sort_Permutation.
  pose proof (push_rows_sizes ps
                (map (fun g => mkTeam (g_id g) (g_name g) []) gs)) as Hsz.
  rewrite map_map in Hsz. cbn [t_id] in Hsz.
  specialize (Hsz ltac:(by rewrite Hgs) ltac:(by rewrite Hgs)).
  apply Forall2_fmap_l in Hsz.
  split.
  - etrans; [|by apply Permutation_map, Hgs].
    apply eq_subrelation; [apply _|].
    clear -Hsz. induction Hsz as [|g t gs ts (Hi & Hn & _) _ IH]; [done|].
    simpl in *. by rewrite IH, Hi, Hn.
  - apply Forall_forall. intros t Ht.
    apply list_elem_of_lookup_1 in Ht as [i Ht].
    destruct (Forall2_lookup_r _ _ _ _ _ Hsz Ht) as (g & _ & Hi & _ & Hlen).
    simpl in Hi, Hlen. rewrite Hlen, Hi. unfold group_size.
    by rewrite Hps.
Qed.

(** ** Filling the teams *)

Lemma none_available ts :
  filter (fun t => (length (t_members t) < MAX_MEMBERS_PER_TEAM)%nat) ts = [] <->
  Forall (fun t => (MAX_MEMBERS_PER_TEAM <= length (t_members t))%nat) ts.
Proof.
  induction ts as [|t ts IH]; [done|].
  rewrite filter_cons, Forall_cons. case_decide.
  - split; [done|]. intros [? _]. lia.
  - rewrite IH. split; [|by intros [_ ?]]. intros. split; [lia|done].
Qed.

Lemma sizes_all_full (ns : list nat) :
  Forall (fun n => (n <= MAX_MEMBERS_PER_TEAM)%nat) ns ->
  sum_list ns = (MAX_MEMBERS_PER_TEAM * length ns)%nat ->
  Forall (fun n => (MAX_MEMBERS_PER_TEAM <= n)%nat) ns.
Proof.
  unfold MAX_MEMBERS_PER_TEAM.
  induction ns as [|n ns IH]; intros Hle Hsum; [done|].
  apply Forall_cons in Hle as [Hn Hle]. simpl length in Hsum.
  simpl sum_list in Hsum.
  assert (sum_list ns <= 5 * length ns)%nat as Hbound.
  { clear -Hle. induction Hle; simpl length; simpl sum_list; lia. }
  constructor; [lia|]. apply IH; [done|lia].
Qed.

Lemma sizes_some_room (ns : list nat) :
  Forall (fun n => (MAX_MEMBERS_PER_TEAM <= n)%nat) ns ->
  (MAX_MEMBERS_PER_TEAM * length ns <= sum_list ns)%nat.
Proof.
  unfold MAX_MEMBERS_PER_TEAM.
  induction 1; simpl length; simpl sum_list; lia.
Qed.

(** Adding a member to the team with a given key: one team grows by one,
    when the keys are distinct. *)
Lemma add_member_sizes gid p ts :
  NoDup (map t_id ts) ->
  (exists t, t ∈ ts /\ t_id t = gid /\
             (length (t_members t) < MAX_MEMBERS_PER_TEAM)%nat) ->
  Forall (fun t => (length (t_members t) <= MAX_MEMBERS_PER_TEAM)%nat) ts ->
  map t_id (map (add_member gid p) ts) = map t_id ts /\
  Forall (fun t => (length (t_members t) <= MAX_MEMBERS_PER_TEAM)%nat)
         (map (add_member gid p) ts) /\
  sum_list (map (fun t => length (t_members t)) (map (add_member gid p) ts))
  = S (sum_list (map (fun t => length (t_members t)) ts)).
Proof.
  induction ts as [|a ts IH]; intros Hnd (t & Hin & Hid & Hlt) Hle.
  { inversion Hin. }
  simpl in Hnd. apply NoDup_cons in Hnd as [Ha Hnd].
  apply Forall_cons in Hle as [Hale Hle]. simpl.
  unfold add_member at 1 3 5. destruct (decide (t_id a = gid)) as [Heq|Hne].
  - assert (t = a) as ->.
    { apply elem_of_cons in Hin as [->|Hin]; [done|].
      exfalso. apply Ha. rewrite Heq, <- Hid. apply list_elem_of_fmap. eauto. }
    assert (map (add_member gid p) ts = ts) as ->.
    { rewrite <- (map_id ts) at 2. apply AttendanceFacts.map_same_on.
      intros x Hx. unfold add_member. rewrite decide_False; [done|].
      intros Hxid. apply Ha. rewrite Heq, <- Hxid.
      apply list_elem_of_fmap. eauto. }
    simpl. rewrite length_app. simpl. repeat split; [|lia].
    constructor; [|done]. simpl. rewrite length_app. simpl. lia.
  - apply elem_of_cons in Hin as [->|Hin]; [done|].
    destruct IH as (Hids & Hle' & Hsum); eauto.
    simpl. rewrite Hids, Hsum. repeat split; [|lia].
    by constructor.
Qed.

(** One more registration while there is room: no group is created and the
    new participant joins a team that had room. *)
Lemma filling_step user db0 k s x row nm db' st' :
  NoDup (map g_id (groups db0)) ->
  filling db0 k s ->
  (k < MAX_MEMBERS_PER_TEAM * length (groups db0))%nat ->
  registerParticipant user s x = (Registered row nm, db', st') ->
  filling db0 (S k) (db', st') /\
  exists g, g ∈ groups db0 /\ p_group_id row = Some (g_id g).
Proof.
  intros Hnd (Hg & Hseq & Hids & Hle & Hsum & Hlen) Hk Hcall.
  destruct s as [db st]. unfold registerParticipant in Hcall.
  cbn [fst snd] in *.
  apply handleAddParticipant_spec in Hcall as (_ & _ & _ & gid & Hrow & Hrows & Hcase).
  cbn [setNewParticipantName teams] in Hcase. unfold team_sizes in *.
  destruct Hcase as [(Hav & Hgroups & Hgseq & team & Hteam & -> & _ & Hteams)
                    |(Hav & _)].
  2:{ exfalso. apply none_available in Hav.
      assert (Forall (fun n => (MAX_MEMBERS_PER_TEAM <= n)%nat)
                (map (fun t => length (t_members t)) (teams st))) as Hfull
        by (by apply Forall_fmap).
      apply sizes_some_room in Hfull.
      rewrite length_map in Hfull.
      apply (f_equal length) in Hids. rewrite !length_map in Hids.
      unfold MAX_MEMBERS_PER_TEAM in *. lia. }
  apply list_elem_of_lookup_2, list_elem_of_filter in Hteam as [Hlt Hin].
  destruct (add_member_sizes (t_id team) (participant_of_row row) (teams st))
    as (Hids' & Hle' & Hsum'); eauto.
  { by rewrite Hids. }
  { by apply Forall_fmap in Hle. }
  split.
  - unfold filling, team_sizes. cbn [fst snd].
    rewrite Hteams, Hids', Hsum', Hrows, length_app.
    split; [congruence|]. split; [congruence|]. split; [congruence|].
    split; [by apply Forall_fmap|]. split; [congruence|].
    simpl. lia.
  - assert (t_id team ∈ map g_id (groups db0)) as Hgin
      by (rewrite <- Hids; apply list_elem_of_fmap; eauto).
    apply list_elem_of_fmap in Hgin as (g & Hgid & Hgin).
    exists g. split; [done|]. rewrite Hrow. simpl. by rewrite Hgid.
Qed.

(** Registrations one at a time, all of them successful, while there is
    room: the groups stay as they are. *)
Lemma filling_run user db0 xs :
  NoDup (map g_id (groups db0)) ->
  forall k s os s',
    filling db0 k s ->
    (k + length xs <= MAX_MEMBERS_PER_TEAM * length (groups db0))%nat ->
    register_all user s xs = (os, s') ->
    Forall is_registered os ->
    filling db0 (k + length xs) s'.
Proof.
  intros Hnd. induction xs as [|x xs IH]; intros k s os s' Hf Hk Hrun Hos.
  - simpl in *. simplify_eq. by rewrite Nat.add_0_r.
  - simpl in Hrun.
    destruct (registerParticipant user s x) as [[o db1] st1] eqn:Hcall.
    destruct (register_all user (db1, st1) xs) as [os1 s1] eqn:Hrest.
    simplify_eq. apply Forall_cons in Hos as [Ho Hos].
    destruct o as [|row nm|e]; try done.
    destruct (filling_step user db0 k s x row nm db1 st1) as [Hf1 _];
      try done.
    { simpl length in Hk. lia. }
    simpl length in *. replace (k + S (length xs))%nat with (S k + length xs)%nat by lia.
    eapply IH; eauto. lia.
Qed.

(** The registration after the last free place was taken creates a group,
    named after the number of groups, and assigns the participant to it. *)
Lemma filling_full_creates user db0 s x row nm db' st' :
  filling db0 (MAX_MEMBERS_PER_TEAM * length (groups db0)) s ->
  registerParticipant user s x = (Registered row nm, db', st') ->
  let g := mkGroup (groups_seq db0)
             ("Team " +:+ pretty (length (groups db0) + 1)%nat)
             (NOW (rq_group (snd x))) in
  groups db' = groups db0 ++ [g] /\
  p_group_id row = Some (groups_seq db0) /\
  nm = g_name g /\
  length (participants db')
  = S (length (participants db0)
       + MAX_MEMBERS_PER_TEAM * length (groups db0)).
Proof.
  intros (Hg & Hseq & Hids & Hle & Hsum & Hlen) Hcall g.
  destruct s as [db st]. unfold registerParticipant in Hcall.
  cbn [fst snd] in *.
  apply handleAddParticipant_spec in Hcall
    as (_ & _ & _ & gid & Hrow & Hrows & Hcase).
  cbn [setNewParticipantName teams] in Hcase. unfold team_sizes in *.
  assert (length (teams st) = length (groups db0)) as Hn.
  { apply (f_equal length) in Hids. by rewrite !length_map in Hids. }
  destruct Hcase as [(Hav & _)|(_ & g' & Hg' & Hgroups & -> & -> & _)].
  - exfalso. apply Hav, none_available.
    apply sizes_all_full in Hle; [|by rewrite length_map, Hn].
    exact (proj1 (Forall_fmap _ _ _) Hle).
  - rewrite Hn, Hseq in Hg'. fold g in Hg'. subst g'.
    rewrite Hgroups, Hg, Hrow, Hrows, length_app, Hlen.
    cbn [p_group_id g_id g length]. repeat split; try done. lia.
Qed.

(** C4. (1) When the page is in sync with the store, a registration that
    succeeds assigns the new participant to a group that had fewer than
    MAX_MEMBERS_PER_TEAM participants if there is one, creating no group;
    otherwise it creates a group named "Team n+1", n being the number of
    groups, and assigns the participant to it. (2) Starting from the eight
    default groups, empty, registrations one at a time leave the groups as
    they are up to the fortieth participant, when every team holds five;
    the registration of the forty-first creates the ninth group,
    "Team 9", and assigns the participant to it. *)
Theorem registration_assigns_team :
  (forall st db user env row nm db' st',
     in_sync db st ->
     handleAddParticipant st db user env = (Registered row nm, db', st') ->
     participants db' = participants db ++ [row] /\
     ((exists g, g ∈ groups db /\
                 (group_size db (g_id g) < MAX_MEMBERS_PER_TEAM)%nat) ->
      groups db' = groups db /\
      exists g, g ∈ groups db /\
                (group_size db (g_id g) < MAX_MEMBERS_PER_TEAM)%nat /\
                p_group_id row = Some (g_id g) /\ nm = g_name g) /\
     ((forall g, g ∈ groups db ->
                 (MAX_MEMBERS_PER_TEAM <= group_size db (g_id g))%nat) ->
      exists g, groups db' = groups db ++ [g] /\
                g_name g = "Team " +:+ pretty (length (groups db) + 1)%nat /\
                p_group_id row = Some (g_id g) /\ nm = g_name g)) /\
  (forall user created db st xs os s',
     groups db = default_groups created -> groups_seq db = 9 ->
     participants db = [] ->
     teams st = map (fun g => mkTeam (g_id g) (g_name g) []) (groups db) ->
     (length xs <= 40)%nat ->
     register_all user (db, st) xs = (os, s') ->
     Forall is_registered os ->
     groups (fst s') = groups db /\
     length (groups (fst s')) = 8%nat /\
     length (participants (fst s')) = length xs /\
     (length xs = 40%nat ->
      Forall (fun n => n = 5%nat) (team_sizes (snd s')) /\
      forall x row nm db41 st41,
        registerParticipant user s' x = (Registered row nm, db41, st41) ->
        exists g, groups db41 = groups db ++ [g] /\
                  g_id g = 9 /\ g_name g = "Team 9"%string /\
                  length (groups db41) = 9%nat /\
                  p_group_id row = Some 9 /\ nm = "Team 9"%string /\
                  length (participants db41) = 41%nat)).
Proof.
  split.
  - intros st db user env row nm db' st' Hsync Hcall.
    apply handleAddParticipant_spec in Hcall
      as (_ & _ & _ & gid & Hrow & Hrows & Hcase).
    cbv zeta in Hcase. split; [done|]. split.
    + intros (g & Hg & Hsize).
      destruct (in_sync_group _ _ _ Hsync Hg) as (t & Ht & Hid & Hlen).
      destruct Hcase as [(_ & Hgroups & _ & team & Hteam & -> & -> & _)
                        |(Hav & _)].
      * split; [done|].
        apply list_elem_of_lookup_2, list_elem_of_filter in Hteam as [Hlt Hin].
        destruct (in_sync_team _ _ _ Hsync Hin) as (g' & Hg' & Hid' & Hnm' & Hsz').
        exists g'. repeat split; try done; [lia|].
        rewrite Hrow. simpl. by rewrite Hid'.
      * exfalso. rewrite none_available, Forall_forall in Hav.
        specialize (Hav t Ht). lia.
    + intros Hfull.
      destruct Hcase as [(Hav & _ & _ & team & Hteam & _)
                        |(_ & g & -> & Hgroups & -> & -> & _)].
      * exfalso.
        apply list_elem_of_lookup_2, list_elem_of_filter in Hteam as [Hlt Hin].
        destruct (in_sync_team _ _ _ Hsync Hin) as (g' & Hg' & _ & _ & Hsz').
        specialize (Hfull g' Hg'). lia.
      * eexists. split; [exact Hgroups|]. cbn [g_name g_id].
        rewrite (in_sync_length _ _ Hsync). rewrite Hrow. done.
  - intros user created db st xs os s' Hg Hseq Hp Hteams Hlen Hrun Hos.
    assert (NoDup (map g_id (groups db))) as Hnd
      by (rewrite Hg; vm_compute; by_compute).
    assert (length (groups db) = 8%nat) as Hn by (by rewrite Hg).
    assert (filling db 0 (db, st)) as Hf0.
    { unfold filling, team_sizes. cbn [fst snd]. rewrite Hteams, Hp, !map_map.
      simpl. repeat split.
      - apply Forall_fmap, Forall_forall. intros; simpl. lia.
      - clear. induction (groups db); [done|]. simpl. done. }
    pose proof (filling_run user db xs Hnd 0%nat (db, st) os s' Hf0) as Hrunf.
    rewrite Hn in Hrunf. simpl plus in Hrunf.
    specialize (Hrunf ltac:(unfold MAX_MEMBERS_PER_TEAM; lia) Hrun Hos).
    pose proof Hrunf as (Hg' & Hseq' & Hids' & Hle' & Hsum' & Hlen').
    rewrite Hp in Hlen'. simpl in Hlen'.
    split; [done|]. split; [congruence|]. split; [done|].
    intros H40. rewrite H40 in *.
    split.
    + assert (Forall (fun n => (MAX_MEMBERS_PER_TEAM <= n)%nat)
                (team_sizes (snd s'))) as Hge.
      { apply sizes_all_full; [done|]. unfold team_sizes in *.
        rewrite length_map.
        apply (f_equal length) in Hids'. rewrite !length_map in Hids'.
        rewrite Hids', Hn, Hsum'. done. }
      rewrite Forall_forall in Hle', Hge. apply Forall_forall.
      intros n Hin. specialize (Hle' n Hin). specialize (Hge n Hin).
      unfold MAX_MEMBERS_PER_TEAM in *. lia.
    + intros x row nm db41 st41 Hcall.
      destruct (filling_full_creates user db s' x row nm db41 st41)
        as (Hg41 & Hrow41 & Hnm41 & Hlen41); [by rewrite Hn|done|].
      rewrite Hn, Hseq in Hg41. rewrite Hseq in Hrow41.
      rewrite Hn in Hnm41. rewrite Hn, Hp in Hlen41.
      cbn [g_name] in Hnm41.
      change ("Team " +:+ pretty (8 + 1)%nat) with "Team 9"%string in Hg41, Hnm41.
      eexists. split; [exact Hg41|]. rewrite Hg41, length_app, Hn.
      repeat split; done.
Qed.

Lemma registration_assigns_team_witness :
  in_sync Samples.db_full Samples.page_full /\
  (let '(o, db', _) :=
     handleAddParticipant Samples.page_full Samples.db_full
       (Some Samples.admin_user) (mkAddEnv Samples.rq_ok Samples.rq_ok 0) in
   exists row g, o = Registered row "Team 2" /\
                 groups db' = groups Samples.db_full ++ [g] /\
                 g_name g = "Team 2"%string /\
                 p_group_id row = Some (g_id g)) /\
  let '(os, s40) :=
    register_all (Some Samples.admin_user) (Samples.db0, Samples.page0)
                 (take 40 Samples.registrations_41) in
  Forall is_registered os /\
  groups (fst s40) = groups Samples.db0 /\
  length (participants (fst s40)) = 40%nat /\
  forall x row nm db41 st41,
    registerParticipant (Some Samples.admin_user) s40 x
    = (Registered row nm, db41, st41) ->
    exists g, groups db41 = groups Samples.db0 ++ [g] /\
              g_name g = "Team 9"%string /\ p_group_id row = Some 9.
Proof.
  assert (in_sync Samples.db_full Samples.page_full) as Hsync.
  { exact (fetchTeamsAndParticipants_in_sync
             (mkState [] 0 "" false None None) Samples.db_full true
             Samples.rq_ok Samples.rq_ok
             ltac:(by_compute) ltac:(by_compute) eq_refl eq_refl). }
  split; [exact Hsync|]. split.
  { destruct (handleAddParticipant Samples.page_full Samples.db_full
                (Some Samples.admin_user)
                (mkAddEnv Samples.rq_ok Samples.rq_ok 0))
      as [[o db'] st'] eqn:Hcall.
    assert (exists row, o = Registered row "Team 2") as [row ->]
      by (vm_compute in Hcall; injection Hcall as <- _ _; eauto).
    destruct (proj1 registration_assigns_team _ _ _ _ _ _ _ _
                Hsync Hcall) as (_ & _ & Hfull).
    destruct Hfull as (g & Hg & Hname & Hrow & _).
    { intros g Hg. apply list_elem_of_singleton in Hg as ->.
      vm_compute. lia. }
    exists row, g. split; [done|]. split; [exact Hg|].
    split; [rewrite Hname; reflexivity|exact Hrow]. }
  destruct (register_all (Some Samples.admin_user) (Samples.db0, Samples.page0)
              (take 40 Samples.registrations_41)) as [os s40] eqn:Hrun.
  assert (Forall is_registered os) as Hos.
  { assert (os = fst (register_all (Some Samples.admin_user)
                        (Samples.db0, Samples.page0)
                        (take 40 Samples.registrations_41))) as ->
      by (by rewrite Hrun).
    by_compute. }
  destruct (proj2 registration_assigns_team (Some Samples.admin_user)
              Samples.t0 Samples.db0 Samples.page0
              (take 40 Samples.registrations_41) os s40)
    as (Hg & _ & Hlen & H40).
  - reflexivity.
  - reflexivity.
  - reflexivity.
  - reflexivity.
  - vm_compute. lia.
  - exact Hrun.
  - exact Hos.
  - split; [exact Hos|]. split; [exact Hg|]. split; [exact Hlen|].
    intros x row nm db41 st41 Hcall.
    destruct (proj2 (H40 eq_refl) x row nm db41 st41 Hcall)
      as (g & ? & _ & ? & _ & ? & _).
    eauto.
Defined.

(** ** Operations that fail *)

(** A mark that fails changes no row of any table, and leaves the roster
    as it was. *)
Lemma markAttendance_failed st db env m s p l e db' st' :
  Attendance.markAttendance st db env m s p l = (Err e, db', st') ->
  Attendance.rows_eq db db' /\ st' = st.
Proof.
  unfold Attendance.markAttendance. intros H.
  destruct (find _ _) as [member|];
    [|simplify_eq; split; [apply rows_eq_refl|done]].
  destruct (or_null _) as [aid|].
  - destruct (update_attendance _ db aid _) as [ru db1] eqn:Hup.
    apply update_attendance_inv in Hup as (?&?&?&?&?&Hup).
    destruct ru as [[]|e']; simplify_eq. split; [apply rows_eq_refl|done].
  - destruct (insert_attendance _ db _) as [ri db1] eqn:Hins.
    apply insert_attendance_inv in Hins as (?&?&?&?&Hins).
    destruct ri as [row|e']; simplify_eq. destruct Hins as [? _].
    split; [|done]. repeat split; congruence.
Qed.

(** C9, as stated, fails: with the one team full, a registration whose
    group insert arrives and whose participant insert does not ends in the
    [catch] block, and leaves the new group "Team 2" in the store. *)
Lemma failed_registration_leaves_a_group :
  let '(o, db', st') :=
    handleAddParticipant Samples.page_full Samples.db_full
                         (Some Samples.admin_user) Samples.add_env_half in
  o = Failed Unavailable /\
  error st' = Some "Failed to add participant"%string /\
  participants db' = participants Samples.db_full /\
  map g_name (groups Samples.db_full) = ["Team 1"%string] /\
  map g_name (groups db') = ["Team 1"%string; "Team 2"%string] /\
  ~ Attendance.rows_eq Samples.db_full db'.
Proof.
  vm_compute. repeat split. intros (_ & H & _). discriminate H.
Qed.

(** C9, amended. A mark that fails leaves every row of every table, and
    the roster, as they were. A registration that fails leaves users,
    members, attendance and participants as they were: no participant is
    left behind; when some team has room it leaves the groups as they were
    too; when no team has room the groups are as they were, or are followed
    by the one group "Team n+1" that was inserted before the participant
    insert failed. *)
Theorem failed_operation_leaves_rows :
  (forall st db env m s p l e db' st',
     Attendance.markAttendance st db env m s p l = (Err e, db', st') ->
     Attendance.rows_eq db db' /\ st' = st) /\
  (forall st db user env e db' st',
     handleAddParticipant st db user env = (Failed e, db', st') ->
     users db' = users db /\ committee_members db' = committee_members db /\
     attendance db' = attendance db /\ participants db' = participants db /\
     ((exists t, t ∈ teams st /\
                 (length (t_members t) < MAX_MEMBERS_PER_TEAM)%nat) ->
      Attendance.rows_eq db db') /\
     (groups db' = groups db \/
      exists g, groups db' = groups db ++ [g] /\
                g_name g = "Team " +:+ pretty (length (teams st) + 1)%nat /\
                Forall (fun t => (MAX_MEMBERS_PER_TEAM <= length (t_members t))%nat)
                       (teams st))).
Proof.
  split; [exact markAttendance_failed|].
  intros st db user env e db' st' Hcall.
  apply handleAddParticipant_spec in Hcall
    as (Hu & Hc & Ha & Hp & Hroom & Hg).
  cbv zeta in Hroom, Hg.
  split; [done|]. split; [done|]. split; [done|]. split; [done|]. split.
  - intros (t & Ht & Hlt). repeat split; try congruence.
    symmetry. apply Hroom. intros Hnone.
    rewrite none_available, Forall_forall in Hnone.
    specialize (Hnone t Ht). lia.
  - destruct Hg as [?|(g & Hnone & -> & ?)]; [by left|].
    right. eexists. split; [done|]. split; [done|].
    by apply none_available.
Qed.

Lemma failed_operation_leaves_rows_witness :
  (let '(r, db', st') :=
     Attendance.markAttendance Samples.st0 Samples.db0 Samples.env_lost 1
       attend (Some Samples.photo_url) (Some Samples.kuala_lumpur) in
   r = Err Unavailable /\ Attendance.rows_eq Samples.db0 db' /\
   st' = Samples.st0) /\
  (let '(o, db', st') :=
     handleAddParticipant
       (setNewParticipantName Samples.page0 "Nur Afiqah") Samples.db0
       (Some Samples.admin_user) (mkAddEnv Samples.rq_ok Samples.rq_lost 0) in
   o = Failed Unavailable /\ Attendance.rows_eq Samples.db0 db').
Proof.
  split.
  - destruct (Attendance.markAttendance Samples.st0 Samples.db0
                Samples.env_lost 1 attend (Some Samples.photo_url)
                (Some Samples.kuala_lumpur)) as [[r db'] st'] eqn:Hcall.
    assert (r = Err Unavailable) as -> by (vm_compute in Hcall; congruence).
    split; [done|].
    exact (proj1 failed_operation_leaves_rows _ _ _ _ _ _ _ _ _ _ Hcall).
  - destruct (handleAddParticipant
                (setNewParticipantName Samples.page0 "Nur Afiqah") Samples.db0
                (Some Samples.admin_user)
                (mkAddEnv Samples.rq_ok Samples.rq_lost 0))
      as [[o db'] st'] eqn:Hcall.
    assert (o = Failed Unavailable) as -> by (vm_compute in Hcall; congruence).
    split; [done|].
    destruct (proj2 failed_operation_leaves_rows _ _ _ _ _ _ _ Hcall)
      as (_ & _ & _ & _ & Hroom & _).
    apply Hroom. eexists. split; [left|]. vm_compute. lia.
Defined.

End TeamsFacts.

(* ===================================================================== *)
(** * Properties of permissions and of the life of a session *)
(* ===================================================================== *)

Module SessionFacts.

Import Auth Session StoreFacts.

(** ** Helper lemmas *)

(** A session token is never the empty text. *)
Lemma generateSessionToken_truthy now r1 r2 :
  or_null (Some (generateSessionToken now r1 r2))
  = Some (generateSessionToken now r1 r2).
Proof.
  unfold generateSessionToken, or_null.
  by destruct (toString36 now).
Qed.

(** No row of the user holds the token: it does not validate. *)
Lemma validateSession_other_token rq db uid t :
  (forall u, u ∈ users db -> u_id u = uid -> u_session_token u <> Some t) ->
  validateSession rq db uid t = false.
Proof.
  intros Hno. destruct (validateSession rq db uid t) eqn:Hv; [|done].
  apply AuthFacts.validateSession_true in Hv as (_ & u & Hf & _ & Ht).
  assert (u ∈ filter (fun u => u_id u = uid) (users db)) as Hin
    by (rewrite Hf; left).
  apply list_elem_of_filter in Hin as [Hu Hin].
  by destruct (Hno u Hin Hu).
Qed.

(** The row a login rewrites. *)
Local Abbreviation with_session token at_ now u :=
  (mkUserRow (u_id u) (u_username u) (u_password u) (u_name u)
     (u_department u) (u_role u) (u_status u)
     (Some token) (Some at_) (u_created_at u) now).

(** What a successful login did, the client state included. *)
Lemma login_session st db env username password db' st' :
  login st db env username password = (true, db', st') ->
  let token := generateSessionToken (Date_now env) (Math_random1 env)
                                    (Math_random2 env) in
  exists data,
    filter (fun u => u_username u = username /\ u_status u = active) (users db)
    = [data] /\
    users db'
    = map (fun u => if decide (u_id u = u_id data)
                    then with_session token (toISOString env)
                                      (NOW (rq_update env)) u
                    else u)
          (users db) /\
    let u := mkUser (u_id data) (u_username data) (u_name data)
                    (u_department data) (u_role data) (Some token) in
    st' = mkState (Some u) (Some u) (Some (u_id data, token)) false.
Proof.
  unfold login, select_active_user, update_user_session, single.
  intros H.
  destruct (delivered (rq_select env)); [|by simplify_eq].
  destruct (filter _ (users db)) as [|data [|u' rest]] eqn:Hf;
    try by simplify_eq.
  destruct (bcrypt_compare env password (u_password data)) eqn:Hpw;
    simpl in H; [|by simplify_eq].
  destruct (delivered (rq_update env)); [|by simplify_eq].
  simplify_eq. exists data. repeat split; done.
Qed.

(** After a login every row of the user holds the new token. *)
Lemma login_rows_hold_token (rows : list UserRow) uid token at_ now u :
  u ∈ map (fun u => if decide (u_id u = uid)
                    then with_session token at_ now u else u) rows ->
  u_id u = uid -> u_session_token u = Some token.
Proof.
  intros Hin Hid. apply list_elem_of_fmap in Hin as (u0 & -> & _).
  destruct (decide (u_id u0 = uid)); simpl in *; [done|congruence].
Qed.

(** User keys being unique, the new token validates when the request
    arrives. *)
Lemma login_token_valid (rows : list UserRow) data token at_ now :
  NoDup (map u_id rows) -> data ∈ rows ->
  filter (fun u => u_id u = u_id data)
         (map (fun u => if decide (u_id u = u_id data)
                        then with_session token at_ now u else u) rows)
  = [with_session token at_ now data].
Proof.
  induction rows as [|a us IH]; intros Hnd Hin; [inversion Hin|].
  simpl in Hnd. apply NoDup_cons in Hnd as [Ha Hnd]. simpl.
  apply elem_of_cons in Hin as [<-|Hin].
  - rewrite decide_True by done. rewrite filter_cons_True by done.
    f_equal. apply AttendanceFacts.filter_none.
    intros x Hx Hxid. apply Ha.
    apply list_elem_of_fmap in Hx as (y & -> & Hy).
    apply list_elem_of_fmap. exists y. split; [|done].
    by destruct (decide (u_id y = u_id data)).
  - destruct (decide (u_id a = u_id data)) as [Heq|Hne].
    + exfalso. apply Ha. rewrite Heq. apply list_elem_of_fmap. eauto.
    + rewrite filter_cons_False by done. by apply IH.
Qed.

Lemma login_validates st db env username password db' st' rq :
  login st db env username password = (true, db', st') ->
  NoDup (map u_id (users db)) -> delivered rq = true ->
  exists uid token,
    sessionCheck st' = Some (uid, token) /\
    validateSession rq db' uid token = true.
Proof.
  intros Hlogin Hnd Hd.
  apply login_session in Hlogin as (data & Hsel & Hrows & ->).
  eexists _, _. split; [reflexivity|].
  apply AuthFacts.validateSession_true. split; [done|].
  assert (data ∈ users db /\ u_status data = active) as [Hin Hact].
  { assert (data ∈ filter (fun u => u_username u = username
                                     /\ u_status u = active) (users db))
      as Hin by (rewrite Hsel; left).
    apply list_elem_of_filter in Hin as [[_ ?] ?]. done. }
  eexists. split; [|split].
  - rewrite Hrows. by apply login_token_valid.
  - done.
  - done.
Qed.

(** Two logins under one username rewrite the rows of one user. *)
Lemma login_twice_same_user stA0 stB0 db0 db1 db2 stA stB envA envB
    username pwA pwB :
  login stA0 db0 envA username pwA = (true, db1, stA) ->
  login stB0 db1 envB username pwB = (true, db2, stB) ->
  let tokenA := generateSessionToken (Date_now envA) (Math_random1 envA)
                                     (Math_random2 envA) in
  let tokenB := generateSessionToken (Date_now envB) (Math_random1 envB)
                                     (Math_random2 envB) in
  exists uA,
    stA = mkState (Some uA) (Some uA) (Some (id uA, tokenA)) false /\
    sessionToken uA = Some tokenA /\
    forall u, u ∈ users db2 -> u_id u = id uA ->
      u_session_token u = Some tokenB.
Proof.
  intros HA HB tokenA tokenB.
  apply login_session in HA as (dataA & HselA & HrowsA & ->).
  apply login_session in HB as (dataB & HselB & HrowsB & _).
  exists (mkUser (u_id dataA) (u_username dataA) (u_name dataA)
            (u_department dataA) (u_role dataA) (Some tokenA)).
  split; [reflexivity|]. split; [reflexivity|]. simpl.
  assert (u_id dataB = u_id dataA) as Hid.
  { assert (dataA ∈ users db0 /\ u_username dataA = username
            /\ u_status dataA = active) as (Hin & Hname & Hact).
    { assert (dataA ∈ filter (fun u => u_username u = username
                                        /\ u_status u = active) (users db0))
        as Hin by (rewrite HselA; left).
      apply list_elem_of_filter in Hin as [[? ?] ?]. done. }
    assert (with_session tokenA (toISOString envA) (NOW (rq_update envA)) dataA
            ∈ filter (fun u => u_username u = username /\ u_status u = active)
                     (users db1)) as Hin'.
    { apply list_elem_of_filter. split; [done|]. rewrite HrowsA.
      apply list_elem_of_fmap. exists dataA. split; [|done].
      by rewrite decide_True. }
    rewrite HselB in Hin'. apply list_elem_of_singleton in Hin'.
    by rewrite <- Hin'. }
  intros u Hu Huid. rewrite HrowsB in Hu. rewrite Hid in Hu.
  by eapply login_rows_hold_token.
Qed.

(** ** Permissions *)

(** Whoever may edit a page may view it; user management is open to
    administrators and to nobody else; every other page can be viewed by
    whoever is signed in, and by nobody who is not. *)
Theorem permissions_by_role (st : State) :
  (forall page, canEdit st page = true -> canView st page = true) /\
  canView st userManagement = isAdmin st /\
  canEdit st userManagement = isAdmin st /\
  (forall page, page <> userManagement ->
     (canView st page = true <-> user st <> None)).
Proof.
  unfold canEdit, canView, isAdmin, permissions.
  destruct (user st) as [u|]; simpl.
  - split; [|split; [|split]].
    + intros page ->. done.
    + by destruct u as [? ? ? ? [] ?].
    + by destruct u as [? ? ? ? [] ?].
    + intros page Hne. split; [done|intros _].
      destruct u as [? ? ? ? [] ?], page; done.
  - split; [done|]. split; [done|]. split; [done|].
    intros page _. split; [done|intros H; by destruct H].
Qed.

Lemma permissions_by_role_witness :
  canView (mkState (Some Samples.admin_user) None None false) teams = true /\
  canView (mkState (Some Samples.admin_user) None None false) userManagement
  = true.
Proof.
  set (st := mkState (Some Samples.admin_user) None None false).
  destruct (permissions_by_role st) as (Hev & Hum & _ & Hview).
  split.
  - apply Hev. reflexivity.
  - rewrite Hum. reflexivity.
Defined.

(** ** Single active session *)

(** Two logins of one account at different clock readings: the session of
    the first login ends at its next poll, whether or not the poll reaches
    the store, and a reload of its page finds the stored session refused;
    in both cases the "session ended" flag is raised. *)
Theorem second_login_ends_first_session stA0 stB0 db0 db1 db2 stA stB
    envA envB username pwA pwB rq :
  login stA0 db0 envA username pwA = (true, db1, stA) ->
  login stB0 db1 envB username pwB = (true, db2, stB) ->
  Date_now envA <> Date_now envB ->
  sessionCheck_tick stA db2 rq = mkState None None None true /\
  session (checkExistingSession (mount (stored stA)) db2 rq)
  = mkState None None None true.
Proof.
  intros HA HB Hnow.
  destruct (login_twice_same_user _ _ _ _ _ _ _ _ _ _ _ _ HA HB)
    as (uA & -> & Htok & Hrows).
  assert (validateSession rq db2 (id uA)
            (generateSessionToken (Date_now envA) (Math_random1 envA)
                                  (Math_random2 envA)) = false) as Hv.
  { apply validateSession_other_token. intros u Hu Hid.
    rewrite (Hrows u Hu Hid). intros [= Heq].
    symmetry in Heq. revert Heq.
    by apply AuthFacts.generateSessionToken_fresh. }
  split.
  - unfold sessionCheck_tick. simpl. by rewrite Hv.
  - unfold checkExistingSession, mount. simpl. rewrite Htok.
    rewrite generateSessionToken_truthy. by rewrite Hv.
Qed.

Lemma second_login_ends_first_session_witness :
  sessionCheck_tick Scenarios.st_first Scenarios.db_second Samples.rq_ok
  = mkState None None None true /\
  session (checkExistingSession (mount (stored Scenarios.st_first))
             Scenarios.db_second Samples.rq_ok)
  = mkState None None None true.
Proof.
  apply (second_login_ends_first_session
           Samples.logged_out Samples.logged_out
           Samples.db0 Scenarios.db_first Scenarios.db_second
           Scenarios.st_first Scenarios.st_second
           Samples.login_env Scenarios.login_env2
           "admin" "admin123" "admin123" Samples.rq_ok).
  - vm_compute. reflexivity.
  - vm_compute. reflexivity.
  - vm_compute. discriminate.
Defined.


(** After a login, user keys being unique, a poll that reaches the store
    keeps the session as it is; a poll that does not reach the store ends
    it like a login elsewhere would. *)
Theorem poll_after_login st db env username password db' st' rq :
  login st db env username password = (true, db', st') ->
  NoDup (map u_id (users db)) ->
  sessionCheck_tick st' db' rq
  = if delivered rq then st' else mkState None None None true.
Proof.
  intros Hlogin Hnd. destruct (delivered rq) eqn:Hd.
  - destruct (login_validates _ _ _ _ _ _ _ rq Hlogin Hnd Hd)
      as (uid & token & Hsc & Hv).
    unfold sessionCheck_tick. by rewrite Hsc, Hv.
  - apply login_session in Hlogin as (data & _ & _ & ->).
    unfold sessionCheck_tick, validateSession, select_user_session. simpl.
    by rewrite Hd.
Qed.

Lemma poll_after_login_witness :
  sessionCheck_tick Scenarios.st_first Scenarios.db_first Samples.rq_ok
  = Scenarios.st_first /\
  sessionCheck_tick Scenarios.st_first Scenarios.db_first Samples.rq_lost
  = mkState None None None true.
Proof.
  split.
  - apply (poll_after_login Samples.logged_out Samples.db0 Samples.login_env
             "admin" "admin123" Scenarios.db_first Scenarios.st_first
             Samples.rq_ok).
    + vm_compute. reflexivity.
    + by_compute.
  - apply (poll_after_login Samples.logged_out Samples.db0 Samples.login_env
             "admin" "admin123" Scenarios.db_first Scenarios.st_first
             Samples.rq_lost).
    + vm_compute. reflexivity.
    + by_compute.
Defined.


(** After a login, user keys being unique, a reload of the page whose
    request reaches the store restores the session exactly as the login
    left it; a stored entry without a token is dropped without raising the
    "session ended" flag. *)
Theorem reload_restores_session :
  (forall st db env username password db' st' rq,
     login st db env username password = (true, db', st') ->
     NoDup (map u_id (users db)) -> delivered rq = true ->
     checkExistingSession (mount (stored st')) db' rq = mkProvider st' false) /\
  (forall u db rq,
     or_null (sessionToken u) = None ->
     checkExistingSession (mount (Some u)) db rq
     = mkProvider (mkState None None None false) false).
Proof.
  split.
  - intros st db env username password db' st' rq Hlogin Hnd Hd.
    destruct (login_validates _ _ _ _ _ _ _ rq Hlogin Hnd Hd)
      as (uid & token & Hsc & Hv).
    apply login_session in Hlogin as (data & _ & _ & ->).
    simpl in Hsc. injection Hsc as <- <-.
    unfold checkExistingSession, mount. simpl.
    rewrite generateSessionToken_truthy. by rewrite Hv.
  - intros u db rq Hno. unfold checkExistingSession, mount. simpl.
    by rewrite Hno.
Qed.

Lemma reload_restores_session_witness :
  checkExistingSession (mount (stored Scenarios.st_first))
                       Scenarios.db_first Samples.rq_ok
  = mkProvider Scenarios.st_first false /\
  checkExistingSession
    (mount (Some (mkUser 1 "admin" "Administrator" administrator admin None)))
    Samples.db0 Samples.rq_ok
  = mkProvider (mkState None None None false) false.
Proof.
  split.
  - apply (proj1 reload_restores_session Samples.logged_out Samples.db0
             Samples.login_env "admin" "admin123").
    + vm_compute. reflexivity.
    + by_compute.
    + reflexivity.
  - apply (proj2 reload_restores_session). reflexivity.
Defined.


(** A login succeeds exactly when its two requests arrive, exactly one
    active user bears the name and the password check passes. A login
    that fails, for whichever of these reasons, shows one and the same
    message, writes nothing to the store, so that a session in use stays
    valid, and leaves the signed-in user as it was. *)
Theorem failed_login_changes_nothing p st db env :
  let '(p', db', st') := LoginPage.handleSubmit p st db env in
  (LoginPage.pushed p' = Some "/dashboard"%string /\ LoginPage.error p' = ""%string
   <-> delivered (rq_select env) = true /\ delivered (rq_update env) = true /\
       exists data,
         filter (fun u => u_username u = LoginPage.username p
                          /\ u_status u = active) (users db) = [data] /\
         bcrypt_compare env (LoginPage.password p) (u_password data) = true) /\
  (LoginPage.error p' <> ""%string ->
   LoginPage.error p' = "Invalid username or password"%string /\
   LoginPage.pushed p' = LoginPage.pushed p /\
   db' = db /\
   st' = mkState (user st) (stored st) (sessionCheck st) false /\
   forall rq uid t,
     validateSession rq db' uid t = validateSession rq db uid t).
Proof.
  unfold LoginPage.handleSubmit, login, select_active_user,
    update_user_session, single.
  destruct (delivered (rq_select env)).
  2:{ simpl. split; [|done]. split; [by intros [_ ?]|by intros [? _]]. }
  destruct (filter _ (users db)) as [|data [|u' rest]] eqn:Hf.
  1,3: simpl; (split; [|done]);
       (split; [by intros [_ ?]|by intros (_ & _ & ? & ? & _)]).
  destruct (bcrypt_compare env (LoginPage.password p) (u_password data))
    eqn:Hpw; simpl.
  2:{ split; [|done]. split; [by intros [_ ?]|].
      intros (_ & _ & d & [= <-] & Hd). congruence. }
  destruct (delivered (rq_update env)); simpl.
  - split; [|done]. split; [|done]. intros _.
    split; [done|]. split; [done|]. by exists data.
  - split; [|done]. split; [by intros [_ ?]|by intros (_ & ? & _)].
Qed.

Lemma failed_login_changes_nothing_witness :
  let '(p', db', st') :=
    LoginPage.handleSubmit
      (LoginPage.mkPage "admin" "letmein" "" false None)
      Samples.logged_out Scenarios.db_first Samples.login_env in
  LoginPage.error p' = "Invalid username or password"%string /\
  db' = Scenarios.db_first /\
  validateSession Samples.rq_ok db' 1
    (generateSessionToken 1736470800000 "0.k3j2h1g0f9e8d7c" "0.z9y8x7w6v5u4t3s")
  = true.
Proof.
  pose proof (failed_login_changes_nothing
                (LoginPage.mkPage "admin" "letmein" "" false None)
                Samples.logged_out Scenarios.db_first Samples.login_env) as H.
  destruct (LoginPage.handleSubmit
              (LoginPage.mkPage "admin" "letmein" "" false None)
              Samples.logged_out Scenarios.db_first Samples.login_env)
    as [[p' db'] st'] eqn:Hcall.
  assert (LoginPage.error p' <> ""%string) as Hne
    by (vm_compute in Hcall; by simplify_eq).
  destruct H as (_ & H). destruct (H Hne) as (Herr & _ & Hdb & _ & Hvalid).
  split; [done|]. split; [done|].
  rewrite Hvalid. vm_compute. reflexivity.
Defined.

(** [logout] always drops the local session, after which no page can be
    viewed. When its request reaches the store, no token validates for the
    user any more, and the rows of the other users are as before; when it
    does not, the store is as before. *)
Theorem logout_ends_session st db rq :
  let '(db', st') := logout st db rq in
  st' = mkState None None None false /\
  (forall page, canView st' page = false) /\
  (forall u, user st = Some u -> id u <> 0 -> delivered rq = true ->
     (forall rq' t, validateSession rq' db' (id u) t = false) /\
     (forall r, r ∈ users db -> u_id r <> id u -> r ∈ users db')) /\
  (delivered rq = false -> db' = db).
Proof.
  unfold logout. split; [done|]. split; [done|]. split.
  - intros u -> Hid Hd. simpl.
    assert (or_null (Some (id u)) = Some (id u)) as ->.
    { unfold or_null, truthy, truthy_Z.
      by destruct (Z.eqb_spec (id u) 0). }
    unfold update_user_session. rewrite Hd. simpl. split.
    + intros rq' t. apply validateSession_other_token. simpl.
      intros r Hr Hrid.
      apply list_elem_of_fmap in Hr as (r0 & -> & _).
      destruct (decide (u_id r0 = id u)); simpl in *; [done|congruence].
    + intros r Hr Hne. apply list_elem_of_fmap. exists r.
      split; [|done]. by rewrite decide_False.
  - intros Hd. destruct (or_null (id <$> user st)); [|done].
    unfold update_user_session. by rewrite Hd.
Qed.

Lemma logout_ends_session_witness :
  let '(db', st') :=
    logout Scenarios.st_first Scenarios.db_first Samples.rq_ok in
  validateSession Samples.rq_ok Scenarios.db_first 1
    (generateSessionToken 1736470800000 "0.k3j2h1g0f9e8d7c" "0.z9y8x7w6v5u4t3s")
  = true /\
  validateSession Samples.rq_ok db' 1
    (generateSessionToken 1736470800000 "0.k3j2h1g0f9e8d7c" "0.z9y8x7w6v5u4t3s")
  = false /\
  canView st' dashboard = false.
Proof.
  pose proof (logout_ends_session Scenarios.st_first Scenarios.db_first
                Samples.rq_ok) as H.
  destruct (logout Scenarios.st_first Scenarios.db_first Samples.rq_ok)
    as [db' st'].
  destruct H as (_ & Hview & Hstore & _).
  split; [vm_compute; reflexivity|]. split; [|apply Hview].
  eapply (proj1 (Hstore _ eq_refl ltac:(vm_compute; discriminate) eq_refl)).
Defined.


End SessionFacts.

(* ===================================================================== *)
(** * Properties of the string operations *)
(* ===================================================================== *)

Module JSTextFacts.

Import JSText.

Lemma app_nil_l (s : string) : "" +:+ s = s.
Proof. reflexivity. Qed.

Lemma app_cons c (a b : string) : String c a +:+ b = String c (a +:+ b).
Proof. reflexivity. Qed.

Lemma app_nil_r (s : string) : s +:+ "" = s.
Proof. induction s as [|c s IH]; [done|]. by rewrite app_cons, IH. Qed.

Lemma app_assoc (a b c : string) : (a +:+ b) +:+ c = a +:+ b +:+ c.
Proof.
  induction a as [|x a IH]; [done|]. by rewrite !app_cons, IH.
Qed.

Lemma app_length (a b : string) :
  String.length (a +:+ b) = (String.length a + String.length b)%nat.
Proof.
  induction a as [|x a IH]; [done|]. rewrite app_cons. simpl. by rewrite IH.
Qed.

(** [prefix a s] holds exactly when [s] starts with [a]. *)
Lemma prefix_spec (a s : string) :
  String.prefix a s = true <-> exists b, s = a +:+ b.
Proof.
  revert a. induction s as [|c s IH]; intros [|x a]; simpl.
  - split; [by exists ""%string|done].
  - split; [done|]. intros (b & Hb). rewrite app_cons in Hb. discriminate.
  - split; [intros _; by eexists|done].
  - destruct (ascii_dec x c) as [->|Hne].
    + rewrite IH. split; intros (b & Hb); exists b.
      * by rewrite app_cons, Hb.
      * rewrite app_cons in Hb. by injection Hb.
    + split; [done|]. intros (b & Hb). rewrite app_cons in Hb.
      injection Hb as Hc _. by destruct Hne.
Qed.

Lemma prefix_app (a b : string) : String.prefix a (a +:+ b) = true.
Proof. apply prefix_spec. by exists b. Qed.

Lemma prefix_nil (s : string) : String.prefix "" s = true.
Proof. by destruct s. Qed.

Lemma includes_nil (s : string) : includes s "" = true.
Proof. destruct s; simpl; [done|]. done. Qed.

Lemma toLowerCase_nil : toLowerCase "" = ""%string.
Proof. reflexivity. Qed.

(** ** [split] and [join] *)

Lemma split_from_skip sep (p : string) cur s :
  split_from sep (String.length p) cur (p +:+ s) = split_from sep 0 cur s.
Proof.
  induction p as [|c p IH]; [done|]. rewrite app_cons. simpl. apply IH.
Qed.

Lemma split_from_cons sep skip cur s :
  exists p ps, split_from sep skip cur s = p :: ps.
Proof.
  revert skip cur. induction s as [|c s IH]; intros skip cur; cbn [split_from].
  - eexists _, _. reflexivity.
  - destruct skip as [|k]; [|apply IH].
    destruct (String.prefix sep (String c s)); [|apply IH].
    eexists _, _. reflexivity.
Qed.

Lemma join_cons sep p q qs :
  join sep (p :: q :: qs) = p +:+ sep +:+ join sep (q :: qs).
Proof. reflexivity. Qed.

(** Joining the parts of a split with the separator gives the text
    back. *)
Lemma join_split_from sep x (n : nat) : forall s cur,
  String.length s = n ->
  join (String x sep) (split_from (String x sep) 0 cur s) = cur +:+ s.
Proof.
  induction n as [n IH] using lt_wf_ind. intros s cur Hn.
  destruct s as [|c s]; [simpl; by rewrite app_nil_r|].
  cbn [split_from].
  destruct (String.prefix (String x sep) (String c s)) eqn:Hp.
  - apply prefix_spec in Hp as (b & Hb). rewrite app_cons in Hb.
    injection Hb as -> ->.
    replace (String.length (String x sep) - 1)%nat with (String.length sep)
      by (simpl; lia).
    rewrite split_from_skip.
    destruct (split_from_cons (String x sep) 0 "" b) as (p & ps & Hsplit).
    rewrite Hsplit, join_cons, <- Hsplit.
    rewrite (IH (String.length b)); [|simpl in Hn; rewrite app_length in Hn; lia|done].
    by rewrite app_nil_l, app_cons.
  - rewrite (IH (String.length s)); [|simpl in Hn; lia|done].
    by rewrite app_assoc, app_cons, app_nil_l.
Qed.

Lemma join_chars (l : list ascii) :
  join "" (map (fun c => String c "") l) = string_of_list_ascii l.
Proof.
  induction l as [|c l IH]; [done|].
  destruct l as [|d l]; [done|].
  cbn [map] in *. rewrite join_cons, IH. reflexivity.
Qed.

Lemma join_split sep s : join sep (split sep s) = s.
Proof.
  destruct sep as [|x sep]; simpl.
  - rewrite join_chars. apply string_of_list_ascii_of_string.
  - by rewrite (join_split_from sep x (String.length s)).
Qed.

Lemma split_cons sep s : exists p ps, split sep s = p :: ps \/ (sep = ""%string /\ s = ""%string).
Proof.
  destruct sep as [|x sep].
  - destruct s as [|c s]; [by exists ""%string, []; right|].
    simpl. eexists _, _. by left.
  - destruct (split_from_cons (String x sep) 0 "" s) as (p & ps & H).
    exists p, ps. by left.
Qed.

(** The join of the first parts is the beginning of the join of all parts. *)
Lemma join_app_prefix sep (a b : list string) :
  String.prefix (join sep a) (join sep (a ++ b)) = true.
Proof.
  induction a as [|p [|q a] IH].
  - apply prefix_nil.
  - destruct b as [|q b]; simpl.
    + apply prefix_spec. exists ""%string. by rewrite app_nil_r.
    + apply prefix_app.
  - change ((p :: q :: a) ++ b) with (p :: q :: (a ++ b)).
    rewrite !join_cons. apply prefix_spec.
    apply prefix_spec in IH as (r & Hr).
    change ((q :: a) ++ b) with (q :: (a ++ b)) in Hr.
    exists r. rewrite Hr. by rewrite !app_assoc.
Qed.

Lemma join_take_prefix sep n (l : list string) :
  String.prefix (join sep (take n l)) (join sep l) = true.
Proof.
  rewrite <- (take_drop n l) at 2. apply join_app_prefix.
Qed.

(** A join of parts is empty only when there is no part, or one empty
    part. *)
Lemma join_nil_inv sep l :
  sep <> ""%string -> join sep l = ""%string -> l = [] \/ l = [""%string].
Proof.
  intros Hsep. destruct l as [|p [|q l]]; simpl; [by left|intros ->; by right|].
  intros H. destruct p; [|by rewrite app_cons in H].
  rewrite app_nil_l in H. destruct sep; [done|by rewrite app_cons in H].
Qed.

End JSTextFacts.

(* ===================================================================== *)
(** * Properties of the attendance page *)
(* ===================================================================== *)

Module AttendanceListFacts.

Import Attendance AttendanceProvider AttendanceList JSText.
Import StoreFacts AttendanceFacts JSTextFacts.

(** ** Helper lemmas *)

(** The rows of the attendance table after a mark: as before, or with
    one new row at the end, or with the rows of one key rewritten. *)
Lemma markAttendance_rows st db env m s p l r db' st' :
  markAttendance st db env m s p l = (r, db', st') ->
  let data := attendanceData st env m s p l in
  attendance db' = attendance db \/
  attendance db'
  = attendance db
    ++ [new_attendance_row (attendance_seq db) (NOW (mark_rq env)) data] \/
  exists i,
    attendance db'
    = map (fun r => if decide (ar_id r = i)
                    then apply_attendance_data (NOW (mark_rq env)) data r
                    else r)
          (attendance db).
Proof.
  intros H data. unfold markAttendance in H.
  destruct (find _ _) as [member|]; [|simplify_eq; by left].
  fold data in H.
  destruct (or_null (ma_attendance_id member)) as [i|].
  - destruct (update_attendance (mark_rq env) db i data) as [u db1] eqn:Hu.
    apply update_attendance_inv in Hu as (_ & _ & _ & _ & _ & Hu).
    destruct u as [[]|e]; simplify_eq.
    + destruct Hu as (_ & [[_ ->]|(t & _ & _ & _ & Hrows)]); [by left|].
      right. right. by exists i.
    + by left.
  - destruct (insert_attendance (mark_rq env) db data) as [u db1] eqn:Hi.
    apply insert_attendance_inv in Hi as (_ & _ & _ & _ & Hi).
    destruct u as [row|e]; simplify_eq.
    + destruct Hi as (_ & -> & Hrows & _). right. by left.
    + destruct Hi as [-> _]. by left.
Qed.

(** An UPDATE by key is accepted when its request arrives, one row has
    the key, the member exists and no other row has the pair. *)
Lemma update_attendance_accepts rq db i d t :
  delivered rq = true ->
  filter (fun r => ar_id r = i) (attendance db) = [t] ->
  member_exists db (ad_committee_member_id d) = true ->
  ad_key d ∉ map ar_key (filter (fun r => ar_id r <> i) (attendance db)) ->
  update_attendance rq db i d
  = (Ok (),
     set_attendance db
       (map (fun r => if decide (ar_id r = i)
                      then apply_attendance_data (NOW rq) d r else r)
            (attendance db))
       (attendance_seq db)).
Proof.
  intros Hd Ht Hm Hk. unfold update_attendance. rewrite Hd, Ht, Hm. simpl.
  rewrite bool_decide_eq_false_2 by done. done.
Qed.

Lemma filter_length_bool (ms : list MemberAttendance) (s : AttendanceStatus) :
  length (List.filter (fun m => bool_decide (status_value (ma_status m)
                                              = status_value s)) ms)
  = length (filter (fun m => ma_status m = s) ms).
Proof.
  induction ms as [|m ms IH]; [done|]. simpl. rewrite filter_cons.
  destruct (decide (ma_status m = s)) as [->|Hne].
  - rewrite bool_decide_eq_true_2 by done. simpl. by rewrite IH.
  - rewrite bool_decide_eq_false_2; [done|].
    intros Heq. apply Hne. by destruct (ma_status m), s.
Qed.

Lemma matches_no_filter status m :
  matches "" status "all" m
  = (bool_decide (status = "all"%string)
     || bool_decide (status_value (ma_status m) = status)).
Proof.
  unfold matches. rewrite toLowerCase_nil, !includes_nil. simpl.
  by rewrite andb_true_r.
Qed.

Lemma matches_status search status dept m :
  matches search status dept m
  = matches search "all" dept m
    && (bool_decide (status = "all"%string)
        || bool_decide (status_value (ma_status m) = status)).
Proof.
  unfold matches. simpl.
  destruct (includes _ _ || includes _ _),
           (bool_decide (status = "all"%string)
            || bool_decide (status_value (ma_status m) = status)),
           (bool_decide (dept = "all"%string)
            || bool_decide (department_value (ma_department m) = dept)); done.
Qed.

(** ** Failed fetches *)

(** A fetch one of whose two requests fails keeps the roster and the
    selected date; in the background it changes nothing at all, in the
    foreground it reports the error and ends the loading state. *)
Theorem failed_fetch_keeps_roster st db date showLoading rq1 rq2 :
  delivered rq1 && delivered rq2 = false ->
  let st' := fetchMembers st db date showLoading rq1 rq2 in
  members st' = members st /\ selectedDate st' = selectedDate st /\
  if showLoading
  then isLoading st' = false /\ error st' = Some "Failed to load members"%string
  else st' = st.
Proof.
  intros Hd. unfold fetchMembers, select_committee_members, select_attendance.
  destruct st as [ms d ld er].
  destruct (delivered rq1), (delivered rq2), showLoading; done.
Qed.

Lemma failed_fetch_keeps_roster_witness :
  members (fetchMembers Samples.st1 Samples.db1 None false
             Samples.rq_ok Samples.rq_lost)
  = members Samples.st1.
Proof.
  apply (failed_fetch_keeps_roster Samples.st1 Samples.db1 None false
           Samples.rq_ok Samples.rq_lost).
  reflexivity.
Defined.

(** ** What the page writes *)

(** The page only ever confirms attendances: whatever is confirmed,
    whichever dates are picked and however the roster is refreshed, the
    records stay records of members who checked in, and no record is
    removed. *)
Theorem attendance_page_only_writes_attend gs : forall s,
  Forall checked_in (attendance (fst s)) ->
  Forall checked_in (attendance (fst (gestures s gs))) /\
  (length (attendance (fst s))
   <= length (attendance (fst (gestures s gs))))%nat.
Proof.
  induction gs as [|g gs IH]; intros [db st] Hall; [by split|].
  unfold gestures. cbn [foldl]. fold (gestures (gesture (db, st) g) gs).
  assert (Forall checked_in (attendance (fst (gesture (db, st) g))) /\
          (length (attendance db)
           <= length (attendance (fst (gesture (db, st) g))))%nat)
    as [Hall' Hlen'].
  { destruct g as [env user sel photo loc| |]; [|by split..].
    simpl in *. unfold AttendancePage.confirmAttendance.
    destruct sel as [m|]; [|by split].
    destruct (markAttendance _ _ _ _ _ _ _) as [[r db'] st'] eqn:Hm.
    simpl.
    apply markAttendance_rows in Hm as [Hr|[Hr|(i & Hr)]]; rewrite Hr.
    - by split.
    - split; [|rewrite length_app; lia].
      apply Forall_app. split; [done|]. apply Forall_singleton.
      split; [done|]. by eexists.
    - split; [|by rewrite length_map].
      apply Forall_fmap. eapply Forall_impl; [exact Hall|].
      intros r0 Hr0. simpl. destruct (decide (ar_id r0 = i)); [|done].
      split; [done|]. by eexists. }
  destruct (IH _ Hall') as [H1 H2]. split; [done|].
  etrans; [exact Hlen'|exact H2].
Qed.

Lemma attendance_page_only_writes_attend_witness :
  let s := gestures (Samples.db0, Samples.st0)
             [Confirm Samples.env_ok (Some Samples.admin_user)
                      (Samples.st0.(members) !! 0%nat)
                      (Some Samples.inline_photo) (Some Samples.kuala_lumpur);
              AutoRefresh Samples.rq_ok Samples.rq_ok;
              SelectDate "2025-01-11" Samples.rq_ok Samples.rq_ok] in
  length (attendance (fst s)) = 1%nat /\
  Forall checked_in (attendance (fst s)).
Proof.
  split; [vm_compute; reflexivity|].
  apply (attendance_page_only_writes_attend _ (Samples.db0, Samples.st0)).
  apply Forall_nil_2.
Defined.

(** ** A roster fetched for another date *)

Lemma setSelectedDate_failed st db date rq1 rq2 :
  date <> selectedDate st -> delivered rq1 && delivered rq2 = false ->
  setSelectedDate st db date rq1 rq2
  = mkState (members st) date false (Some "Failed to load members"%string).
Proof.
  intros Hne Hd. unfold setSelectedDate. rewrite decide_False by done.
  unfold fetchMembers, select_committee_members, select_attendance,
    handleSetSelectedDate. simpl.
  destruct (delivered rq1), (delivered rq2); done.
Qed.

(** [markAttendance] decides between INSERT and UPDATE on the roster it
    holds. When the fetch that follows a change of date fails, the roster
    is still the one of the date selected before; marking a member who
    has a record on that date then rewrites that record, which moves to
    the newly selected date: the member is left without a record on the
    date selected before, and no row is added. *)
Theorem mark_on_stale_roster_moves_record st db env date rq1 rq2 m s p l old :
  att_ok db -> coherent db st ->
  date <> selectedDate st ->
  delivered rq1 && delivered rq2 = false ->
  m ∈ map ma_member_id (members st) ->
  record_for db m (selectedDate st) = Some old ->
  record_for db m date = None ->
  member_exists db m = true ->
  delivered (mark_rq env) = true ->
  let st1 := setSelectedDate st db date rq1 rq2 in
  selectedDate st1 = date /\ members st1 = members st /\
  exists db' st',
    markAttendance st1 db env m s p l = (Ok (), db', st') /\
    record_for db' m (selectedDate st) = None /\
    (exists row, record_for db' m date = Some row /\
                 ar_id row = ar_id old /\ ar_status row = s) /\
    length (attendance db') = length (attendance db).
Proof.
  intros Hok Hco Hne Hfail Hm Hold Hnew Hex Hd st1.
  unfold st1. rewrite setSelectedDate_failed by done. clear st1.
  split; [done|]. split; [done|].
  pose proof Hok as (Hkeys & Hids & _ & _).
  (* the roster entry of the member, and the key it holds *)
  destruct (find (fun e => bool_decide (ma_member_id e = m)) (members st))
    as [e|] eqn:He.
  2:{ exfalso. apply list_elem_of_fmap in Hm as (e & -> & Hin).
      pose proof (proj1 (find_None_iff _ _) He e Hin) as Hf.
      by apply bool_decide_eq_false in Hf. }
  pose proof (find_Some_elem _ _ _ He) as [Hin Hem].
  apply bool_decide_eq_true in Hem.
  pose proof (proj1 (coherent_spec _ _) Hco e Hin) as Hid.
  rewrite Hem, Hold in Hid. simpl in Hid.
  apply record_for_Some in Hold as [Hold Hkold].
  apply record_for_None in Hnew.
  set (st1 := mkState (members st) date false
                      (Some "Failed to load members"%string)).
  set (data := attendanceData st1 env m s p l).
  assert (ad_key data = (m, date)) as Hkey by done.
  assert (ad_key data
          ∉ map ar_key (filter (fun r => ar_id r <> ar_id old) (attendance db)))
    as Hothers.
  { rewrite Hkey. intros Hk. apply Hnew.
    apply list_elem_of_fmap in Hk as (r & Hr & Hk).
    apply list_elem_of_filter in Hk as [_ Hk].
    apply list_elem_of_fmap. eauto. }
  pose proof (update_attendance_accepts (mark_rq env) db (ar_id old) data old
                Hd (filter_id_single db old Hids Hold) Hex Hothers) as Hupd.
  eexists _, _. split.
  { unfold markAttendance. cbn [members st1]. rewrite He, Hid.
    fold st1. fold data. rewrite Hupd. reflexivity. }
  set (f := fun r => if decide (ar_id r = ar_id old)
                     then apply_attendance_data (NOW (mark_rq env)) data r
                     else r).
  cbn [attendance set_attendance].
  assert (f old = apply_attendance_data (NOW (mark_rq env)) data old) as Hfold
    by (unfold f; by rewrite decide_True).
  split; [|split].
  - apply record_for_None. cbn [attendance set_attendance].
    intros Hk. apply list_elem_of_fmap in Hk as (r' & Hk & Hr').
    apply list_elem_of_fmap in Hr' as (r & -> & Hr).
    unfold f in Hk. destruct (decide (ar_id r = ar_id old)) as [Hi|Hi].
    + change (ar_key (apply_attendance_data (NOW (mark_rq env)) data r))
        with (ad_key data) in Hk.
      rewrite Hkey in Hk. apply Hne. congruence.
    + apply Hi. f_equal. apply (NoDup_key_eq (attendance db)); try done.
      by rewrite Hkold.
  - exists (f old). split; [|by rewrite Hfold].
    apply record_for_unique; cbn [attendance set_attendance].
    + apply (update_keeps_pairs_distinct _ _ (m, date)).
      * done.
      * done.
      * by rewrite (filter_id_single db old Hids Hold).
      * by rewrite <- Hkey.
    + apply list_elem_of_fmap. eauto.
    + by rewrite Hfold.
  - by rewrite length_map.
Qed.

Lemma mark_on_stale_roster_moves_record_witness :
  let st1 := setSelectedDate Samples.st1 Samples.db1 "2025-01-11"
               Samples.rq_lost Samples.rq_lost in
  (ar_id <$> record_for Samples.db1 1 "2025-01-10") = Some 1 /\
  exists db' st',
    markAttendance st1 Samples.db1 Samples.env_ok 1 attend None None
    = (Ok (), db', st') /\
    record_for db' 1 "2025-01-10" = None /\
    (ar_id <$> record_for db' 1 "2025-01-11") = Some 1.
Proof.
  split; [vm_compute; reflexivity|].
  destruct (mark_on_stale_roster_moves_record
              Samples.st1 Samples.db1 Samples.env_ok "2025-01-11"
              Samples.rq_lost Samples.rq_lost 1 attend None None Samples.row1)
    as (_ & _ & db' & st' & Hcall & Hgone & (row & Hrow & Hid & _) & _).
  - by_compute.
  - by_compute.
  - vm_compute. discriminate.
  - reflexivity.
  - by_compute.
  - vm_compute. reflexivity.
  - vm_compute. reflexivity.
  - reflexivity.
  - reflexivity.
  - exists db', st'. split; [exact Hcall|]. split; [exact Hgone|].
    rewrite Hrow. simpl. by rewrite Hid.
Defined.

(** ** The roster after a mark *)

Lemma or_null_idem {A} `{Truthy A} (x : option A) :
  or_null (or_null x) = or_null x.
Proof.
  unfold or_null. destruct x as [v|]; [|done].
  destruct (truthy v) eqn:Hv; [by rewrite Hv|done].
Qed.

Lemma fetchMembers_selected st db showLoading rq1 rq2 :
  delivered rq1 = true -> delivered rq2 = true ->
  members (fetchMembers st db (Some (selectedDate st)) showLoading rq1 rq2)
  = map (combine (selectedDate st)
           (attendanceMap
              (filter (fun r => ar_attendance_date r = selectedDate st)
                      (attendance db))))
        (merge_sort cm_le (committee_members db)).
Proof.
  intros H1 H2. rewrite fetchMembers_delivered by done.
  assert (default (selectedDate st) (or_null (Some (selectedDate st)))
          = selectedDate st) as ->; [|done].
  unfold or_null. by destruct (truthy (selectedDate st)).
Qed.

(** The roster [markAttendance] leaves after an accepted write, without
    asking the store again, is the roster the next fetch shows: the same
    members in the same order, each with the same record, date, status
    and address. *)
Theorem optimistic_roster_is_what_a_fetch_shows
    st0 db sl rq1 rq2 env m s p l db' st' sl' rq3 rq4 :
  att_ok db ->
  delivered rq1 = true -> delivered rq2 = true ->
  let st := fetchMembers st0 db (Some (selectedDate st0)) sl rq1 rq2 in
  markAttendance st db env m s p l = (Ok (), db', st') ->
  delivered rq3 = true -> delivered rq4 = true ->
  map entry_summary
      (members (fetchMembers st' db' (Some (selectedDate st')) sl' rq3 rq4))
  = map entry_summary (members st').
Proof.
  intros Hok H1 H2 st Hcall H3 H4.
  pose proof (fetchMembers_delivered_coherent st0 db sl rq1 rq2 Hok H1 H2)
    as Hco. fold st in Hco.
  assert (selectedDate st = selectedDate st0) as Hd
    by apply fetchMembers_selectedDate.
  pose proof (markAttendance_att_ok _ _ _ _ _ _ _ _ _ _ Hok Hco Hcall) as Hok'.
  pose proof (markAttendance_lookup _ _ _ _ _ _ _ _ _ _ Hok Hco Hcall) as Hlk.
  pose proof (markAttendance_selectedDate _ _ _ _ _ _ _ _ _ _ Hcall) as Hd'.
  pose proof (markAttendance_spec _ _ _ _ _ _ _ _ _ _ Hok Hco Hcall)
    as (_ & _ & _ & Hcm & Hspec).
  cbv zeta in Hlk, Hspec.
  pose proof (fetchMembers_selected st0 db sl rq1 rq2 H1 H2) as Hst.
  fold st in Hst.
  rewrite fetchMembers_selected by done.
  rewrite Hd', Hd, Hcm. rewrite Hd in Hlk, Hspec.
  set (d := selectedDate st0) in *.
  assert (exists newId,
            members st' = map (mark_local env m newId s p l) (members st) /\
            match record_for db m d with
            | None => newId = Some (attendance_seq db)
            | Some _ => newId = None
            end) as (newId & Hst' & HnewId).
  { destruct Hspec as (_ & _ & Hspec).
    destruct (record_for db m d) as [old|].
    - destruct Hspec as (_ & _ & ->). by exists None.
    - destruct Hspec as (_ & _ & _ & ->). by eexists. }
  rewrite Hst', Hst, !map_map. apply AttendanceFacts.map_same_on.
  intros c Hc. unfold combine.
  rewrite (attendanceMap_record db' d (cm_id c)) by apply Hok'.
  rewrite (attendanceMap_record db d (cm_id c)) by apply Hok.
  rewrite Hlk. unfold mark_local. cbn [ma_member_id].
  destruct (decide (cm_id c = m)) as [->|Hne].
  - rewrite decide_True by done. unfold entry_summary. simpl.
    destruct (record_for db m d) as [old|] eqn:Hold; subst newId;
      cbn [ar_id ar_status ar_address apply_attendance_data new_attendance_row
           attendanceData ad_status ad_address ma_attendance_id];
      rewrite or_null_idem.
    + done.
    + rewrite or_null_id by apply Hok. done.
  - rewrite decide_False by congruence. done.
Qed.

Lemma optimistic_roster_is_what_a_fetch_shows_witness :
  map entry_summary
      (members (fetchMembers Samples.st1 Samples.db1 (Some Samples.today)
                             false Samples.rq_ok Samples.rq_ok))
  = map entry_summary (members Samples.st1).
Proof.
  apply (optimistic_roster_is_what_a_fetch_shows
           (mkState [] Samples.today true None) Samples.db0 true
           Samples.rq_ok Samples.rq_ok Samples.env_ok 1 attend
           (Some Samples.inline_photo) (Some Samples.kuala_lumpur)
           Samples.db1 Samples.st1 false Samples.rq_ok Samples.rq_ok).
  - by_compute.
  - reflexivity.
  - reflexivity.
  - vm_compute. reflexivity.
  - reflexivity.
  - reflexivity.
Defined.

(** ** The list *)

(** Without search term and filters the list shows the whole roster; for
    any search term and department filter the members shown under
    "attend" and under "absent" are, together, the members shown under
    "all"; and the numbers of members shown under "attend" and "absent"
    are the numbers the statistics give. *)
Theorem status_filter_partitions_roster ms search dept :
  filteredMembers ms "" "all" "all" = ms /\
  filteredMembers ms search "all" dept
  ≡ₚ filteredMembers ms search "attend" dept
     ++ filteredMembers ms search "absent" dept /\
  length (filteredMembers ms "" "attend" "all") = stats_attend (stats ms) /\
  length (filteredMembers ms "" "absent" "all") = stats_absent (stats ms).
Proof.
  split; [|split; [|split]].
  - unfold filteredMembers. induction ms as [|m ms IH]; [done|].
    simpl. rewrite matches_no_filter. simpl. by rewrite IH.
  - unfold filteredMembers. induction ms as [|m ms IH]; [done|].
    cbn [List.filter].
    rewrite (matches_status search "attend"), (matches_status search "absent").
    destruct (matches search "all" dept m); [|exact IH].
    destruct (ma_status m); simpl.
    + by apply Permutation_skip.
    + rewrite IH. apply Permutation_middle.
  - unfold filteredMembers, stats. simpl.
    rewrite <- (filter_length_bool ms attend).
    f_equal. apply List.filter_ext. intros m. by rewrite matches_no_filter.
  - unfold filteredMembers, stats. simpl.
    rewrite <- (filter_length_bool ms absent).
    f_equal. apply List.filter_ext. intros m. by rewrite matches_no_filter.
Qed.

(** ** The detected location *)

(** The address kept for a detected position is never empty, so that a
    mark made with the position writes it to the record; when the
    geocoder gives a name, the address is the beginning of that name, and
    the whole name when it has at most three parts. *)
Theorem detected_address_is_kept lat lon acc display_name now :
  let loc := detectedLocation lat lon acc display_name now in
  (exists a, loc_address loc = Some a /\ a <> ""%string /\
     forall st env m s p,
       ad_address (attendanceData st env m s p
                     (Some (mkLocationData (loc_latitude loc)
                              (loc_longitude loc) (loc_accuracy loc)
                              (loc_address loc) None)))
       = Some a) /\
  (forall name, or_null display_name = Some name ->
     String.prefix (shortAddress display_name) name = true /\
     ((length (split ", " name) <= 3)%nat ->
      shortAddress display_name = name)).
Proof.
  intros loc.
  assert (forall l : list string, slice 0 3 l = take 3 l) as Hslice by done.
  assert (shortAddress display_name <> ""%string) as Hne.
  { unfold shortAddress.
    destruct (or_null display_name) as [name|] eqn:Hname; [|done].
    assert (name <> ""%string) as Hn.
    { unfold or_null in Hname. destruct display_name as [[|c d]|]; try done.
      simpl in Hname. by injection Hname as <-. }
    rewrite Hslice. intros Hj.
    destruct (split_cons ", " name) as (q & qs & [Hs|[? _]]); [|done].
    pose proof (join_split ", " name) as Hjs.
    rewrite Hs in Hj, Hjs.
    apply join_nil_inv in Hj as [Hj|Hj]; [discriminate Hj| |done].
    destruct qs as [|q' qs]; [|discriminate Hj].
    injection Hj as ->. apply Hn. by rewrite <- Hjs. }
  split.
  - exists (shortAddress display_name). split; [done|]. split; [done|].
    intros st env m s p. simpl. unfold or_null. simpl.
    by destruct (shortAddress display_name).
  - intros name Hname. unfold shortAddress. rewrite Hname, Hslice. split.
    + rewrite <- (join_split ", " name) at 2. apply join_take_prefix.
    + intros Hlen. rewrite take_ge by done. apply join_split.
Qed.

Lemma detected_address_is_kept_witness :
  shortAddress (Some "Dewan Tunku Canselor, Lingkungan Budi, Universiti Malaya, Kuala Lumpur, 50603, Malaysia"%string)
  = "Dewan Tunku Canselor, Lingkungan Budi, Universiti Malaya"%string /\
  String.prefix
    (shortAddress (Some "Dewan Tunku Canselor, Lingkungan Budi, Universiti Malaya, Kuala Lumpur, 50603, Malaysia"%string))
    "Dewan Tunku Canselor, Lingkungan Budi, Universiti Malaya, Kuala Lumpur, 50603, Malaysia"
  = true /\
  shortAddress (Some "Kuala Lumpur, Malaysia"%string)
  = "Kuala Lumpur, Malaysia"%string.
Proof.
  split; [vm_compute; reflexivity|]. split.
  - apply (proj2 (detected_address_is_kept (of_Z 3) (of_Z 101) (of_Z 12)
                    (Some "Dewan Tunku Canselor, Lingkungan Budi, Universiti Malaya, Kuala Lumpur, 50603, Malaysia"%string)
                    "2025-01-10T01:00:00.000Z")).
    reflexivity.
  - apply (proj2 (detected_address_is_kept (of_Z 3) (of_Z 101) (of_Z 12)
                    (Some "Kuala Lumpur, Malaysia"%string)
                    "2025-01-10T01:00:00.000Z")).
    + reflexivity.
    + vm_compute. lia.
Defined.

End AttendanceListFacts.

(* ===================================================================== *)
(** * Properties of the teams page *)
(* ===================================================================== *)

Module TeamsPageFacts.

Import Teams TeamStore TeamsPage StoreFacts.

(** ** Keys *)

Lemma NoDup_fmap_filter {A B} (f : A -> B) (P : A -> Prop)
    `{forall x, Decision (P x)} (l : list A) :
  NoDup (map f l) -> NoDup (map f (filter P l)).
Proof.
  intros Hnd. eapply sublist_NoDup; [exact Hnd|].
  apply fmap_sublist, sublist_filter.
Qed.

Lemma NoDup_fmap_eq {A B} (f : A -> B) (l : list A) x y :
  NoDup (map f l) -> x ∈ l -> y ∈ l -> f x = f y -> x = y.
Proof.
  induction l as [|a l IH]; intros Hnd Hx Hy Hf; [inversion Hx|].
  simpl in Hnd. apply NoDup_cons in Hnd as [Ha Hnd].
  apply elem_of_cons in Hx as [->|Hx], Hy as [->|Hy]; auto.
  - exfalso. apply Ha. rewrite Hf. apply list_elem_of_fmap. eauto.
  - exfalso. apply Ha. rewrite <- Hf. apply list_elem_of_fmap. eauto.
Qed.

Lemma elem_group_ids db gid i :
  i ∈ group_ids db gid <->
  exists r, r ∈ participants db /\ p_id r = i /\ p_group_id r = Some gid.
Proof.
  unfold group_ids. rewrite list_elem_of_fmap. split.
  - intros (r & -> & Hr). apply list_elem_of_filter in Hr as [? ?]. eauto.
  - intros (r & Hr & <- & Hg). exists r. split; [done|].
    by apply list_elem_of_filter.
Qed.

Lemma NoDup_group_ids db gid :
  NoDup (map p_id (participants db)) -> NoDup (group_ids db gid).
Proof. apply NoDup_fmap_filter. Qed.

(** ** The page and the store *)

Lemma shows_members db st t :
  shows db st -> t ∈ teams st ->
  map tp_id (t_members t) ≡ₚ group_ids db (t_id t).
Proof.
  intros [_ H] Ht. rewrite Forall_forall in H. by apply H.
Qed.

Lemma shows_team_ids db st :
  shows db st -> map t_id (teams st) ≡ₚ map g_id (groups db).
Proof.
  intros [H _].
  apply (Permutation_map fst) in H. by rewrite !map_map in H.
Qed.

Lemma shows_NoDup_teams db st :
  teams_ok db -> shows db st -> NoDup (map t_id (teams st)).
Proof.
  intros (Hg & _) Hs. by rewrite (shows_team_ids _ _ Hs).
Qed.

Lemma shows_in_sync db st : shows db st -> in_sync db st.
Proof.
  intros [H1 H2]. split; [done|].
  eapply Forall_impl; [exact H2|]. intros t Ht. simpl in Ht.
  apply Permutation_length in Ht. unfold group_ids in Ht.
  by rewrite !length_map in Ht.
Qed.

(** A member of a team the page shows is a participant the store holds
    for the group. *)
Lemma shows_member_row db st t m :
  shows db st -> t ∈ teams st -> m ∈ t_members t ->
  exists r, r ∈ participants db /\ p_id r = tp_id m /\
            p_group_id r = Some (t_id t).
Proof.
  intros Hs Ht Hm. apply elem_group_ids.
  rewrite <- (shows_members _ _ _ Hs Ht). apply list_elem_of_fmap. eauto.
Qed.

(** Member lists without repetition that hold the keys the store holds
    make the page show the store. *)
Lemma shows_intro db st :
  map (fun t => (t_id t, t_name t)) (teams st)
  ≡ₚ map (fun g => (g_id g, g_name g)) (groups db) ->
  NoDup (map p_id (participants db)) ->
  (forall t, t ∈ teams st ->
     NoDup (map tp_id (t_members t)) /\
     forall i, i ∈ map tp_id (t_members t) <-> i ∈ group_ids db (t_id t)) ->
  shows db st.
Proof.
  intros H1 Hnd H2. split; [done|]. apply Forall_forall. intros t Ht.
  destruct (H2 t Ht) as [Hn Hi].
  apply NoDup_Permutation; [done|by apply NoDup_group_ids|done].
Qed.

Lemma shows_NoDup_members db st t :
  teams_ok db -> shows db st -> t ∈ teams st ->
  NoDup (map tp_id (t_members t)).
Proof.
  intros (_ & Hp & _) Hs Ht. rewrite (shows_members _ _ _ Hs Ht).
  by apply NoDup_group_ids.
Qed.

(** ** The fetch *)

Lemma push_member_ids gid p ts :
  NoDup (map t_id ts) ->
  Forall2 (fun t t' =>
             t_id t' = t_id t /\ t_name t' = t_name t /\
             map tp_id (t_members t')
             = map tp_id (t_members t)
               ++ if decide (t_id t = gid) then [tp_id p] else [])
          ts (push_member gid p ts).
Proof.
  induction ts as [|a ts IH]; intros Hnd; [constructor|].
  simpl in Hnd. apply NoDup_cons in Hnd as [Ha Hnd]. simpl.
  destruct (decide (t_id a = gid)) as [Heq|Hne].
  - constructor.
    + simpl. rewrite map_app. by rewrite decide_True.
    + apply Forall_Forall2_diag, Forall_forall. intros t Ht.
      rewrite decide_False; [by rewrite app_nil_r|].
      intros Htid. apply Ha. rewrite Heq, <- Htid.
      apply list_elem_of_fmap. eauto.
  - constructor; [|by apply IH].
    rewrite decide_False by done. by rewrite app_nil_r.
Qed.

Lemma push_rows_ids (ps : list ParticipantRow) : forall ts,
  NoDup (map t_id ts) -> 0 ∉ map t_id ts ->
  Forall2 (fun t t' =>
             t_id t' = t_id t /\ t_name t' = t_name t /\
             map tp_id (t_members t')
             = map tp_id (t_members t)
               ++ map p_id (filter (fun p => p_group_id p = Some (t_id t)) ps))
          ts
          (foldl (fun ts r =>
                    match or_null (p_group_id r) with
                    | Some gid => push_member gid (participant_of_row r) ts
                    | None => ts
                    end) ts ps).
Proof.
  induction ps as [|p ps IH]; intros ts Hnd H0.
  { apply Forall_Forall2_diag, Forall_forall. intros t _. simpl.
    by rewrite app_nil_r. }
  simpl foldl.
  set (ts1 := match or_null (p_group_id p) with
              | Some gid => push_member gid (participant_of_row p) ts
              | None => ts
              end).
  assert (Forall2 (fun t t' =>
                     t_id t' = t_id t /\ t_name t' = t_name t /\
                     map tp_id (t_members t')
                     = map tp_id (t_members t)
                       ++ if decide (p_group_id p = Some (t_id t))
                          then [p_id p] else []) ts ts1) as Hstep.
  { unfold ts1, or_null. destruct (p_group_id p) as [gid|] eqn:Hgid.
    - unfold truthy, truthy_Z. destruct (Z.eqb_spec gid 0) as [->|Hnz]; simpl.
      + apply Forall_Forall2_diag, Forall_forall. intros t Ht.
        rewrite decide_False; [by rewrite app_nil_r|].
        intros [= Hid]. apply H0. rewrite Hid.
        apply list_elem_of_fmap. eauto.
      + eapply Forall2_impl; [by apply push_member_ids|].
        intros t t' (? & ? & Hids). repeat split; try done.
        rewrite Hids. destruct (decide (t_id t = gid)) as [->|Hne].
        * by rewrite decide_True.
        * rewrite decide_False; [done|]. by intros [= ?].
    - apply Forall_Forall2_diag, Forall_forall. intros t Ht.
      rewrite decide_False by done. by rewrite app_nil_r. }
  assert (map t_id ts1 = map t_id ts) as Hids.
  { clear -Hstep. induction Hstep as [|t t' ts ts' (? & _) _ IH]; [done|].
    simpl. by f_equal. }
  eapply Forall2_trans; [|exact Hstep|apply IH; by rewrite Hids].
  intros t t1 t2 (Hi1 & Hn1 & Hl1) (Hi2 & Hn2 & Hl2).
  split; [congruence|]. split; [congruence|].
  rewrite Hl2, Hl1, Hi1, filter_cons, <- app_assoc. f_equal.
  by destruct (decide (p_group_id p = Some (t_id t))).
Qed.

Lemma fetchTeamsAndParticipants_shows st db showLoading rq1 rq2 :
  teams_ok db ->
  delivered rq1 = true -> delivered rq2 = true ->
  let st' := fetchTeamsAndParticipants st db showLoading rq1 rq2 in
  shows db st' /\
  totalParticipants st' = Z.of_nat (length (participants db)) /\
  map t_id (teams st') = map g_id (merge_sort g_le (groups db)).
Proof.
  intros (Hnd & _ & _ & Hpos & _ & _) H1 H2.
  assert (0 ∉ map g_id (groups db)) as H0.
  { intros Hin. apply list_elem_of_fmap in Hin as (g & Hg0 & Hg).
    rewrite Forall_forall in Hpos. apply Hpos in Hg. lia. }
  unfold fetchTeamsAndParticipants, select_groups, select_participants.
  rewrite H1, H2. cbn zeta. unfold shows. cbn [teams totalParticipants].
  unfold teamsMap.
  set (gs := merge_sort g_le (groups db)).
  set (ps := merge_sort p_le (participants db)).
  assert (gs ≡ₚ groups db) as Hgs by apply merge_sort_Permutation.
  assert (ps ≡ₚ participants db) as Hps by apply merge_sort_Permutation.
  pose proof (push_rows_ids ps
                (map (fun g => mkTeam (g_id g) (g_name g) []) gs)) as Hsz.
  rewrite map_map in Hsz. cbn [t_id] in Hsz.
  specialize (Hsz ltac:(by rewrite Hgs) ltac:(by rewrite Hgs)).
  apply Forall2_fmap_l in Hsz.
  split; [split|split].
  - etrans; [|by apply Permutation_map, Hgs].
    apply eq_subrelation; [apply _|].
    clear -Hsz. induction Hsz as [|g t gs ts (Hi & Hn & _) _ IH]; [done|].
    simpl in *. by rewrite IH, Hi, Hn.
  - apply Forall_forall. intros t Ht.
    apply list_elem_of_lookup_1 in Ht as [i Ht].
    destruct (Forall2_lookup_r _ _ _ _ _ Hsz Ht) as (g & _ & Hi & _ & Hids).
    simpl in Hi, Hids. rewrite Hids, Hi. unfold group_ids.
    by rewrite Hps.
  - by rewrite Hps.
  - clear -Hsz. induction Hsz as [|g t gs ts (Hi & _) _ IH]; [done|].
    simpl in *. by rewrite IH, Hi.
Qed.

Lemma teams_state_shows : shows Scenarios.db_teams Scenarios.teams_state.
Proof.
  apply (fetchTeamsAndParticipants_shows (mkState [] 0 "" false None None)
           Scenarios.db_teams true Samples.rq_ok Samples.rq_ok).
  - by_compute.
  - reflexivity.
  - reflexivity.
Qed.

(** A fetch whose two reads arrive makes the page show the store: the
    teams are the groups, in the order of their keys, each with exactly
    the participants the store holds for it, and the total is the number
    of participants. *)
Theorem fetch_shows_store st db showLoading rq1 rq2 :
  teams_ok db ->
  delivered rq1 = true -> delivered rq2 = true ->
  let st' := fetchTeamsAndParticipants st db showLoading rq1 rq2 in
  shows db st' /\
  totalParticipants st' = Z.of_nat (length (participants db)) /\
  map t_id (teams st') = map g_id (merge_sort g_le (groups db)).
Proof. apply fetchTeamsAndParticipants_shows. Qed.

Lemma fetch_shows_store_witness :
  shows Scenarios.db_teams Scenarios.teams_state /\
  map (fun t => (t_name t, map tp_name (t_members t)))
      (teams Scenarios.teams_state)
  = [("Team 1", ["Aina"; "Badrul"]); ("Team 2", ["Chong"]);
     ("Team 3", ["Devi"])]%string.
Proof.
  split; [|vm_compute; reflexivity].
  apply (fetch_shows_store (mkState [] 0 "" false None None)
           Scenarios.db_teams true Samples.rq_ok Samples.rq_ok).
  - by_compute.
  - reflexivity.
  - reflexivity.
Defined.

(** ** Deleting a participant *)

Lemma elem_without (pid : Z) (ms : list Participant) i :
  i ∈ map tp_id (filter (fun m => tp_id m <> pid) ms) <->
  i <> pid /\ i ∈ map tp_id ms.
Proof.
  rewrite !list_elem_of_fmap. split.
  - intros (m & -> & Hm). apply list_elem_of_filter in Hm as [? ?]. eauto.
  - intros (Hne & m & -> & Hm). exists m. split; [done|].
    by apply list_elem_of_filter.
Qed.

Lemma filter_one_less {A B} `{EqDecision B} (f : A -> B) (l : list A) x :
  NoDup (map f l) -> x ∈ l ->
  (length (filter (fun y => f y <> f x) l) + 1 = length l)%nat.
Proof.
  induction l as [|a l IH]; intros Hnd Hx; [inversion Hx|].
  simpl in Hnd. apply NoDup_cons in Hnd as [Ha Hnd]. rewrite filter_cons.
  apply elem_of_cons in Hx as [->|Hx].
  - rewrite decide_False by (intros H; by apply H). simpl.
    replace (filter (fun y => f y <> f a) l) with l; [lia|].
    symmetry. clear -Ha. induction l as [|b l IH]; [done|].
    rewrite filter_cons_True.
    + f_equal. apply IH. intros Hin. apply Ha. by right.
    + intros Heq. apply Ha. rewrite <- Heq. left.
  - rewrite decide_True.
    + simpl. rewrite <- (IH Hnd Hx). lia.
    + intros Heq. apply Ha. rewrite Heq. apply list_elem_of_fmap. eauto.
Qed.

Lemma fmap_same_keys (g : Team -> Team) (ts : list Team) :
  (forall t, t_id (g t) = t_id t /\ t_name (g t) = t_name t) ->
  map (fun t => (t_id t, t_name t)) (map g ts)
  = map (fun t => (t_id t, t_name t)) ts.
Proof.
  intros Hg. rewrite map_map. apply map_ext. intros t.
  by destruct (Hg t) as [-> ->].
Qed.

(** The row of a key the page shows in a team names that team, and no
    other. *)
Lemma shows_member_group db st t m r :
  teams_ok db -> shows db st -> t ∈ teams st -> m ∈ t_members t ->
  r ∈ participants db -> p_id r = tp_id m ->
  p_group_id r = Some (t_id t).
Proof.
  intros (_ & Hp & _) Hs Ht Hm Hr Hid.
  destruct (shows_member_row _ _ _ _ Hs Ht Hm) as (r' & Hr' & Hid' & Hg).
  assert (r = r') as -> by (apply (NoDup_fmap_eq p_id (participants db));
                            [done..|congruence]).
  done.
Qed.

(** [handleDeleteParticipant] deletes the one row of the participant and
    nothing else, and takes the participant off the team on the page, so
    that the page goes on showing the store; the dialog is closed in every
    case. When the request fails, store and teams are as before and the
    error is reported. *)
Theorem delete_participant_removes_one_row p db rq part team :
  teams_ok db -> shows db (state p) ->
  deleteParticipantConfirm p = Some (part, t_id team) ->
  isDeletingParticipant p = false ->
  team ∈ teams (state p) -> part ∈ t_members team ->
  let '(db', p') := handleDeleteParticipant p db rq in
  deleteParticipantConfirm p' = None /\ isDeletingParticipant p' = false /\
  if delivered rq then
    participants db'
    = filter (fun r => p_id r <> tp_id part) (participants db) /\
    (length (participants db') + 1 = length (participants db))%nat /\
    groups db' = groups db /\
    teams_ok db' /\ shows db' (state p') /\
    totalParticipants (state p') = totalParticipants (state p) - 1
  else
    db' = db /\ teams (state p') = teams (state p) /\
    error (state p') = Some "Failed to delete participant"%string.
Proof.
  intros Hok Hs Hconf Hbusy Hteam Hpart.
  unfold handleDeleteParticipant, delete_participant.
  rewrite Hconf, Hbusy. destruct (delivered rq); [|done].
  split; [done|]. split; [done|].
  destruct (shows_member_row _ _ _ _ Hs Hteam Hpart) as (r & Hr & Hid & Hg).
  pose proof Hok as (Hgk & Hpk & Hseq & Hgb & Hpb & Hfk).
  cbn [participants groups set_participants state deleteParticipant_done
       set_teams teams totalParticipants].
  split; [done|]. split.
  { rewrite <- Hid. by apply (filter_one_less p_id). }
  split; [done|]. split; [|split; [|done]].
  - (* the keys *)
    unfold teams_ok.
    cbn [participants groups set_participants groups_seq participants_seq].
    split; [done|]. split; [by apply NoDup_fmap_filter|]. split; [done|].
    split; [done|]. split.
    + apply Forall_forall. intros x Hx.
      apply list_elem_of_filter in Hx as [_ Hx].
      rewrite Forall_forall in Hpb. by apply Hpb.
    + apply Forall_forall. intros x Hx.
      apply list_elem_of_filter in Hx as [_ Hx].
      rewrite Forall_forall in Hfk. by apply Hfk.
  - (* the page *)
    apply shows_intro;
      cbn [participants groups set_participants teams state set_teams
           deleteParticipant_done].
    + rewrite fmap_same_keys; [apply Hs|].
      intros t. by destruct (decide (t_id t = t_id team)).
    + by apply NoDup_fmap_filter.
    + intros t' Ht'. apply list_elem_of_fmap in Ht' as (t & -> & Ht).
      assert (forall i, i ∈ group_ids
                (set_participants db
                   (filter (fun r => p_id r <> tp_id part) (participants db))
                   (participants_seq db)) (t_id t)
              <-> i <> tp_id part /\ i ∈ group_ids db (t_id t)) as Hstore.
      { intros i. rewrite !elem_group_ids. cbn [participants set_participants].
        split.
        - intros (x & Hx & <- & Hxg).
          apply list_elem_of_filter in Hx as [? ?]. eauto.
        - intros (Hne & x & Hx & <- & Hxg). exists x.
          split; [by apply list_elem_of_filter|done]. }
      pose proof (shows_members _ _ _ Hs Ht) as Hperm.
      pose proof (shows_NoDup_members _ _ _ Hok Hs Ht) as Hnd.
      destruct (decide (t_id t = t_id team)) as [Heq|Hne].
      * cbn [t_id t_members without_member]. split.
        -- by apply NoDup_fmap_filter.
        -- intros i. rewrite elem_without, Hstore. by rewrite Hperm.
      * split; [done|]. intros i. rewrite Hstore, Hperm. split; [|by intros [_ ?]].
        intros Hi. split; [|done]. intros ->.
        apply elem_group_ids in Hi as (x & Hx & Hxid & Hxg).
        apply Hne.
        pose proof (shows_member_group _ _ _ _ _ Hok Hs Hteam Hpart Hx Hxid).
        congruence.
Qed.

Lemma delete_participant_removes_one_row_witness :
  let '(db', p') :=
    handleDeleteParticipant Scenarios.page_delete_aina Scenarios.db_teams
                            Samples.rq_ok in
  map p_name (participants db') = ["Badrul"; "Chong"; "Devi"]%string /\
  shows db' (state p').
Proof.
  pose proof (delete_participant_removes_one_row
                Scenarios.page_delete_aina Scenarios.db_teams
                Samples.rq_ok Scenarios.aina Scenarios.team1
                ltac:(by_compute) teams_state_shows eq_refl eq_refl
                ltac:(vm_compute; left) ltac:(left)) as H.
  destruct (handleDeleteParticipant Scenarios.page_delete_aina
              Scenarios.db_teams Samples.rq_ok) as [db' p'].
  change (delivered Samples.rq_ok) with true in H. cbv iota in H.
  destruct H as (_ & _ & Hrows & _ & _ & _ & Hshows & _).
  split; [|exact Hshows].
  rewrite Hrows. vm_compute. reflexivity.
Defined.

(** ** Deleting a team *)

Lemma set_null_nothing (ps : list ParticipantRow) gid :
  map (fun p => if decide (p_group_id p = Some gid)
                then set_group_id p None else p)
      (filter (fun p => p_group_id p <> Some gid) ps)
  = filter (fun p => p_group_id p <> Some gid) ps.
Proof.
  rewrite <- (map_id (filter _ ps)) at 2. apply AttendanceFacts.map_same_on.
  intros x Hx. apply list_elem_of_filter in Hx as [Hne _].
  by rewrite decide_False.
Qed.

Lemma filter_keys_Permutation (ts : list Team) (gs : list Group) gid :
  map (fun t => (t_id t, t_name t)) ts ≡ₚ map (fun g => (g_id g, g_name g)) gs ->
  map (fun t => (t_id t, t_name t)) (filter (fun t => t_id t <> gid) ts)
  ≡ₚ map (fun g => (g_id g, g_name g)) (filter (fun g => g_id g <> gid) gs).
Proof.
  intros H.
  assert (forall (A : Type) (f : A -> Z * string) (l : list A),
            map f (filter (fun x => fst (f x) <> gid) l)
            = filter (fun k => fst k <> gid) (map f l)) as Hcomm.
  { intros A f l. induction l as [|a l IH]; [done|].
    simpl. rewrite !filter_cons.
    destruct (decide (fst (f a) <> gid)); simpl; by rewrite IH. }
  rewrite (Hcomm Team (fun t => (t_id t, t_name t))).
  rewrite (Hcomm Group (fun g => (g_id g, g_name g))).
  by rewrite H.
Qed.

(** [handleDeleteTeam] sends two requests. When both arrive, the group is
    gone with every participant that named it, no other row is touched,
    and the page, without the team, goes on showing the store. When only
    the first arrives, the participants of the team are deleted while the
    group stays and the page keeps listing the team with its members.
    When the first fails, nothing is changed. The dialog is closed in
    every case. *)
Theorem delete_team_is_two_requests p db rq1 rq2 team :
  teams_ok db -> shows db (state p) ->
  deleteTeamConfirm p = Some team -> isDeletingTeam p = false ->
  let '(db', p') := handleDeleteTeam p db rq1 rq2 in
  deleteTeamConfirm p' = None /\ isDeletingTeam p' = false /\
  let remaining :=
    filter (fun r => p_group_id r <> Some (t_id team)) (participants db) in
  if delivered rq1 then
    participants db' = remaining /\
    if delivered rq2 then
      groups db' = filter (fun g => g_id g <> t_id team) (groups db) /\
      teams_ok db' /\ shows db' (state p') /\
      totalParticipants (state p')
      = totalParticipants (state p) - Z.of_nat (length (t_members team))
    else
      groups db' = groups db /\ teams (state p') = teams (state p) /\
      error (state p') = Some "Failed to delete team"%string
  else
    db' = db /\ teams (state p') = teams (state p) /\
    error (state p') = Some "Failed to delete team"%string.
Proof.
  intros Hok Hs Hconf Hbusy.
  unfold handleDeleteTeam, delete_participants_of_group, delete_group.
  rewrite Hconf, Hbusy. destruct (delivered rq1); [|done].
  cbn [participants groups set_participants set_groups].
  destruct (delivered rq2); [|done].
  cbn [participants groups set_participants set_groups state deleteTeam_done
       set_teams teams totalParticipants deleteTeamConfirm isDeletingTeam].
  set (remaining := filter (fun r => p_group_id r <> Some (t_id team))
                           (participants db)).
  assert ((if bool_decide (t_id team ∈ map g_id (groups db))
           then map (fun p => if decide (p_group_id p = Some (t_id team))
                              then set_group_id p None else p) remaining
           else remaining) = remaining) as Hrows.
  { case_bool_decide; [apply set_null_nothing|done]. }
  rewrite Hrows.
  split; [done|]. split; [done|]. split; [done|]. split; [done|].
  pose proof Hok as (Hgk & Hpk & Hseq & Hgb & Hpb & Hfk).
  split; [|split; [|done]].
  - unfold teams_ok.
    cbn [participants groups set_participants set_groups groups_seq
         participants_seq].
    split; [by apply NoDup_fmap_filter|].
    split; [by apply NoDup_fmap_filter|]. split; [done|].
    split; [|split].
    + apply Forall_forall. intros x Hx.
      apply list_elem_of_filter in Hx as [_ Hx].
      rewrite Forall_forall in Hgb. by apply Hgb.
    + apply Forall_forall. intros x Hx.
      apply list_elem_of_filter in Hx as [_ Hx].
      rewrite Forall_forall in Hpb. by apply Hpb.
    + apply Forall_forall. intros x Hx.
      apply list_elem_of_filter in Hx as [Hxg Hx].
      rewrite Forall_forall in Hfk. specialize (Hfk x Hx).
      unfold group_exists in *. cbn [groups set_groups set_participants].
      destruct (p_group_id x) as [g|]; [|done].
      apply bool_decide_eq_true in Hfk. apply bool_decide_eq_true.
      apply list_elem_of_fmap in Hfk as (y & -> & Hy).
      apply list_elem_of_fmap. exists y. split; [done|].
      apply list_elem_of_filter. split; [|done]. congruence.
  - split; cbn [participants groups set_participants set_groups teams].
    + apply filter_keys_Permutation, Hs.
    + apply Forall_forall. intros t Ht.
      apply list_elem_of_filter in Ht as [Hne Ht].
      rewrite (shows_members _ _ _ Hs Ht). unfold group_ids.
      cbn [participants set_participants]. unfold remaining.
      rewrite list_filter_filter. apply eq_subrelation; [apply _|].
      f_equal. apply list_filter_iff. intros x.
      assert (p_group_id x = Some (t_id t)
              -> p_group_id x <> Some (t_id team))
        by (intros Hx; rewrite Hx; congruence).
      tauto.
Qed.

Lemma delete_team_is_two_requests_witness :
  (let '(db', p') :=
     handleDeleteTeam Scenarios.page_delete_team2 Scenarios.db_teams
                      Samples.rq_ok Samples.rq_ok in
   map g_name (groups db') = ["Team 1"; "Team 3"]%string /\
   map p_name (participants db') = ["Aina"; "Badrul"; "Devi"]%string /\
   shows db' (state p')) /\
  (let '(db', p') :=
     handleDeleteTeam Scenarios.page_delete_team2 Scenarios.db_teams
                      Samples.rq_ok Samples.rq_lost in
   map g_name (groups db') = ["Team 1"; "Team 2"; "Team 3"]%string /\
   map p_name (participants db') = ["Aina"; "Badrul"; "Devi"]%string /\
   teams (state p') = teams Scenarios.teams_state).
Proof.
  split.
  - pose proof (delete_team_is_two_requests
                  Scenarios.page_delete_team2 Scenarios.db_teams
                  Samples.rq_ok Samples.rq_ok Scenarios.team2
                  ltac:(by_compute) teams_state_shows eq_refl eq_refl) as H.
    destruct (handleDeleteTeam Scenarios.page_delete_team2
                Scenarios.db_teams Samples.rq_ok Samples.rq_ok) as [db' p'].
    change (delivered Samples.rq_ok) with true in H. cbv iota zeta in H.
    destruct H as (_ & _ & Hrows & Hgroups & _ & Hshows & _).
    split; [rewrite Hgroups; vm_compute; reflexivity|].
    split; [rewrite Hrows; vm_compute; reflexivity|exact Hshows].
  - pose proof (delete_team_is_two_requests
                  Scenarios.page_delete_team2 Scenarios.db_teams
                  Samples.rq_ok Samples.rq_lost Scenarios.team2
                  ltac:(by_compute) teams_state_shows eq_refl eq_refl) as H.
    destruct (handleDeleteTeam Scenarios.page_delete_team2
                Scenarios.db_teams Samples.rq_ok Samples.rq_lost) as [db' p'].
    change (delivered Samples.rq_ok) with true in H.
    change (delivered Samples.rq_lost) with false in H. cbv iota zeta in H.
    destruct H as (_ & _ & Hrows & Hgroups & Hteams & _).
    split; [rewrite Hgroups; vm_compute; reflexivity|].
    split; [rewrite Hrows; vm_compute; reflexivity|exact Hteams].
Defined.

(** ** Moving a participant *)

Lemma find_team (ts : list Team) t :
  NoDup (map t_id ts) -> t ∈ ts ->
  find (fun x => bool_decide (t_id x = t_id t)) ts = Some t.
Proof.
  induction ts as [|a ts IH]; intros Hnd Ht; [inversion Ht|].
  simpl in Hnd. apply NoDup_cons in Hnd as [Ha Hnd]. simpl.
  apply elem_of_cons in Ht as [->|Ht].
  - by rewrite bool_decide_eq_true_2.
  - rewrite bool_decide_eq_false_2; [by apply IH|].
    intros Heq. apply Ha. rewrite Heq. apply list_elem_of_fmap. eauto.
Qed.

Lemma name_or_empty (name : string) : default "" (or_null (Some name)) = name.
Proof. by destruct name. Qed.

Lemma elem_group_ids_move db pid T X i seq :
  i ∈ group_ids
        (set_participants db
           (map (fun r => if decide (p_id r = pid)
                          then set_group_id r (Some T) else r)
                (participants db)) seq) X
  <-> (i = pid /\ X = T /\ pid ∈ map p_id (participants db))
      \/ (i <> pid /\ i ∈ group_ids db X).
Proof.
  rewrite !elem_group_ids. cbn [participants set_participants]. split.
  - intros (x' & Hx' & <- & Hg).
    apply list_elem_of_fmap in Hx' as (x & -> & Hx).
    destruct (decide (p_id x = pid)) as [Hid|Hid].
    + left. simpl in *. split; [done|]. split; [congruence|].
      rewrite <- Hid. apply list_elem_of_fmap. eauto.
    + right. split; [done|]. exists x. by repeat split.
  - intros [(-> & -> & Hin)|(Hne & (x & Hx & <- & Hg))].
    + apply list_elem_of_fmap in Hin as (x & Hid & Hx).
      exists (set_group_id x (Some T)). split; [|by split].
      apply list_elem_of_fmap. exists x. split; [|done].
      by rewrite decide_True.
    + exists x. split; [|done]. apply list_elem_of_fmap. exists x.
      split; [|done]. by rewrite decide_False.
Qed.

(** [confirmMove], its request arriving, for a member of a team the page
    shows and a destination the dialog offers: the row of the participant
    names the destination, no other row and no group is changed, and the
    page, with the participant taken off the one team and put at the end
    of the other, goes on showing the store. The destination takes the
    participant whatever its size is. *)
Theorem move_changes_one_group p db rq part fromTeam toTeam :
  teams_ok db -> shows db (state p) ->
  selectedParticipant p = Some (part, t_id fromTeam) ->
  isMovingParticipant p = false ->
  fromTeam ∈ teams (state p) -> part ∈ t_members fromTeam ->
  toTeam ∈ destinations p ->
  delivered rq = true ->
  let '(db', p') := confirmMove p db (t_id toTeam) rq in
  participants db'
  = map (fun r => if decide (p_id r = tp_id part)
                  then set_group_id r (Some (t_id toTeam)) else r)
        (participants db) /\
  groups db' = groups db /\
  teams_ok db' /\ shows db' (state p') /\
  (forall t', t' ∈ teams (state p') -> t_id t' = t_id toTeam ->
     t_members t' = t_members toTeam ++ [part]) /\
  totalParticipants (state p') = totalParticipants (state p) /\
  moveResult p' = Some (tp_name part, t_name fromTeam, t_name toTeam) /\
  selectedParticipant p' = None /\ showMoveModal p' = false.
Proof.
  intros Hok Hs Hsel Hbusy Hfrom Hpart Hto Hd.
  unfold destinations in Hto. rewrite Hsel in Hto.
  apply list_elem_of_filter in Hto as [Hne Hto].
  pose proof Hok as (Hgk & Hpk & Hseq & Hgb & Hpb & Hfk).
  pose proof (shows_NoDup_teams _ _ Hok Hs) as Hnd.
  destruct (shows_member_row _ _ _ _ Hs Hfrom Hpart) as (r & Hr & Hid & Hg).
  assert (tp_id part ∈ map p_id (participants db)) as Hin
    by (rewrite <- Hid; apply list_elem_of_fmap; eauto).
  assert (t_id toTeam ∈ map g_id (groups db)) as Hgin.
  { rewrite <- (shows_team_ids _ _ Hs). apply list_elem_of_fmap. eauto. }
  assert (forall X, tp_id part ∈ group_ids db X -> X = t_id fromTeam) as Huniq.
  { intros X HX. apply elem_group_ids in HX as (x & Hx & Hxid & Hxg).
    pose proof (shows_member_group _ _ _ _ _ Hok Hs Hfrom Hpart Hx Hxid).
    congruence. }
  unfold confirmMove, update_participant_group.
  rewrite Hsel, Hbusy, Hd.
  rewrite (bool_decide_eq_true_2 _ Hin). unfold group_exists.
  rewrite (bool_decide_eq_true_2 _ Hgin).
  rewrite (find_team _ _ Hnd Hfrom), (find_team _ _ Hnd Hto).
  cbn [fmap option_fmap option_map]. rewrite !name_or_empty.
  cbn [participants groups set_participants state confirmMove_done set_teams
       teams totalParticipants moveResult selectedParticipant showMoveModal].
  split; [done|]. split; [done|].
  split; [|split; [|split; [|done]]].
  - unfold teams_ok.
    cbn [participants groups set_participants groups_seq participants_seq].
    split; [done|]. split.
    { rewrite map_map.
      rewrite (AttendanceFacts.map_same_on _ p_id); [done|].
      intros x _. by destruct (decide (p_id x = tp_id part)). }
    split; [done|]. split; [done|]. split.
    + apply Forall_fmap. eapply Forall_impl; [exact Hpb|].
      intros x Hx. simpl. by destruct (decide (p_id x = tp_id part)).
    + apply Forall_fmap. apply Forall_forall. intros x Hx.
      rewrite Forall_forall in Hfk. specialize (Hfk x Hx). simpl.
      unfold group_exists in *. cbn [groups set_participants].
      destruct (decide (p_id x = tp_id part)); [|done].
      simpl. by apply bool_decide_eq_true_2.
  - apply shows_intro;
      cbn [participants groups set_participants teams state set_teams
           confirmMove_done].
    + rewrite fmap_same_keys; [apply Hs|].
      intros t. unfold moved.
      by destruct (decide (t_id t = t_id fromTeam)),
                  (decide (t_id t = t_id toTeam)).
    + rewrite map_map.
      rewrite (AttendanceFacts.map_same_on _ p_id); [done|].
      intros x _. by destruct (decide (p_id x = tp_id part)).
    + intros t' Ht'. apply list_elem_of_fmap in Ht' as (t & -> & Ht).
      pose proof (shows_members _ _ _ Hs Ht) as Hperm.
      pose proof (shows_NoDup_members _ _ _ Hok Hs Ht) as Hndm.
      assert (t_id (moved part (t_id fromTeam) (t_id toTeam) t) = t_id t)
        as Htid.
      { unfold moved.
        by destruct (decide (t_id t = t_id fromTeam)),
                    (decide (t_id t = t_id toTeam)). }
      rewrite Htid. unfold moved.
      destruct (decide (t_id t = t_id fromTeam)) as [HF|HF].
      * cbn [t_members without_member]. split; [by apply NoDup_fmap_filter|].
        intros i. rewrite elem_without, elem_group_ids_move, Hperm.
        split; [intros [? ?]; by right|].
        intros [(_ & HT & _)|?]; [|done]. congruence.
      * assert (tp_id part ∉ map tp_id (t_members t)) as Hnot.
        { rewrite Hperm. intros Hp. by apply HF, Huniq. }
        destruct (decide (t_id t = t_id toTeam)) as [HT|HT].
        -- cbn [t_members]. rewrite map_app. cbn [map]. split.
           ++ apply NoDup_app. split; [done|]. split; [|apply NoDup_singleton].
              intros x Hx Hx'. apply list_elem_of_singleton in Hx'.
              by subst.
           ++ intros i. rewrite elem_of_app, list_elem_of_singleton.
              rewrite elem_group_ids_move, <- Hperm. split.
              ** intros [Hi| ->]; [right|by left].
                 split; [|done]. by intros ->.
              ** intros [(-> & _)|[_ ?]]; [by right|by left].
        -- split; [done|]. intros i.
           rewrite elem_group_ids_move, <- Hperm. split.
           ++ intros Hi. right. split; [|done]. by intros ->.
           ++ intros [(_ & ? & _)|[_ ?]]; done.
  - intros t' Ht' Hid'. apply list_elem_of_fmap in Ht' as (t & -> & Ht).
    assert (t = toTeam) as ->.
    { apply (NoDup_fmap_eq t_id (teams (state p))); try done.
      rewrite <- Hid'. unfold moved.
      by destruct (decide (t_id t = t_id fromTeam)),
                  (decide (t_id t = t_id toTeam)). }
    unfold moved. rewrite decide_False by done. by rewrite decide_True.
Qed.

Lemma crowded_state_shows :
  shows Scenarios.db_crowded Scenarios.crowded_state.
Proof.
  apply (fetchTeamsAndParticipants_shows (mkState [] 0 "" false None None)
           Scenarios.db_crowded true Samples.rq_ok Samples.rq_ok).
  - by_compute.
  - reflexivity.
  - reflexivity.
Qed.

Lemma move_changes_one_group_witness :
  let '(db', p') :=
    confirmMove Scenarios.page_move_farah Scenarios.db_crowded 1
                Samples.rq_ok in
  map (fun r => (p_name r, p_group_id r)) (participants db')
  = [("Aina", Some 1); ("Badrul", Some 1); ("Chong", Some 1);
     ("Devi", Some 1); ("Ehsan", Some 1); ("Farah", Some 1)]%string /\
  map (fun t => length (t_members t)) (teams (state p')) = [6; 0]%nat /\
  shows db' (state p').
Proof.
  pose proof (move_changes_one_group
                Scenarios.page_move_farah Scenarios.db_crowded Samples.rq_ok
                Scenarios.farah
                (mkTeam 2 "Team 2" [Scenarios.farah])
                (hd (mkTeam 0 "" []) (teams Scenarios.crowded_state))
                ltac:(by_compute) crowded_state_shows eq_refl eq_refl
                ltac:(vm_compute; right; left) ltac:(left)
                ltac:(vm_compute; left) eq_refl) as H.
  change (t_id (hd (mkTeam 0 "" []) (teams Scenarios.crowded_state)))
    with 1 in H.
  destruct (confirmMove Scenarios.page_move_farah Scenarios.db_crowded 1
              Samples.rq_ok) as [db' p'] eqn:Hcall.
  destruct H as (Hrows & _ & _ & Hshows & _).
  split; [rewrite Hrows; vm_compute; reflexivity|].
  split; [|exact Hshows].
  vm_compute in Hcall. by simplify_eq.
Defined.

(** ** Adding a team, registering a participant *)

Lemma shows_ext db st st' : teams st' = teams st -> shows db st -> shows db st'.
Proof. unfold shows. by intros ->. Qed.

(** No participant names a group that does not exist yet. *)
Lemma group_ids_fresh db :
  teams_ok db -> group_ids db (groups_seq db) = [].
Proof.
  intros (_ & _ & _ & Hgb & _ & Hfk). unfold group_ids.
  rewrite AttendanceFacts.filter_none; [done|].
  intros x Hx Hg. rewrite Forall_forall in Hfk. specialize (Hfk x Hx).
  rewrite Hg in Hfk. apply bool_decide_eq_true in Hfk.
  apply list_elem_of_fmap in Hfk as (g & Hid & Hgin).
  rewrite Forall_forall in Hgb. apply Hgb in Hgin. lia.
Qed.

(** An accepted INSERT of a group, the new team being put at the end of
    the teams of the page. *)
Lemma insert_group_shows st db rq name g db1 st1 :
  teams_ok db -> shows db st ->
  insert_group rq db name = (Ok g, db1) ->
  teams st1 = teams st ++ [mkTeam (g_id g) (g_name g) []] ->
  teams_ok db1 /\ shows db1 st1.
Proof.
  intros Hok Hs Hins Hts.
  pose proof (group_ids_fresh _ Hok) as Hfresh.
  pose proof Hok as (Hgk & Hpk & Hseq & Hgb & Hpb & Hfk).
  apply TeamsFacts.insert_group_inv in Hins
    as (_ & Hps & Hpseq & _ & _ & _ & -> & Hgs & Hgseq).
  assert (groups_seq db ∉ map g_id (groups db)) as Hnew.
  { intros Hin. apply list_elem_of_fmap in Hin as (x & Hx & Hin).
    rewrite Forall_forall in Hgb. apply Hgb in Hin. lia. }
  split.
  - unfold teams_ok. rewrite Hps, Hpseq, Hgs, Hgseq.
    split.
    { rewrite map_app. apply NoDup_app. split; [done|].
      split; [|apply NoDup_singleton].
      intros x Hx Hx'. apply list_elem_of_singleton in Hx'. by subst. }
    split; [done|]. split; [lia|]. split; [|split; [done|]].
    + apply Forall_app. split.
      * eapply Forall_impl; [exact Hgb|]. intros x Hx. simpl in *. lia.
      * apply Forall_singleton. simpl. lia.
    + eapply Forall_impl; [exact Hfk|]. intros x Hx. simpl in *.
      unfold group_exists in *. rewrite Hgs.
      destruct (p_group_id x) as [i|]; [|done].
      apply bool_decide_eq_true in Hx. apply bool_decide_eq_true.
      rewrite map_app. apply elem_of_app. by left.
  - unfold shows. rewrite Hts, Hgs, !map_app. split.
    + apply Permutation_app; [apply Hs|done].
    + apply Forall_app. split.
      * eapply Forall_impl; [apply Hs|]. intros t Ht. simpl in *.
        unfold group_ids in *. by rewrite Hps.
      * apply Forall_singleton. simpl. unfold group_ids in *.
        by rewrite Hps, Hfresh.
Qed.

(** An accepted INSERT of a participant, the new member being put at the
    end of the team on the page. *)
Lemma insert_participant_shows st db rq name gid uid row db' st' :
  teams_ok db -> shows db st ->
  insert_participant rq db name (Some gid) uid = (Ok row, db') ->
  teams st' = map (add_member gid (participant_of_row row)) (teams st) ->
  teams_ok db' /\ shows db' st'.
Proof.
  intros Hok Hs Hins Hts.
  pose proof Hok as (Hgk & Hpk & Hseq & Hgb & Hpb & Hfk).
  apply TeamsFacts.insert_participant_inv in Hins
    as (_ & Hgs & Hgseq & _ & _ & _ & -> & Hps & Hpseq & Hge & _).
  assert (participants_seq db ∉ map p_id (participants db)) as Hnew.
  { intros Hin. apply list_elem_of_fmap in Hin as (x & Hx & Hin).
    rewrite Forall_forall in Hpb. apply Hpb in Hin. lia. }
  split.
  - unfold teams_ok. rewrite Hps, Hpseq, Hgs, Hgseq.
    split; [done|]. split.
    { rewrite map_app. apply NoDup_app. split; [done|].
      split; [|apply NoDup_singleton].
      intros x Hx Hx'. apply list_elem_of_singleton in Hx'. by subst. }
    split; [done|]. split; [done|]. split.
    + apply Forall_app. split.
      * eapply Forall_impl; [exact Hpb|]. intros x Hx. simpl in *. lia.
      * apply Forall_singleton. simpl. lia.
    + apply Forall_app. split.
      * eapply Forall_impl; [exact Hfk|]. intros x Hx. simpl in *.
        unfold group_exists in *. by rewrite Hgs.
      * apply Forall_singleton. simpl. unfold group_exists in *.
        by rewrite Hgs.
  - unfold shows. rewrite Hts, Hgs. split.
    + rewrite fmap_same_keys; [apply Hs|].
      intros t. unfold add_member. by destruct (decide (t_id t = gid)).
    + apply Forall_fmap, Forall_forall. intros t Ht. simpl.
      pose proof (shows_members _ _ _ Hs Ht) as Hperm.
      unfold group_ids in *. rewrite Hps, filter_app, map_app.
      unfold add_member. destruct (decide (t_id t = gid)) as [Heq|Hne].
      * cbn [t_id t_members]. rewrite map_app.
        apply Permutation_app; [done|].
        rewrite filter_cons_True by (simpl; congruence). done.
      * rewrite filter_cons_False by (simpl; congruence).
        simpl. by rewrite app_nil_r.
Qed.

(** [handleAddTeam] names the new group by the number of teams. When its
    request arrives, the group is added after the others, empty, no
    participant is touched and the page goes on showing the store; if a
    group already bears that name, two groups have the same name
    afterwards. When the request fails, nothing is changed and the error
    is reported. *)
Theorem add_team_numbers_by_count st db rq :
  teams_ok db -> shows db st ->
  let '(db', st') := handleAddTeam st db rq in
  let name := "Team " +:+ pretty (length (groups db) + 1)%nat in
  if delivered rq then
    groups db' = groups db ++ [mkGroup (groups_seq db) name (NOW rq)] /\
    participants db' = participants db /\
    teams st' = teams st ++ [mkTeam (groups_seq db) name []] /\
    teams_ok db' /\ shows db' st' /\
    (name ∈ map g_name (groups db) -> ~ NoDup (map g_name (groups db')))
  else
    db' = db /\ teams st' = teams st /\
    error st' = Some "Failed to add team"%string.
Proof.
  intros Hok Hs. unfold handleAddTeam.
  rewrite (TeamsFacts.in_sync_length _ _ (shows_in_sync _ _ Hs)).
  destruct (insert_group rq db _) as [r db1] eqn:Hins.
  pose proof Hok as (_ & _ & _ & Hgb & _).
  assert (groups_seq db ∉ map g_id (groups db)) as Hnew.
  { intros Hin. apply list_elem_of_fmap in Hin as (x & Hx & Hin).
    rewrite Forall_forall in Hgb. apply Hgb in Hin. lia. }
  destruct (delivered rq) eqn:Hd.
  - assert (r = Ok (mkGroup (groups_seq db)
                      ("Team " +:+ pretty (length (groups db) + 1)%nat)
                      (NOW rq))) as ->.
    { unfold insert_group in Hins. rewrite Hd in Hins.
      rewrite bool_decide_eq_false_2 in Hins by done. by simplify_eq. }
    pose proof (insert_group_shows st db rq _ _ db1
                  (set_teams st
                     (teams st ++ [mkTeam (groups_seq db)
                        ("Team " +:+ pretty (length (groups db) + 1)%nat) []])
                     (totalParticipants st))
                  Hok Hs Hins eq_refl) as [Hok' Hs'].
    apply TeamsFacts.insert_group_inv in Hins as (_ & Hps & _ & _ & _ & _ & _ & Hgs & _).
    cbv zeta. split; [done|]. split; [done|]. split; [done|].
    split; [done|]. split; [done|].
    intros Hin Hnd. rewrite Hgs, map_app in Hnd.
    apply NoDup_app in Hnd as (_ & Hnd & _).
    apply (Hnd _ Hin). simpl. left.
  - unfold insert_group in Hins. rewrite Hd in Hins. by simplify_eq.
Qed.

Lemma state_without_team2_shows :
  shows Scenarios.db_without_team2 Scenarios.state_without_team2.
Proof.
  apply (fetchTeamsAndParticipants_shows (mkState [] 0 "" false None None)
           Scenarios.db_without_team2 true Samples.rq_ok Samples.rq_ok).
  - by_compute.
  - reflexivity.
  - reflexivity.
Qed.

Lemma add_team_numbers_by_count_witness :
  let '(db', st') :=
    handleAddTeam Scenarios.state_without_team2 Scenarios.db_without_team2
                  Samples.rq_ok in
  map g_name (groups db') = ["Team 1"; "Team 3"; "Team 3"]%string /\
  ~ NoDup (map g_name (groups db')) /\
  shows db' st'.
Proof.
  pose proof (add_team_numbers_by_count
                Scenarios.state_without_team2 Scenarios.db_without_team2
                Samples.rq_ok ltac:(by_compute) state_without_team2_shows)
    as H.
  destruct (handleAddTeam Scenarios.state_without_team2
              Scenarios.db_without_team2 Samples.rq_ok) as [db' st'].
  change (delivered Samples.rq_ok) with true in H. cbv iota zeta in H.
  destruct H as (Hgroups & _ & _ & _ & Hshows & Hname).
  split; [rewrite Hgroups; vm_compute; reflexivity|].
  split; [|exact Hshows].
  apply Hname. vm_compute. right. left.
Defined.

(** A registration that succeeds leaves a page that shows the store: the
    optimistic update of the teams is what a fetch would give, up to the
    order. *)
Theorem registration_keeps_page_showing st db user env row teamName db' st' :
  teams_ok db -> shows db st ->
  handleAddParticipant st db user env = (Registered row teamName, db', st') ->
  teams_ok db' /\ shows db' st' /\
  totalParticipants st' = totalParticipants st + 1.
Proof.
  intros Hok Hs H. unfold handleAddParticipant in H.
  destruct (negb (truthy _) || isAddingParticipant st); [by simplify_eq|].
  destruct (filter _ (teams st)) as [|t0 rest] eqn:Hav.
  - destruct (insert_group _ db _) as [[g|e] db1] eqn:Hg; [|by simplify_eq].
    unfold insert_and_assign in H.
    destruct (insert_participant _ db1 _ _ _) as [[row'|e] db2] eqn:Hp;
      [|by simplify_eq].
    simplify_eq.
    destruct (insert_group_shows st db _ _ g db1
                (set_teams st (teams st ++ [mkTeam (g_id g) (g_name g) []])
                           (totalParticipants st))
                Hok Hs Hg eq_refl) as [Hok1 Hs1].
    destruct (insert_participant_shows _ db1 _ _ _ _ row db'
                (mkState (map (add_member (g_id g) (participant_of_row row))
                              (teams st ++ [mkTeam (g_id g) (g_name g) []]))
                         (totalParticipants st + 1) "" false
                         (Some (trim (newParticipantName st), g_name g))
                         (error st))
                Hok1 Hs1 Hp eq_refl) as [Hok2 Hs2].
    done.
  - destruct ((t0 :: rest) !! random_index env) as [team|]; [|by simplify_eq].
    unfold insert_and_assign in H.
    destruct (insert_participant _ db _ _ _) as [[row'|e] db2] eqn:Hp;
      [|by simplify_eq].
    simplify_eq.
    destruct (insert_participant_shows st db _ _ _ _ row db'
                (mkState (map (add_member (t_id team) (participant_of_row row))
                              (teams st))
                         (totalParticipants st + 1) "" false
                         (Some (trim (newParticipantName st), t_name team))
                         (error st))
                Hok Hs Hp eq_refl) as [Hok2 Hs2].
    done.
Qed.

Lemma registration_keeps_page_showing_witness :
  let '(o, db', st') :=
    handleAddParticipant Scenarios.teams_state_typed Scenarios.db_teams
      (Some Samples.admin_user) (mkAddEnv Samples.rq_ok Samples.rq_ok 0) in
  is_registered o /\ shows db' st' /\
  map p_name (participants db')
  = ["Aina"; "Badrul"; "Chong"; "Devi"; "Ehsan"]%string.
Proof.
  destruct (handleAddParticipant Scenarios.teams_state_typed
              Scenarios.db_teams (Some Samples.admin_user)
              (mkAddEnv Samples.rq_ok Samples.rq_ok 0))
    as [[o db'] st'] eqn:Hcall.
  assert (exists row name, o = Registered row name) as (row & name & ->).
  { vm_compute in Hcall. injection Hcall as <- _ _. eauto. }
  split; [exact I|]. split.
  - apply (registration_keeps_page_showing
             Scenarios.teams_state_typed Scenarios.db_teams
             (Some Samples.admin_user)
             (mkAddEnv Samples.rq_ok Samples.rq_ok 0) row name db' st'
             ltac:(by_compute)
             (shows_ext _ _ Scenarios.teams_state_typed eq_refl
                        teams_state_shows)
             Hcall).
  - vm_compute in Hcall. by simplify_eq.
Defined.

End TeamsPageFacts.

(* ===================================================================== *)
(** * Properties of the printed report *)
(* ===================================================================== *)

Module ReportFacts.

Import JSText Report.

(** The page count computed in binary64 is the count of whole and
    started pages, for every report of up to a thousand cards. *)
Lemma pageCount_checked :
  forallb (fun n => Nat.eqb (pageCount n) ((n + 5) / 6)) (seq 0 1001) = true.
Proof. vm_compute. reflexivity. Qed.

Lemma pageCount_spec n : (n <= 1000)%nat -> pageCount n = ((n + 5) / 6)%nat.
Proof.
  intros Hn. pose proof pageCount_checked as H.
  rewrite forallb_forall in H. apply Nat.eqb_eq, H.
  apply in_seq. lia.
Qed.

(** Cutting a list into slices of six. *)
Lemma slices_concat {A} (k : nat) : forall l : list A,
  (length l <= k * 6)%nat ->
  concat (map (fun i => slice (i * 6) ((i + 1) * 6) l) (seq 0 k)) = l.
Proof.
  induction k as [|k IH]; intros l Hl.
  { destruct l; [done|simpl in Hl; lia]. }
  rewrite <- cons_seq, <- fmap_S_seq. cbn [map concat fmap list_fmap].
  trans (take 6 l ++ drop 6 l); [|apply take_drop]. f_equal.
  etrans; [|apply (IH (drop 6 l)); rewrite length_drop; lia].
  f_equal. change (list_fmap nat nat S (seq 0 k)) with (map S (seq 0 k)).
  rewrite map_map. apply map_ext. intros i.
  unfold slice. rewrite drop_drop.
  replace (S i * 6)%nat with (6 + i * 6)%nat by lia.
  f_equal; lia.
Qed.

Lemma slice_lookup {A} (l : list A) i j :
  (j < 6)%nat ->
  slice (i * 6) ((i + 1) * 6) l !! j = l !! (i * 6 + j)%nat.
Proof.
  intros Hj. unfold slice. rewrite lookup_take_lt by lia.
  by rewrite lookup_drop.
Qed.

(** The printed pages of a report of up to a thousand cards, one after
    the other, are the report: no card is lost or printed twice. Every
    page holds at least one and at most six cards, and the card numbered
    [n] is the [n]-th entry of the report. *)
Theorem print_pages_are_the_report {A} (filteredData : list A) :
  (length filteredData <= 1000)%nat ->
  concat (printPages filteredData) = filteredData /\
  Forall (fun page => (1 <= length page <= 6)%nat) (printPages filteredData) /\
  forall pageIndex index page card,
    printPages filteredData !! pageIndex = Some page ->
    page !! index = Some card ->
    filteredData !! (cardNumber pageIndex index - 1)%nat = Some card.
Proof.
  intros Hlen. unfold printPages. rewrite pageCount_spec by done.
  set (n := length filteredData) in *.
  assert (n <= (n + 5) / 6 * 6)%nat as Hcover.
  { pose proof (Nat.div_mod_eq (n + 5) 6) as Hdm.
    pose proof (Nat.mod_upper_bound (n + 5) 6). lia. }
  assert (forall i, (i < (n + 5) / 6)%nat -> (i * 6 < n)%nat) as Hstart.
  { intros i Hi. pose proof (Nat.div_mod_eq (n + 5) 6) as Hdm.
    pose proof (Nat.mod_upper_bound (n + 5) 6). nia. }
  split; [by apply slices_concat|]. split.
  - apply Forall_fmap, Forall_forall. intros i Hi.
    apply elem_of_seq in Hi as [_ Hi]. simpl in Hi.
    specialize (Hstart i Hi). unfold slice. simpl.
    rewrite length_take, length_drop. fold n. lia.
  - intros i j page card Hp Hc.
    rewrite list_lookup_fmap in Hp.
    destruct (seq 0 ((n + 5) / 6) !! i) as [i'|] eqn:Hi; [|done].
    apply lookup_seq in Hi as [-> _]. simpl in Hp. injection Hp as <-.
    assert (j < 6)%nat as Hj.
    { apply lookup_lt_Some in Hc. unfold slice in Hc.
      rewrite length_take in Hc. lia. }
    rewrite slice_lookup in Hc by done.
    unfold cardNumber. by replace (i * 6 + j + 1 - 1)%nat with (i * 6 + j)%nat by lia.
Qed.

Lemma print_pages_are_the_report_witness :
  map (map Attendance.ma_member_id) (printPages Samples.roster_23_of_40)
  = [[1; 2; 3; 4; 5; 6]; [7; 8; 9; 10; 11; 12]; [13; 14; 15; 16; 17; 18];
     [19; 20; 21; 22; 23; 24]; [25; 26; 27; 28; 29; 30];
     [31; 32; 33; 34; 35; 36]; [37; 38; 39; 40]] /\
  concat (printPages Samples.roster_23_of_40) = Samples.roster_23_of_40.
Proof.
  split; [vm_compute; reflexivity|].
  apply (print_pages_are_the_report Samples.roster_23_of_40).
  vm_compute. lia.
Defined.

End ReportFacts.
